(** * Embedding service of the portfolio backend: model and properties

    A shallow embedding of [app/services/embedding_service.py]
    (class [EmbeddingService]): the ingest pipeline [process_embeddings],
    the query pipeline [search], the statistics [get_stats] and the
    singleton protocol ([__new__], [__init__], [get_instance],
    [reset_instance]); and, around it, of the HTTP routes
    ([app/routers/embeddings.py]), the Markdown processor and loader
    ([app/services/markdown_processor.py]), the S3 client
    ([app/services/s3/S3Client.py]) and the script
    [scripts/embeddings_maker.py].

    Conventions of the model.
    - Python exceptions are values of [exn] (type name and [str(e)]); only
      subclasses of [Exception] are modelled.
    - Code that mutates [self], the files on disk, or calls a collaborator
      lives in the monad [M]: a state transformer that returns either a
      value or a raised exception, and keeps the effects made before the
      raise.
    - External collaborators (the S3 loader, the text splitter, FAISS, the
      hash function, the file system's faults) are fields of a [world]
      record: the model fixes what the service does with their answers, not
      the answers themselves.
    - Finite floating point numbers are rationals ([Q]). [search] and
      [_format_file_size] are first given with exact arithmetic ([py_div],
      [round]); the query pipeline is then given over an open number type
      ([arithmetic], [search_with]), of which exact arithmetic is one
      instance, for the statements that depend on how the quotient and the
      score are rounded.
    - [print] calls and the wall-clock field [execution_time] are left
      out. *)

From Stdlib Require Import Ascii String ZArith List QArith Qabs Lia Lqa.
From stdpp Require Import base option list gmap strings pretty sorting.
Import ListNotations.

Local Open Scope string_scope.
Local Open Scope list_scope.
Local Open Scope Z_scope.

(** ** Exceptions and results *)

Record exn := Exn { exn_type : string; exn_msg : string }.

Inductive result (A : Type) : Type :=
| Ok (a : A)
| Raise (e : exn).
Arguments Ok {A} a.
Arguments Raise {A} e.

Definition is_ok {A} (r : result A) : bool :=
  match r with Ok _ => true | Raise _ => false end.

Definition rbind {A B} (r : result A) (f : A -> result B) : result B :=
  match r with
  | Ok a => f a
  | Raise e => Raise e
  end.

(** ** Data model *)

(** [last_modified] is a string in the tests and a [datetime] when it comes
    from S3; [isoformat()] of the latter is kept with it. *)
Inductive last_modified_t :=
| LMStr (s : string)
| LMDatetime (iso : string).

(** The keys of [doc.metadata] the service reads; [None] is an absent key. *)
Record doc_metadata := {
  md_key : option string;
  md_source : option string;
  md_size : option Z;
  md_last_modified : option last_modified_t;
}.

(** langchain [Document]; chunks produced by the splitter are documents
    too. *)
Record document := Document {
  page_content : string;
  metadata : doc_metadata;
}.

#[global] Instance last_modified_eq_dec : EqDecision last_modified_t.
Proof. solve_decision. Defined.
#[global] Instance doc_metadata_eq_dec : EqDecision doc_metadata.
Proof. solve_decision. Defined.
#[global] Instance document_eq_dec : EqDecision document.
Proof. solve_decision. Defined.

(** The FAISS store, as far as the service looks into it: the chunks it
    was built from and the [ntotal] attribute of its raw index ([None] when
    the attribute is missing). *)
Record index := Index {
  docstore : list document;
  ntotal : option Z;
}.

(** [app/models/schemas.py] *)
Module schemas.

Record DocumentMetadata := {
  key : string;
  source : string;
  size : option Z;
  last_modified : option string;
}.

Record DocumentChunk := {
  content : string;
  metadata : DocumentMetadata;
  score : option Q;
}.

Record EmbeddingStats := {
  total_documents : Z;
  total_chunks : Z;
  last_update : option string;
  vector_store_size : option Z;
}.

End schemas.

Abbreviation DocumentChunk := schemas.DocumentChunk.
Abbreviation EmbeddingStats := schemas.EmbeddingStats.

(** The dict returned by [process_embeddings] (without [execution_time]). *)
Record ProcessResult := {
  success : bool;
  message : string;
  stats : EmbeddingStats;
}.

(** What [json.loads] can give back for the hash file: an object (the only
    thing [_save_hashes] writes, a dict from keys to hex digests), or some
    other JSON value, of which only [len] matters ([None]: [len] raises
    [TypeError], as for a number). *)
Inductive pyjson :=
| JDict (m : gmap string string)
| JOther (len : option nat).

Inductive hash_content :=
| Parsable (v : pyjson)
| Unparsable.

Record hash_file_t := {
  hf_content : hash_content;
  hf_mtime : Z;
}.

(** The directory [store_dir]: what [FAISS.load_local] would read back
    ([None]: nothing loadable) and the total size of its regular files. *)
Record store_t := {
  st_index : option index;
  st_bytes : Z;
}.

(** Calls to collaborators and writes to disk, in the order made. *)
Inductive event :=
| EvLoaderLoad
| EvSplit (docs : list document)
| EvFromDocuments (chunks : list document)
| EvMergeFrom (base new : index)
| EvSaveLocal (ix : index) (ok : bool)
| EvSaveHashes (hashes : gmap string string) (ok : bool)
| EvLoadVectorStore
| EvLoadLocal.

(** The state the service works on: the attribute [self.vector_store], the
    two persistent locations, and the trace. The hash file and the store
    directory are different paths ([settings.HASH_FILE],
    [settings.VECTOR_STORE_DIR]). *)
Record state := State {
  vector_store : option index;
  hash_file : option hash_file_t;
  store_dir : option store_t;
  trace : list event;
}.

Definition set_vector_store (v : option index) (s : state) : state :=
  State v (hash_file s) (store_dir s) (trace s).
Definition set_hash_file (h : option hash_file_t) (s : state) : state :=
  State (vector_store s) h (store_dir s) (trace s).
Definition set_store_dir (d : option store_t) (s : state) : state :=
  State (vector_store s) (hash_file s) d (trace s).
Definition log (ev : event) (s : state) : state :=
  State (vector_store s) (hash_file s) (store_dir s) (trace s ++ [ev]).

(** ** The collaborators *)

Record world := {
  (** [hashlib.sha256(text.encode("utf-8")).hexdigest()] *)
  sha256 : string -> string;
  (** [MarkdownLoader(bucket_name=...).load()] *)
  loader_load : result (list document);
  (** [RecursiveCharacterTextSplitter(chunk_size=..., chunk_overlap=...)] *)
  splitter_error : option exn;
  split_documents : list document -> result (list document);
  (** [OpenAIEmbeddings(model=settings.EMBEDDING_MODEL)] *)
  embeddings_error : option exn;
  (** [FAISS.from_documents(chunks, self.embeddings)] *)
  from_documents : list document -> result index;
  (** [base.merge_from(new)] works in place: the outcome, and what [base]
      holds afterwards. *)
  merge_from : index -> index -> result unit * index;
  (** [ix.similarity_search_with_score(query, k=max_results)]: chunks with
      their raw distances *)
  similarity_search_with_score :
    index -> string -> Z -> result (list (document * Q));
  (** size on disk of a saved index *)
  saved_size : index -> Z;
  (** [datetime.fromtimestamp(t).isoformat()] *)
  fromtimestamp_isoformat : Z -> result string;
  (** the time stamped on a file written in this run *)
  now : Z;
  (** faults of the file system: [Some e] makes the operation raise [e];
      a failed write also says what it leaves behind *)
  hash_exists_error : option exn;
  hash_read_error : option exn;
  hash_stat_error : option exn;
  hash_mkdir_error : option exn;
  hash_write_error : option (exn * option hash_file_t);
  store_exists_error : option exn;
  store_rglob_error : option exn;
  store_mkdir_error : option exn;
  save_local_error : option (exn * option store_t);
  load_local_error : option exn;
}.

(** ** The monad of effectful code *)

(** Computations over a store [S] that return a value or raise. *)
Definition ST (S A : Type) : Type := S -> result A * S.

Definition ret {S A} (a : A) : ST S A := fun s => (Ok a, s).
Definition raise {S A} (e : exn) : ST S A := fun s => (Raise e, s).
Definition bind {S A B} (c : ST S A) (f : A -> ST S B) : ST S B :=
  fun s => match c s with
           | (Ok a, s') => f a s'
           | (Raise e, s') => (Raise e, s')
           end.
(** [try: c except Exception as e: h e] *)
Definition try_catch {S A} (c : ST S A) (h : exn -> ST S A) : ST S A :=
  fun s => match c s with
           | (Ok a, s') => (Ok a, s')
           | (Raise e, s') => h e s'
           end.
Definition lift {S A} (r : result A) : ST S A := fun s => (r, s).
Definition gets {S A} (f : S -> A) : ST S A := fun s => (Ok (f s), s).
Definition modify {S} (f : S -> S) : ST S unit := fun s => (Ok tt, f s).
Definition fail_if {S} (o : option exn) : ST S unit :=
  match o with Some e => raise e | None => ret tt end.

(** Methods of the service run over [state]. *)
Definition M : Type -> Type := ST state.

Notation "x <- c ;; k" := (bind c (fun x => k))
  (at level 100, c at next level, right associativity).
Notation "c ;;; k" := (bind c (fun _ => k))
  (at level 100, right associativity).

(** ** Numbers *)

(** [a / b] in exact arithmetic; a zero divisor raises, as it does for
    Python floats. *)
Definition py_div (a b : Q) : result Q :=
  if Qeq_bool b 0 then Raise (Exn "ZeroDivisionError" "float division by zero")
  else Ok (a / b)%Q.

(** [round(x, ndigits)] in exact arithmetic: the multiple of
    [10^-ndigits] nearest to [x], ties going to the even one. *)
Definition round (x : Q) (ndigits : positive) : Q :=
  let scale := Z.pow_pos 10 ndigits in
  let n := Qnum x * scale in
  let d := Z.pos (Qden x) in
  let q := n / d in
  let r := n mod d in
  let z := if 2 * r <? d then q
           else if d <? 2 * r then q + 1
           else if Z.even q then q else q + 1 in
  Qmake z (Z.to_pos scale).

(** ** The service *)

Section Service.

Variable w : world.

(** *** File system and collaborator primitives *)

(** [self.hash_file.exists()] *)
Definition hash_file_exists : M bool :=
  fail_if (hash_exists_error w) ;;;
  gets (fun s => bool_decide (is_Some (hash_file s))).

(** [json.loads(self.hash_file.read_text())] *)
Definition hash_file_read_json : M pyjson :=
  fail_if (hash_read_error w) ;;;
  f <- gets hash_file ;;
  match f with
  | None => raise (Exn "FileNotFoundError" "No such file or directory")
  | Some f =>
      match hf_content f with
      | Parsable v => ret v
      | Unparsable => raise (Exn "JSONDecodeError" "Expecting value")
      end
  end.

(** [self.hash_file.stat().st_mtime] *)
Definition hash_file_mtime : M Z :=
  fail_if (hash_stat_error w) ;;;
  f <- gets hash_file ;;
  match f with
  | None => raise (Exn "FileNotFoundError" "No such file or directory")
  | Some f => ret (hf_mtime f)
  end.

(** [self.hash_file.write_text(json.dumps(hashes, indent=2))] *)
Definition hash_file_write (hashes : gmap string string) : M unit :=
  match hash_write_error w with
  | Some (e, rest) =>
      modify (set_hash_file rest) ;;;
      modify (log (EvSaveHashes hashes false)) ;;;
      raise e
  | None =>
      modify (set_hash_file
                (Some {| hf_content := Parsable (JDict hashes);
                         hf_mtime := now w |})) ;;;
      modify (log (EvSaveHashes hashes true))
  end.

(** [self.store_dir.exists()] *)
Definition store_dir_exists : M bool :=
  fail_if (store_exists_error w) ;;;
  gets (fun s => bool_decide (is_Some (store_dir s))).

(** [sum(f.stat().st_size for f in self.store_dir.rglob('*') if f.is_file())] *)
Definition store_dir_size : M Z :=
  fail_if (store_rglob_error w) ;;;
  d <- gets store_dir ;;
  match d with
  | None => ret 0
  | Some d => ret (st_bytes d)
  end.

(** [self.store_dir.mkdir(parents=True, exist_ok=True)] *)
Definition store_dir_mkdir : M unit :=
  fail_if (store_mkdir_error w) ;;;
  modify (fun s => match store_dir s with
                   | Some _ => s
                   | None => set_store_dir (Some {| st_index := None; st_bytes := 0 |}) s
                   end).

(** [ix.save_local(self.store_dir.as_posix())] *)
Definition save_local (ix : index) : M unit :=
  match save_local_error w with
  | Some (e, rest) =>
      modify (set_store_dir rest) ;;;
      modify (log (EvSaveLocal ix false)) ;;;
      raise e
  | None =>
      modify (set_store_dir
                (Some {| st_index := Some ix; st_bytes := saved_size w ix |})) ;;;
      modify (log (EvSaveLocal ix true))
  end.

(** [FAISS.load_local(self.store_dir.as_posix(), self.embeddings, ...)] *)
Definition load_local : M index :=
  modify (log EvLoadLocal) ;;;
  fail_if (load_local_error w) ;;;
  d <- gets store_dir ;;
  match d with
  | Some {| st_index := Some ix |} => ret ix
  | _ => raise (Exn "RuntimeError" "could not open index file for reading")
  end.

Definition load_documents : M (list document) :=
  modify (log EvLoaderLoad) ;;;
  lift (loader_load w).

Definition RecursiveCharacterTextSplitter : M unit :=
  fail_if (splitter_error w).

Definition text_splitter_split_documents (docs : list document) : M (list document) :=
  modify (log (EvSplit docs)) ;;;
  lift (split_documents w docs).

Definition FAISS_from_documents (chunks : list document) : M index :=
  modify (log (EvFromDocuments chunks)) ;;;
  lift (from_documents w chunks).

(** [self.vector_store.merge_from(new_vector_store)]; the caller has checked
    that [self.vector_store] is [base]. *)
Definition vector_store_merge_from (base new : index) : M unit :=
  modify (log (EvMergeFrom base new)) ;;;
  modify (set_vector_store (Some (merge_from w base new).2)) ;;;
  lift (merge_from w base new).1.

(** *** Methods *)

(** [_load_vector_store] *)
Definition _load_vector_store : M unit :=
  modify (log EvLoadVectorStore) ;;;
  try_catch
    (ex <- store_dir_exists ;;
     if ex : bool then
       ix <- load_local ;;
       modify (set_vector_store (Some ix))
     else ret tt)
    (fun _ => modify (set_vector_store None)).

Definition _sha256 (text : string) : string := sha256 w text.

(** [_load_previous_hashes] *)
Definition _load_previous_hashes : M pyjson :=
  ex <- hash_file_exists ;;
  if ex : bool then
    try_catch hash_file_read_json (fun _ => ret (JDict ∅))
  else ret (JDict ∅).

(** [_save_hashes]: the handler prints and re-raises. *)
Definition _save_hashes (hashes : gmap string string) : M unit :=
  try_catch
    (fail_if (hash_mkdir_error w) ;;;
     hash_file_write hashes)
    (fun e => raise e).

(** [len(hashes)] *)
Definition py_len (v : pyjson) : result Z :=
  match v with
  | JDict m => Ok (Z.of_nat (size m))
  | JOther (Some n) => Ok (Z.of_nat n)
  | JOther None => Raise (Exn "TypeError" "object has no len()")
  end.

(** [prev_hashes.get(key)] *)
Definition py_get (v : pyjson) (k : string) : result (option string) :=
  match v with
  | JDict m => Ok (m !! k)
  | JOther _ => Raise (Exn "AttributeError" "object has no attribute 'get'")
  end.

Definition zero_stats : EmbeddingStats :=
  {| schemas.total_documents := 0;
     schemas.total_chunks := 0;
     schemas.last_update := None;
     schemas.vector_store_size := None |}.

(** The body of the [try] block of [get_stats]. *)
Definition get_stats_body : M EmbeddingStats :=
  hashes <- _load_previous_hashes ;;
  total_documents <- lift (py_len hashes) ;;
  vs <- gets vector_store ;;
  let total_chunks :=
    match vs with
    | Some ix => match ntotal ix with Some n => n | None => 0 end
    | None => 0
    end in
  ex <- hash_file_exists ;;
  last_update <-
    (if ex : bool then
       t <- hash_file_mtime ;;
       iso <- lift (fromtimestamp_isoformat w t) ;;
       ret (Some iso)
     else ret None) ;;
  sx <- store_dir_exists ;;
  vector_store_size <-
    (if sx : bool then
       try_catch (n <- store_dir_size ;; ret (Some n)) (fun _ => ret None)
     else ret None) ;;
  ret {| schemas.total_documents := total_documents;
         schemas.total_chunks := total_chunks;
         schemas.last_update := last_update;
         schemas.vector_store_size := vector_store_size |}.

(** [get_stats] *)
Definition get_stats : M EmbeddingStats :=
  try_catch get_stats_body (fun _ => ret zero_stats).


(** The statistics [get_stats] reports in state [s]. *)
Definition stats_in (s : state) : EmbeddingStats :=
  match (get_stats_body s).1 with
  | Ok st => st
  | Raise _ => zero_stats
  end.

(** *** Ingest *)

Definition change_set : Type :=
  list document * list document * gmap string string.

(** One turn of the loop over [documents] in [process_embeddings]:
    [acc] holds [new_docs], [kept_docs] and [current_hashes]. *)
Definition classify_step (prev_hashes : pyjson) (acc : change_set)
    (doc : document) : result change_set :=
  let '(new_docs, kept_docs, current_hashes) := acc in
  match md_key (metadata doc) with
  | None => Raise (Exn "KeyError" "'key'")
  | Some key =>
      let content_hash := _sha256 (page_content doc) in
      let current_hashes := <[key := content_hash]> current_hashes in
      rbind (py_get prev_hashes key) (fun stored =>
        if decide (stored ≠ Some content_hash)
        then Ok (new_docs ++ [doc], kept_docs, current_hashes)
        else Ok (new_docs, kept_docs ++ [doc], current_hashes))
  end.

Fixpoint classify_loop (prev_hashes : pyjson) (documents : list document)
    (acc : change_set) : result change_set :=
  match documents with
  | [] => Ok acc
  | doc :: rest =>
      rbind (classify_step prev_hashes acc doc) (classify_loop prev_hashes rest)
  end.

(** Lines 94-108: the previous hashes, then the loop. *)
Definition classify (force_update : bool) (documents : list document) :
    M change_set :=
  prev_hashes <- (if force_update then ret (JDict ∅)
                  else _load_previous_hashes) ;;
  lift (classify_loop prev_hashes documents ([], [], ∅)).

(** The hash stored for a document in a fingerprint map, and the
    classification rule: to-process when it is not the current hash. *)
Definition stored_hash (prev : gmap string string) (doc : document) :
    option string :=
  md_key (metadata doc) ≫= (prev !!.).

Definition to_process (prev : gmap string string) (doc : document) : Prop :=
  stored_hash prev doc ≠ Some (_sha256 (page_content doc)).

#[global] Instance to_process_dec prev doc : Decision (to_process prev doc).
Proof. unfold to_process. apply _. Defined.

(** [current_hashes[key] = content_hash] for one document. *)
Definition record_hash (m : gmap string string) (doc : document) :
    gmap string string :=
  match md_key (metadata doc) with
  | Some key => <[key := _sha256 (page_content doc)]> m
  | None => m
  end.

Definition has_key (doc : document) : Prop := is_Some (md_key (metadata doc)).

Definition is_empty {A} (l : list A) : bool :=
  match l with [] => true | _ => false end.

Definition up_to_date_message : string :=
  "No changes detected. Vector store is up to date.".

Definition success_message (new_docs chunks : list document) : string :=
  "Successfully processed " +:+ pretty (length new_docs)
  +:+ " documents and created " +:+ pretty (length chunks) +:+ " chunks".

Definition error_message (e : exn) : string :=
  "Error processing embeddings: " +:+ exn_msg e.

(** Lines 131-141: create or update the vector store. *)
Definition update_vector_store (force_update : bool)
    (documents chunks : list document) : M unit :=
  vs <- gets vector_store ;;
  match vs, force_update with
  | Some base, false =>
      if is_empty chunks then ret tt
      else
        new_vector_store <- FAISS_from_documents chunks ;;
        vector_store_merge_from base new_vector_store
  | _, _ =>
      all_chunks <- text_splitter_split_documents documents ;;
      ix <- FAISS_from_documents all_chunks ;;
      modify (set_vector_store (Some ix))
  end.

(** Lines 143-145: save the vector store. *)
Definition save_vector_store : M unit :=
  store_dir_mkdir ;;;
  vs <- gets vector_store ;;
  match vs with
  | Some ix => save_local ix
  | None =>
      raise (Exn "AttributeError"
                 "'NoneType' object has no attribute 'save_local'")
  end.

(** The body of the [try] block of [process_embeddings]. *)
Definition process_body (force_update : bool) : M ProcessResult :=
  documents <- load_documents ;;
  if is_empty documents then
    st <- get_stats ;;
    ret {| success := false;
           message := "No documents found to process";
           stats := st |}
  else
    cs <- classify force_update documents ;;
    let '(new_docs, kept_docs, current_hashes) := cs in
    if is_empty new_docs && negb force_update then
      st <- get_stats ;;
      ret {| success := true; message := up_to_date_message; stats := st |}
    else
      RecursiveCharacterTextSplitter ;;;
      chunks <- text_splitter_split_documents new_docs ;;
      update_vector_store force_update documents chunks ;;;
      save_vector_store ;;;
      _save_hashes current_hashes ;;;
      st <- get_stats ;;
      ret {| success := true;
             message := success_message new_docs chunks;
             stats := st |}.

(** [process_embeddings] *)
Definition process_embeddings (force_update : bool) : M ProcessResult :=
  try_catch (process_body force_update)
    (fun e =>
       st <- get_stats ;;
       ret {| success := false; message := error_message e; stats := st |}).

(** *** Query *)

Definition not_ready : exn :=
  Exn "ValueError" "Vector store not available. Please process embeddings first.".

Definition search_error (e : exn) : exn :=
  Exn "ValueError" ("Search error: " +:+ exn_msg e).

(** [1 / (1 + score)] *)
Definition similarity_of (score : Q) : result Q :=
  py_div 1 (1 + score)%Q.

Definition to_chunk (doc : document) (similarity : Q) : DocumentChunk :=
  let last_modified :=
    match md_last_modified (metadata doc) with
    | Some (LMDatetime iso) => Some iso
    | Some (LMStr s) => Some s
    | None => None
    end in
  {| schemas.content := page_content doc;
     schemas.metadata :=
       {| schemas.key := default "unknown" (md_key (metadata doc));
          schemas.source := default "unknown" (md_source (metadata doc));
          schemas.size := md_size (metadata doc);
          schemas.last_modified := last_modified |};
     schemas.score := Some (round similarity 4) |}.

(** The loop over [results] in [search]; [chunks] is the list built so
    far. *)
Fixpoint filter_results (threshold : Q) (results : list (document * Q))
    (chunks : list DocumentChunk) : result (list DocumentChunk) :=
  match results with
  | [] => Ok chunks
  | (doc, score) :: rest =>
      rbind (similarity_of score) (fun similarity =>
        if Qle_bool threshold similarity
        then filter_results threshold rest (chunks ++ [to_chunk doc similarity])
        else filter_results threshold rest chunks)
  end.

(** [search] *)
Definition search (query : string) (max_results : Z) (threshold : Q) :
    M (list DocumentChunk) :=
  vs <- gets vector_store ;;
  match vs with
  | None => raise not_ready
  | Some ix =>
      try_catch
        (results <- lift (similarity_search_with_score w ix query max_results) ;;
         lift (filter_results threshold results []))
        (fun e => raise (search_error e))
  end.

(** The normalisation, its threshold test and the shaping of one engine
    result, as pure functions of a result whose similarity is defined. *)
Definition similarity (score : Q) : Q := (1 / (1 + score))%Q.

Definition passes (threshold : Q) (r : document * Q) : bool :=
  Qle_bool threshold (similarity r.2).

Definition shape (r : document * Q) : DocumentChunk :=
  to_chunk r.1 (similarity r.2).

(** No result makes the division fail. *)
Definition divisible (results : list (document * Q)) : bool :=
  forallb (fun r => negb (Qeq_bool (1 + r.2) 0)) results.

End Service.

(** ** The query pipeline over a number type

    [search] above computes the similarity and the score in exact
    arithmetic. The code computes them in the number type of the engine's
    distances: Python floats in the tests, numpy scalars with FAISS. Here
    the three operations of that type which [search] uses are left open.
    The finite values of either type are rationals and their comparisons
    are exact, so values stay in [Q] and [>=] is that of [Q]; infinities
    and NaN are outside the model. *)

Record arithmetic := {
  (** [x + y] *)
  num_add : Q -> Q -> Q;
  (** [x / y] *)
  num_div : Q -> Q -> result Q;
  (** [round(x, ndigits)] *)
  num_round : Q -> positive -> Q;
}.

(** Exact arithmetic, the one [search] is written with. *)
Definition exact : arithmetic :=
  {| num_add := Qplus; num_div := py_div; num_round := round |}.

Section Numbers.

Variable fl : arithmetic.
Variable w : world.

(** [1 / (1 + score)] *)
Definition similarity_with (score : Q) : result Q :=
  num_div fl 1 (num_add fl 1 score).

Definition to_chunk_with (doc : document) (similarity : Q) : DocumentChunk :=
  let last_modified :=
    match md_last_modified (metadata doc) with
    | Some (LMDatetime iso) => Some iso
    | Some (LMStr s) => Some s
    | None => None
    end in
  {| schemas.content := page_content doc;
     schemas.metadata :=
       {| schemas.key := default "unknown" (md_key (metadata doc));
          schemas.source := default "unknown" (md_source (metadata doc));
          schemas.size := md_size (metadata doc);
          schemas.last_modified := last_modified |};
     schemas.score := Some (num_round fl similarity 4) |}.

(** The loop over [results] in [search]. *)
Fixpoint filter_results_with (threshold : Q) (results : list (document * Q))
    (chunks : list DocumentChunk) : result (list DocumentChunk) :=
  match results with
  | [] => Ok chunks
  | (doc, score) :: rest =>
      rbind (similarity_with score) (fun similarity =>
        if Qle_bool threshold similarity
        then filter_results_with threshold rest
               (chunks ++ [to_chunk_with doc similarity])
        else filter_results_with threshold rest chunks)
  end.

(** [search] *)
Definition search_with (query : string) (max_results : Z) (threshold : Q) :
    M (list DocumentChunk) :=
  vs <- gets vector_store ;;
  match vs with
  | None => raise not_ready
  | Some ix =>
      try_catch
        (results <- lift (similarity_search_with_score w ix query max_results) ;;
         lift (filter_results_with threshold results []))
        (fun e => raise (search_error e))
  end.

(** The similarities the loop computes for the engine's results, each
    paired with its document; the loop stops at the first division that
    raises. *)
Fixpoint similarities (results : list (document * Q)) :
    result (list (document * Q)) :=
  match results with
  | [] => Ok []
  | (doc, score) :: rest =>
      rbind (similarity_with score) (fun similarity =>
      rbind (similarities rest) (fun scored =>
        Ok ((doc, similarity) :: scored)))
  end.

(** The threshold test and the shaping of a result whose similarity has
    been computed. *)
Definition accepted (threshold : Q) (r : document * Q) : bool :=
  Qle_bool threshold r.2.

Definition shaped (r : document * Q) : DocumentChunk :=
  to_chunk_with r.1 r.2.

End Numbers.

(** ** The singleton protocol *)

(** An instance of [EmbeddingService]: its own [_initialized] attribute
    ([None] until [__init__] assigns it, the class attribute is read then)
    and [vector_store]. *)
Record instance := {
  inst_initialized : option bool;
  inst_vector_store : option index;
}.

(** The Python process: the class attributes [_instance] (an address) and
    [_initialized], the instances allocated so far, the disk and the
    trace. *)
Record process := {
  cls_instance : option nat;
  cls_initialized : bool;
  objects : gmap nat instance;
  next_addr : nat;
  disk_hash_file : option hash_file_t;
  disk_store_dir : option store_t;
  events : list event;
}.

(** The process right after the module is imported. *)
Definition fresh_process (h : option hash_file_t) (d : option store_t) : process :=
  {| cls_instance := None; cls_initialized := false; objects := ∅;
     next_addr := 0%nat; disk_hash_file := h; disk_store_dir := d;
     events := [] |}.

Definition set_cls_instance (a : option nat) (p : process) : process :=
  {| cls_instance := a; cls_initialized := cls_initialized p;
     objects := objects p; next_addr := next_addr p;
     disk_hash_file := disk_hash_file p; disk_store_dir := disk_store_dir p;
     events := events p |}.
Definition set_cls_initialized (b : bool) (p : process) : process :=
  {| cls_instance := cls_instance p; cls_initialized := b;
     objects := objects p; next_addr := next_addr p;
     disk_hash_file := disk_hash_file p; disk_store_dir := disk_store_dir p;
     events := events p |}.
Definition set_object (a : nat) (o : instance) (p : process) : process :=
  {| cls_instance := cls_instance p; cls_initialized := cls_initialized p;
     objects := <[a := o]> (objects p); next_addr := next_addr p;
     disk_hash_file := disk_hash_file p; disk_store_dir := disk_store_dir p;
     events := events p |}.

(** [object.__new__(cls)]: a fresh address, no attribute set. The record
    has no way to say that [vector_store] is not set yet: until [__init__]
    has assigned it (line 34) the field holds [None], and a method that
    reads [self.vector_store] on such an object, which in Python raises
    [AttributeError], is outside the model. The statements about methods
    run through [on_instance] are about initialised instances. *)
Definition allocate : ST process nat :=
  fun p =>
    let a := next_addr p in
    (Ok a,
     {| cls_instance := cls_instance p; cls_initialized := cls_initialized p;
        objects := <[a := {| inst_initialized := None;
                             inst_vector_store := None |}]> (objects p);
        next_addr := S a;
        disk_hash_file := disk_hash_file p; disk_store_dir := disk_store_dir p;
        events := events p |}).

Definition dangling : exn := Exn "ReferenceError" "no object at this address".

(** Run a method on the instance at [self]: the method sees the instance's
    [vector_store] and the shared disk and trace. *)
Definition on_instance {A} (self : nat) (c : M A) : ST process A :=
  fun p =>
    match objects p !! self with
    | None => (Raise dangling, p)
    | Some o =>
        let '(r, s) := c (State (inst_vector_store o) (disk_hash_file p)
                                (disk_store_dir p) (events p)) in
        (r,
         {| cls_instance := cls_instance p; cls_initialized := cls_initialized p;
            objects := <[self := {| inst_initialized := inst_initialized o;
                                    inst_vector_store := vector_store s |}]>
                         (objects p);
            next_addr := next_addr p;
            disk_hash_file := hash_file s; disk_store_dir := store_dir s;
            events := trace s |})
    end.

(** [self._initialized]: the instance attribute, else the class one. *)
Definition get_initialized (self : nat) : ST process bool :=
  fun p =>
    match objects p !! self with
    | None => (Raise dangling, p)
    | Some o => (Ok (default (cls_initialized p) (inst_initialized o)), p)
    end.

(** [self._initialized = True] *)
Definition set_initialized (self : nat) : ST process unit :=
  fun p =>
    match objects p !! self with
    | None => (Raise dangling, p)
    | Some o =>
        (Ok tt, set_object self {| inst_initialized := Some true;
                                   inst_vector_store := inst_vector_store o |} p)
    end.

Section Singleton.

Variable w : world.

(** [EmbeddingService.__new__] *)
Definition __new__ : ST process nat :=
  i <- gets cls_instance ;;
  match i with
  | None =>
      a <- allocate ;;
      modify (set_cls_instance (Some a)) ;;;
      ret a
  | Some a => ret a
  end.

(** [EmbeddingService.__init__] *)
Definition __init__ (self : nat) : ST process unit :=
  initialized <- get_initialized self ;;
  if negb initialized then
    fail_if (embeddings_error w) ;;;
    on_instance self (modify (set_vector_store None)) ;;;
    on_instance self (_load_vector_store w) ;;;
    set_initialized self
  else ret tt.

(** The call [EmbeddingService()]: [__new__], then [__init__] on what it
    returned. *)
Definition EmbeddingService : ST process nat :=
  self <- __new__ ;;
  __init__ self ;;;
  ret self.

(** [EmbeddingService.get_instance] *)
Definition get_instance : ST process nat :=
  i <- gets cls_instance ;;
  match i with
  | None =>
      a <- EmbeddingService ;;
      modify (set_cls_instance (Some a)) ;;;
      ret a
  | Some a => ret a
  end.

End Singleton.

(** [EmbeddingService.reset_instance] *)
Definition reset_instance : ST process unit :=
  modify (set_cls_instance None) ;;;
  modify (set_cls_initialized false).

(** What callers do with the class. *)
Inductive call :=
| Construct (w : world)
| GetInstance (w : world)
| ResetInstance.

Definition is_reset (c : call) : bool :=
  match c with ResetInstance => true | _ => false end.

(** One call: the object it returned, if it returned one. *)
Definition run_call (c : call) (p : process) : option nat * process :=
  match c with
  | Construct w =>
      match EmbeddingService w p with
      | (Ok a, p') => (Some a, p')
      | (Raise _, p') => (None, p')
      end
  | GetInstance w =>
      match get_instance w p with
      | (Ok a, p') => (Some a, p')
      | (Raise _, p') => (None, p')
      end
  | ResetInstance => (None, (reset_instance p).2)
  end.

Fixpoint run_calls (cs : list call) (p : process) : list nat * process :=
  match cs with
  | [] => ([], p)
  | c :: rest =>
      let '(o, p') := run_call c p in
      let '(os, p'') := run_calls rest p' in
      (match o with Some a => a :: os | None => os end, p'')
  end.

(** The number of calls of [_load_vector_store] in a trace. *)
Definition is_load_vector_store (ev : event) : bool :=
  match ev with EvLoadVectorStore => true | _ => false end.

Definition loads (t : list event) : nat :=
  length (List.filter is_load_vector_store t).

(** Whether the instance the class currently holds has been initialised,
    as [__init__] reads it. *)
Definition initialized_instance (p : process) : bool :=
  match cls_instance p with
  | Some a =>
      match objects p !! a with
      | Some o => default (cls_initialized p) (inst_initialized o)
      | None => false
      end
  | None => false
  end.

(** How many calls of [_load_vector_store] can still happen before a
    reset. *)
Definition budget (p : process) : nat :=
  if initialized_instance p then 0%nat else 1%nat.

Definition vector_store_of (p : process) (a : nat) : option index :=
  objects p !! a ≫= inst_vector_store.

(** Events of the persistence step. *)
Definition is_persistence (ev : event) : bool :=
  match ev with
  | EvSaveLocal _ _ | EvSaveHashes _ _ => true
  | _ => false
  end.

(** ** Sample worlds and states

    Concrete collaborators on which the statements below are exercised:
    a toy hash, a splitter that keeps each document whole, an index that
    stores its chunks, and an engine that answers with fixed distances. *)

Definition sample_index (chunks : list document) : index :=
  {| docstore := chunks; ntotal := Some (Z.of_nat (length chunks)) |}.

Definition sample_world (load : result (list document))
    (hits : result (list (document * Q)))
    (exists_error : option exn)
    (save_error : option (exn * option store_t)) : world :=
  {| sha256 := fun text => "sha256:" +:+ text;
     loader_load := load;
     splitter_error := None;
     split_documents := fun docs => Ok docs;
     embeddings_error := None;
     from_documents := fun chunks => Ok (sample_index chunks);
     merge_from := fun base new =>
       (Ok tt, sample_index (docstore base ++ docstore new));
     similarity_search_with_score := fun _ _ _ => hits;
     saved_size := fun ix => 100 * Z.of_nat (length (docstore ix));
     fromtimestamp_isoformat := fun _ => Ok "2024-01-01T00:00:00";
     now := 1704067200;
     hash_exists_error := exists_error;
     hash_read_error := None;
     hash_stat_error := None;
     hash_mkdir_error := None;
     hash_write_error := None;
     store_exists_error := None;
     store_rglob_error := None;
     store_mkdir_error := None;
     save_local_error := save_error;
     load_local_error := None |}.

Definition sample_doc (k text : string) : document :=
  {| page_content := text;
     metadata := {| md_key := Some k; md_source := None; md_size := None;
                    md_last_modified := None |} |}.

Definition doc_a : document := sample_doc "A" "x".
Definition doc_b : document := sample_doc "B" "y".

(** Nothing loaded, nothing on disk. *)
Definition empty_state : state :=
  {| vector_store := None; hash_file := None; store_dir := None; trace := [] |}.

(** An index over A and B is loaded and persisted, with both fingerprints
    on disk. *)
Definition indexed_state : state :=
  {| vector_store := Some (sample_index [doc_a; doc_b]);
     hash_file :=
       Some {| hf_content :=
                 Parsable (JDict (<["A" := "sha256:x"]>
                                    (<["B" := "sha256:y"]> ∅)));
               hf_mtime := 1700000000 |};
     store_dir := Some {| st_index := Some (sample_index [doc_a; doc_b]);
                          st_bytes := 200 |};
     trace := [] |}.

(** ** Further definitions of the service *)

(** The score a returned chunk carries ([search] always sets one). *)
Definition chunk_score (c : DocumentChunk) : Q :=
  default 0%Q (schemas.score c).

(** [EmbeddingService.is_initialized] *)
Definition is_initialized (self : nat) : ST process bool :=
  get_initialized self.

(** Addresses are handed out in increasing order, and the class holds the
    address of an allocated object. *)
Definition wf_process (p : process) : Prop :=
  (forall a, is_Some (objects p !! a) -> (a < next_addr p)%nat) /\
  (forall a, cls_instance p = Some a -> is_Some (objects p !! a)).

(** ** The HTTP routes ([app/routers/embeddings.py]) *)

(** What a route handler gives FastAPI: a response body, or an
    [HTTPException] with its status code and detail. *)
Inductive http_result (A : Type) : Type :=
| Response (body : A)
| HTTPException (status_code : Z) (detail : string).
Arguments Response {A} body.
Arguments HTTPException {A} status_code detail.

Module routes.

Record SearchRequest := {
  query : string;
  max_results : Z;
  threshold : Q;
}.

(** [SearchResponse], without [execution_time]. *)
Record SearchResponse := {
  response_query : string;
  results : list DocumentChunk;
  total_results : Z;
}.

Record ProcessEmbeddingsRequest := {
  force_update : bool;
}.

(** The body of [rebuild_embeddings]'s answer. *)
Record RebuildResponse := {
  rebuild_message : string;
  rebuild_status : string;
}.

(** The names the module binds to a service object at module level. The
    module imports the class [EmbeddingService] and defines [router] and
    the four handlers; it assigns [embedding_service] only as a local of
    [search_documents]. *)
Definition module_globals : gmap string nat := ∅.

(** Reading a global name inside a handler. *)
Definition load_global (globals : gmap string nat) (name : string) :
    ST process nat :=
  match globals !! name with
  | Some a => ret a
  | None =>
      raise (Exn "NameError" ("name '" +:+ name +:+ "' is not defined"))
  end.

Section Routes.

Variable w : world.

(** Which exception classes [except ValueError] catches: [ValueError] and
    its subclasses. *)
Variable value_error : string -> bool.

(** [search_documents] *)
Definition search_documents (request : SearchRequest) :
    process -> http_result SearchResponse * process :=
  fun p =>
    match (embedding_service <- get_instance w ;;
           results <- on_instance embedding_service
                        (search w (query request) (max_results request)
                                (threshold request)) ;;
           ret {| response_query := query request;
                  results := results;
                  total_results := Z.of_nat (length results) |}) p with
    | (Ok body, p') => (Response body, p')
    | (Raise e, p') =>
        if value_error (exn_type e)
        then (HTTPException 400 (exn_msg e), p')
        else (HTTPException 500 ("Search failed: " +:+ exn_msg e), p')
    end.

(** [process_embeddings] (the handler) *)
Definition process_embeddings_route (globals : gmap string nat)
    (request : ProcessEmbeddingsRequest) :
    process -> http_result ProcessResult * process :=
  fun p =>
    match (embedding_service <- load_global globals "embedding_service" ;;
           on_instance embedding_service
             (process_embeddings w (force_update request))) p with
    | (Ok result, p') => (Response result, p')
    | (Raise e, p') =>
        (HTTPException 500 ("Failed to process embeddings: " +:+ exn_msg e), p')
    end.

(** [get_embedding_stats] *)
Definition get_embedding_stats (globals : gmap string nat) :
    process -> http_result EmbeddingStats * process :=
  fun p =>
    match (embedding_service <- load_global globals "embedding_service" ;;
           on_instance embedding_service (get_stats w)) p with
    | (Ok st, p') => (Response st, p')
    | (Raise e, p') =>
        (HTTPException 500 ("Failed to get stats: " +:+ exn_msg e), p')
    end.

(** [rebuild_task], the closure [rebuild_embeddings] hands to the
    background tasks: it prints the outcome and returns nothing. *)
Definition rebuild_task (globals : gmap string nat) : ST process unit :=
  try_catch
    (embedding_service <- load_global globals "embedding_service" ;;
     on_instance embedding_service (process_embeddings w true) ;;;
     ret tt)
    (fun _ => ret tt).

(** [rebuild_embeddings]: the answer, and the task scheduled to run after
    it. *)
Definition rebuild_embeddings (globals : gmap string nat) :
    RebuildResponse * ST process unit :=
  ({| rebuild_message := "Rebuild task started in background";
      rebuild_status := "processing" |},
   rebuild_task globals).

End Routes.

End routes.

(** ** Text ([str]) operations

    A Python [str] is modelled as the list of its characters, a character
    being a code point below 256. *)

Definition text : Type := list ascii.

Module pystr.

(** [str.isspace] on one character: tab to carriage return, the four
    separators 28 to 31, the space, NEL and the no-break space. *)
Definition isspace (c : ascii) : bool :=
  let n := nat_of_ascii c in
  ((9 <=? n) && (n <=? 13) || (28 <=? n) && (n <=? 31) || (n =? 32)
   || (n =? 133) || (n =? 160))%nat.

Fixpoint drop_while (f : ascii -> bool) (l : text) : text :=
  match l with
  | [] => []
  | c :: l' => if f c then drop_while f l' else l
  end.

Definition lstrip (l : text) : text := drop_while isspace l.
Definition rstrip (l : text) : text := rev (drop_while isspace (rev l)).
(** [s.strip()] *)
Definition strip (l : text) : text := rstrip (lstrip l).

(** [s.lstrip(c)] for a one-character argument *)
Definition lstrip_char (c : ascii) (l : text) : text :=
  drop_while (fun x => bool_decide (x = c)) l.

(** [s.split(sep)] for a one-character separator: one piece more than
    there are separators. *)
Fixpoint split_on (sep : ascii) (l : text) : list text :=
  match l with
  | [] => [[]]
  | c :: l' =>
      if bool_decide (c = sep) then [] :: split_on sep l'
      else match split_on sep l' with
           | piece :: pieces => (c :: piece) :: pieces
           | [] => [[c]]
           end
  end.

(** [s.split()]: the maximal runs of characters that are not whitespace;
    [word] is the run being read, last character first. *)
Fixpoint words_from (l : text) (word : text) : list text :=
  match l with
  | [] => match word with [] => [] | _ => [rev word] end
  | c :: l' =>
      if isspace c
      then match word with
           | [] => words_from l' []
           | _ => rev word :: words_from l' []
           end
      else words_from l' (c :: word)
  end.

Definition split (l : text) : list text := words_from l [].

(** [s.replace(a, b)] and [s.replace(a, "")] for one-character strings *)
Definition replace_char (a b : ascii) (l : text) : text :=
  map (fun c => if bool_decide (c = a) then b else c) l.
Definition remove_char (a : ascii) (l : text) : text :=
  List.filter (fun c => negb (bool_decide (c = a))) l.

(** [s[:n]], also for a negative [n] *)
Definition slice_to (l : text) (n : Z) : text :=
  if n <? 0 then take (Z.to_nat (Z.of_nat (length l) + n)) l
  else take (Z.to_nat n) l.

(** [s.startswith(c)] for a one-character argument *)
Definition startswith_char (c : ascii) (l : text) : bool :=
  match l with
  | x :: _ => bool_decide (x = c)
  | [] => false
  end.

(** [s.endswith(suffix)] *)
Definition endswith (suffix l : text) : bool :=
  bool_decide (drop (length l - length suffix) l = suffix)
  && (length suffix <=? length l)%nat.

(** [s.lower()]: the capitals A to Z and the accented capitals 192 to 222
    (but the multiplication sign, 215) move up by 32. *)
Definition lower_char (c : ascii) : ascii :=
  let n := nat_of_ascii c in
  if ((65 <=? n) && (n <=? 90)
      || (192 <=? n) && (n <=? 222) && negb (n =? 215))%nat
  then ascii_of_nat (n + 32) else c.
Definition lower (l : text) : text := map lower_char l.

Fixpoint is_prefix (p l : text) : bool :=
  match p, l with
  | [], _ => true
  | _ :: _, [] => false
  | a :: p', b :: l' => bool_decide (a = b) && is_prefix p' l'
  end.

(** [p in s] *)
Fixpoint contains (p l : text) : bool :=
  is_prefix p l ||
  match l with
  | [] => false
  | _ :: l' => contains p l'
  end.

End pystr.

Definition newline : ascii := ascii_of_nat 10.
Definition carriage_return : ascii := ascii_of_nat 13.
Definition space : ascii := ascii_of_nat 32.
Definition hash_sign : ascii := ascii_of_nat 35.
Definition slash : ascii := ascii_of_nat 47.
Definition dot : ascii := ascii_of_nat 46.

(** ** The Markdown processor ([app/services/markdown_processor.py]) *)

(** [f"{x:.2f}"]: the hundredths nearest to [x], ties to even. *)
Definition two_digits (n : Z) : string :=
  if n <? 10 then "0" +:+ pretty n else pretty n.

Definition format_2f (x : Q) : string :=
  let h := Qnum (round (Qabs x) 2) in
  (if Qle_bool 0 x then "" else "-")
  +:+ pretty (h / 100) +:+ "." +:+ two_digits (h mod 100).

(** The loop of [_format_file_size]: [name] is [size_names[i]] and [names]
    the names after it. The division is exact; so is the code's float
    division by 1024.0 for sizes below 2^53. *)
Fixpoint scale_size (size_bytes : Q) (name : string) (names : list string) :
    Q * string :=
  match names with
  | [] => (size_bytes, name)
  | next :: rest =>
      if Qle_bool 1024 size_bytes
      then scale_size (size_bytes / 1024) next rest
      else (size_bytes, name)
  end.

Definition format_file_size (size_names : list string) (size_bytes : Z) :
    string :=
  if size_bytes =? 0 then "0 B"
  else
    let '(x, name) := scale_size (inject_Z size_bytes) "B" size_names in
    format_2f x +:+ " " +:+ name.

Module MarkdownProcessor.

(** [MarkdownProcessor._format_file_size] *)
Definition _format_file_size (size_bytes : Z) : string :=
  format_file_size ["KB"; "MB"; "GB"] size_bytes.

(** [MarkdownProcessor._get_content_preview]; [None] is the [None] the
    caller gets for an object it could not read. *)
Definition _get_content_preview (content : option text) (max_length : Z) :
    text :=
  match content with
  | None | Some [] => []
  | Some content =>
      let clean_content :=
        pystr.remove_char carriage_return
          (pystr.replace_char newline space (pystr.strip content)) in
      if Z.of_nat (length clean_content) <=? max_length then clean_content
      else pystr.slice_to clean_content max_length
           ++ list_ascii_of_string "..."
  end.

(** The body of the loop of [_extract_markdown_headers]. *)
Definition header_of_line (line : text) : option text :=
  let line := pystr.strip line in
  if pystr.startswith_char hash_sign line then
    match pystr.strip (pystr.lstrip_char hash_sign line) with
    | [] => None
    | header_text => Some header_text
    end
  else None.

(** [MarkdownProcessor._extract_markdown_headers] *)
Definition _extract_markdown_headers (content : option text) : list text :=
  match content with
  | None | Some [] => []
  | Some content => omap header_of_line (pystr.split_on newline content)
  end.

End MarkdownProcessor.

(** ** Dictionaries

    The values found in the dictionaries of the S3 client and of the
    Markdown processor: scalars, and one level of nested dictionary. *)

Inductive pyscalar :=
| PyNone
| PyBool (b : bool)
| PyInt (z : Z)
| PyStr (t : text)
| PyStrList (l : list text)
| PyDatetime (timestamp : Z)
| PyStrDict (m : list (text * text)).

Inductive pyvalue :=
| Scalar (v : pyscalar)
| Dict (m : gmap string pyscalar).

#[global] Instance pyscalar_eq_dec : EqDecision pyscalar.
Proof. solve_decision. Defined.

(** [d[k]] *)
Definition item {V} (d : gmap string V) (k : string) : result V :=
  match d !! k with
  | Some v => Ok v
  | None => Raise (Exn "KeyError" ("'" +:+ k +:+ "'"))
  end.

(** [d[k]] for a value that must be a dictionary *)
Definition subscript (v : pyvalue) (k : string) : result pyscalar :=
  match v with
  | Dict m => item m k
  | Scalar _ =>
      Raise (Exn "TypeError" "object is not subscriptable")
  end.

Definition as_int (v : pyvalue) : result Z :=
  match v with
  | Scalar (PyInt z) => Ok z
  | Scalar (PyBool b) => Ok (if b then 1 else 0)
  | _ => Raise (Exn "TypeError" "unsupported operand type(s)")
  end.

(** A value used as a sort key: a number or a date. *)
Definition as_key (v : pyvalue) : result Z :=
  match v with
  | Scalar (PyDatetime t) => Ok t
  | _ => as_int v
  end.

(** Truth value of a scalar *)
Definition truthy (v : pyscalar) : bool :=
  match v with
  | PyNone => false
  | PyBool b => b
  | PyInt z => negb (z =? 0)
  | PyStr t => negb (is_empty t)
  | PyStrList l => negb (is_empty l)
  | PyDatetime _ => true
  | PyStrDict m => negb (is_empty m)
  end.

(** ** The S3 client ([app/services/s3/S3Client.py]) *)

Module S3Client.

(** An entry of [Contents] in the answer of [list_objects_v2]. *)
Record s3_object := {
  Key : text;
  Size : Z;
  LastModified : Z;
}.

(** The answer of [head_object], as far as [get_object_metadata] reads
    it. *)
Record head_response := {
  ContentType : option text;
  ContentLength : option Z;
  head_LastModified : option Z;
  ETag : option text;
  Metadata : option (list (text * text));
  StorageClass : option text;
  ServerSideEncryption : option text;
  VersionId : option text;
}.

(** The boto3 client's read operations. *)
Record boto3 := {
  (** [list_objects_v2(Bucket, Prefix).get('Contents', [])] *)
  list_objects_v2 : text -> text -> result (list s3_object);
  (** [get_object(Bucket, Key)['Body'].read().decode('utf-8')] *)
  get_object_text : text -> text -> result text;
  head_object : text -> text -> result head_response;
}.

(** The boto3 client's write operations on a store [S]. *)
Record boto3_writes (S : Type) := {
  boto_copy_object : text -> text -> text -> text -> ST S unit;
  boto_delete_object : text -> text -> ST S unit;
}.
Arguments boto_copy_object {S} _ _ _ _ _.
Arguments boto_delete_object {S} _ _ _.

(** [S3Client._format_file_size] *)
Definition _format_file_size (size_bytes : Z) : string :=
  format_file_size ["KB"; "MB"; "GB"; "TB"] size_bytes.

Section Reads.

Variable s3 : boto3.

(** [list_objects] *)
Definition list_objects (bucket_name prefix : text) : result (list s3_object) :=
  list_objects_v2 s3 bucket_name prefix.

(** [get_object_content] *)
Definition get_object_content (bucket_name object_name : text) : option text :=
  match get_object_text s3 bucket_name object_name with
  | Ok t => Some t
  | Raise _ => None
  end.

(** [get_object_metadata] *)
Definition get_object_metadata (bucket_name object_name : text) :
    option head_response :=
  match head_object s3 bucket_name object_name with
  | Ok h => Some h
  | Raise _ => None
  end.

(** [object_exists] *)
Definition object_exists (bucket_name object_name : text) : bool :=
  is_ok (head_object s3 bucket_name object_name).

(** [get_object_size] *)
Definition get_object_size (bucket_name object_name : text) : Z :=
  match head_object s3 bucket_name object_name with
  | Ok h => default 0 (ContentLength h)
  | Raise _ => 0
  end.

(** [search_objects] *)
Definition search_objects (bucket_name search_term prefix : text) :
    list s3_object :=
  match list_objects bucket_name prefix with
  | Ok objects =>
      List.filter
        (fun obj => pystr.contains (pystr.lower search_term)
                      (pystr.lower (Key obj)))
        objects
  | Raise _ => []
  end.

(** [get_objects_by_extension] *)
Definition get_objects_by_extension (bucket_name extension prefix : text) :
    list s3_object :=
  match list_objects bucket_name prefix with
  | Ok objects =>
      List.filter
        (fun obj => pystr.endswith (dot :: pystr.lower extension)
                      (pystr.lower (Key obj)))
        objects
  | Raise _ => []
  end.

(** [get_file_info_summary], as far as the Markdown processor reads it:
    [None], or the summary's ['metadatos_personalizados']. Building the
    summary formats the content length, which fails on a missing one. *)
Definition get_file_info_summary (bucket_name object_name : text) :
    option (list (text * text)) :=
  match get_object_metadata bucket_name object_name with
  | None => None
  | Some metadata =>
      match ContentLength metadata with
      | None => None
      | Some _ => Some (default [] (Metadata metadata))
      end
  end.

End Reads.

Section Writes.

Context {S : Type}.
Variable s3 : boto3_writes S.

(** [delete_object] *)
Definition delete_object (bucket_name object_name : text) : ST S unit :=
  boto_delete_object s3 bucket_name object_name.

(** [copy_object] *)
Definition copy_object (source_bucket source_key dest_bucket dest_key : text) :
    ST S bool :=
  try_catch
    (boto_copy_object s3 source_bucket source_key dest_bucket dest_key ;;;
     ret true)
    (fun _ => ret false).

(** [move_object] *)
Definition move_object (source_bucket source_key dest_bucket dest_key : text) :
    ST S bool :=
  try_catch
    (copied <- copy_object source_bucket source_key dest_bucket dest_key ;;
     if copied : bool then
       delete_object source_bucket source_key ;;;
       ret true
     else ret false)
    (fun _ => ret false).

End Writes.

End S3Client.

(** ** The Markdown files *)

(** [os.path.basename] and [os.path.dirname] (POSIX) *)
Definition basename (p : text) : text :=
  drop (length (pystr.drop_while
                  (fun c => negb (bool_decide (c = slash))) (rev p)))
       p.

Definition dirname (p : text) : text :=
  let head := rev (pystr.drop_while
                     (fun c => negb (bool_decide (c = slash))) (rev p)) in
  if forallb (fun c => bool_decide (c = slash)) head then head
  else rev (pystr.drop_while (fun c => bool_decide (c = slash)) (rev head)).

Module Markdown.

Section Processor.

Variable s3 : S3Client.boto3.
Variable bucket_name : text.

(** The ["metadata"] dictionary [get_all_markdown_files] builds for one
    object. *)
Definition file_metadata (obj : S3Client.s3_object) (content : option text)
    (file_info : option (list (text * text))) : gmap string pyscalar :=
  let text_of := default [] content in
  let present := negb (is_empty text_of) in
  <["key" := PyStr (S3Client.Key obj)]>
  (<["filename" := PyStr (basename (S3Client.Key obj))]>
  (<["path" := PyStr (dirname (S3Client.Key obj))]>
  (<["size_bytes" := PyInt (S3Client.Size obj)]>
  (<["size_readable" :=
       PyStr (list_ascii_of_string
                (MarkdownProcessor._format_file_size (S3Client.Size obj)))]>
  (<["last_modified" := PyDatetime (S3Client.LastModified obj)]>
  (<["content_length" := PyInt (Z.of_nat (length text_of))]>
  (<["word_count" := PyInt (Z.of_nat (length (pystr.split text_of)))]>
  (<["line_count" :=
       PyInt (if present
              then Z.of_nat (length (pystr.split_on newline text_of))
              else 0)]>
  (<["has_content" := PyBool (negb (is_empty (pystr.strip text_of)))]>
  (<["metadata" := PyStrDict (default [] file_info)]>
  (<["preview" :=
       PyStr (MarkdownProcessor._get_content_preview content 150)]>
  (<["headers" :=
       PyStrList (MarkdownProcessor._extract_markdown_headers content)]>
   ∅)))))))))))).

(** One turn of the loop of [get_all_markdown_files]. *)
Definition markdown_file (obj : S3Client.s3_object) : gmap string pyvalue :=
  let file_info :=
    S3Client.get_file_info_summary s3 bucket_name (S3Client.Key obj) in
  let content :=
    S3Client.get_object_content s3 bucket_name (S3Client.Key obj) in
  <["content" := Scalar (match content with
                         | Some t => PyStr t
                         | None => PyNone
                         end)]>
  (<["metadata" := Dict (file_metadata obj content file_info)]> ∅).

(** [MarkdownProcessor.get_all_markdown_files] *)
Definition get_all_markdown_files (prefix : text) : list (gmap string pyvalue) :=
  markdown_file
    <$> S3Client.get_objects_by_extension s3 bucket_name
          (list_ascii_of_string "md") prefix.

End Processor.

(** What [get_markdown_files_summary] returns. *)
Record summary := {
  total_files : Z;
  total_size_bytes : Z;
  total_size_readable : string;
  total_words : Z;
  total_lines : Z;
  average_file_size : Z;
  average_words_per_file : Z;
  files_with_content : Z;
  empty_files : Z;
  largest_file : option (gmap string pyvalue);
  smallest_file : option (gmap string pyvalue);
  most_recent : option (gmap string pyvalue);
}.

Inductive summary_result :=
| NoFiles
| Summary (s : summary).

(** [sum(f[k] for f in files)] *)
Fixpoint sum_items (k : string) (files : list (gmap string pyvalue)) : result Z :=
  match files with
  | [] => Ok 0
  | f :: rest =>
      rbind (item f k) (fun v =>
      rbind (as_int v) (fun z =>
      rbind (sum_items k rest) (fun total => Ok (z + total))))
  end.

(** [[f for f in files if f['has_content']]] and its complement: the
    flags of the files. *)
Fixpoint flags (k : string) (files : list (gmap string pyvalue)) :
    result (list bool) :=
  match files with
  | [] => Ok []
  | f :: rest =>
      rbind (item f k) (fun v =>
      rbind (flags k rest) (fun bs =>
        Ok (match v with
            | Scalar s => truthy s
            | Dict m => negb (bool_decide (m = ∅))
            end :: bs)))
  end.

(** [max(files, key=lambda x: x[k])] and [min]: the first file with the
    largest (smallest) value. *)
Fixpoint best (larger : bool) (k : string) (files : list (gmap string pyvalue))
    (current : gmap string pyvalue) (value : Z) :
    result (gmap string pyvalue) :=
  match files with
  | [] => Ok current
  | f :: rest =>
      rbind (item f k) (fun v =>
      rbind (as_key v) (fun z =>
        if (if larger then value <? z else z <? value)
        then best larger k rest f z
        else best larger k rest current value))
  end.

Definition extreme (larger : bool) (k : string)
    (files : list (gmap string pyvalue)) : result (option (gmap string pyvalue)) :=
  match files with
  | [] => Ok None
  | f :: rest =>
      rbind (item f k) (fun v =>
      rbind (as_key v) (fun z =>
      rbind (best larger k rest f z) (fun b => Ok (Some b))))
  end.

(** The body of [get_markdown_files_summary], from [if not files] on. *)
Definition summarize (files : list (gmap string pyvalue)) :
    result summary_result :=
  if is_empty files then Ok NoFiles
  else
    rbind (sum_items "size_bytes" files) (fun total_size =>
    rbind (sum_items "word_count" files) (fun total_words =>
    rbind (sum_items "line_count" files) (fun total_lines =>
    rbind (flags "has_content" files) (fun with_content =>
    rbind (extreme true "size_bytes" files) (fun largest =>
    rbind (extreme false "size_bytes" files) (fun smallest =>
    rbind (extreme true "last_modified" files) (fun recent =>
      let n := Z.of_nat (length files) in
      Ok (Summary
            {| total_files := n;
               total_size_bytes := total_size;
               total_size_readable :=
                 MarkdownProcessor._format_file_size total_size;
               total_words := total_words;
               total_lines := total_lines;
               average_file_size := total_size / n;
               average_words_per_file := total_words / n;
               files_with_content :=
                 Z.of_nat (length (List.filter id with_content));
               empty_files :=
                 Z.of_nat (length (List.filter negb with_content));
               largest_file := largest;
               smallest_file := smallest;
               most_recent := recent |})))))))).

(** The comprehension of [MarkdownLoader.load]: the files whose metadata
    says they have content, as (page content, metadata) pairs; [Document]
    wants a string as page content. *)
Fixpoint documents_of (files : list (gmap string pyvalue)) :
    result (list (pyvalue * pyvalue)) :=
  match files with
  | [] => Ok []
  | file :: rest =>
      rbind (item file "metadata") (fun metadata =>
      rbind (subscript metadata "has_content") (fun has_content =>
        if truthy has_content then
          rbind (item file "content") (fun content =>
          rbind (item file "metadata") (fun metadata =>
          rbind (match content with
                 | Scalar (PyStr _) => Ok tt
                 | _ => Raise (Exn "ValidationError"
                                   "page_content: Input should be a valid string")
                 end) (fun _ =>
          rbind (documents_of rest) (fun docs =>
            Ok ((content, metadata) :: docs)))))
        else documents_of rest))
  end.

(** The langchain [Document] for a pair [load] made, as the embedding
    service reads it: the page content and, of the metadata, the keys
    ["key"], ["source"], ["size"] and ["last_modified"]. *)
Definition to_document (isoformat : Z -> string) (d : pyvalue * pyvalue) :
    document :=
  let m := match d.2 with Dict m => m | Scalar _ => ∅ end in
  {| page_content :=
       match d.1 with
       | Scalar (PyStr t) => string_of_list_ascii t
       | _ => ""
       end;
     metadata :=
       {| md_key := match m !! "key" with
                    | Some (PyStr t) => Some (string_of_list_ascii t)
                    | _ => None
                    end;
          md_source := match m !! "source" with
                       | Some (PyStr t) => Some (string_of_list_ascii t)
                       | _ => None
                       end;
          md_size := match m !! "size" with
                     | Some (PyInt z) => Some z
                     | _ => None
                     end;
          md_last_modified :=
            match m !! "last_modified" with
            | Some (PyDatetime t) => Some (LMDatetime (isoformat t))
            | Some (PyStr t) => Some (LMStr (string_of_list_ascii t))
            | _ => None
            end |} |}.

(** [MarkdownProcessor.get_markdown_files_summary] *)
Definition get_markdown_files_summary (s3 : S3Client.boto3)
    (bucket_name prefix : text) : result summary_result :=
  summarize (get_all_markdown_files s3 bucket_name prefix).

(** [MarkdownLoader.load], as pairs and as the documents the embedding
    service receives. *)
Definition load_pairs (s3 : S3Client.boto3) (bucket_name prefix : text) :
    result (list (pyvalue * pyvalue)) :=
  documents_of (get_all_markdown_files s3 bucket_name prefix).

Definition load (isoformat : Z -> string) (s3 : S3Client.boto3)
    (bucket_name prefix : text) : result (list document) :=
  rbind (load_pairs s3 bucket_name prefix) (fun pairs =>
    Ok (to_document isoformat <$> pairs)).

(** *** [filter_markdown_files] *)

(** The keyword arguments [filter_markdown_files] looks at; [None] is an
    absent keyword. *)
Record filters := {
  min_size : option Z;
  max_size : option Z;
  has_content : option bool;
  min_words : option Z;
  contains_text : option text;
  filename_pattern : option text;
}.

Definition type_name (v : pyvalue) : string :=
  match v with
  | Scalar PyNone => "NoneType"
  | Scalar (PyBool _) => "bool"
  | Scalar (PyInt _) => "int"
  | Scalar (PyStr _) => "str"
  | Scalar (PyStrList _) => "list"
  | Scalar (PyDatetime _) => "datetime.datetime"
  | Scalar (PyStrDict _) | Dict _ => "dict"
  end.

(** [v.lower()] *)
Definition lower_of (v : pyvalue) : result text :=
  match v with
  | Scalar (PyStr t) => Ok (pystr.lower t)
  | _ => Raise (Exn "AttributeError"
                    ("'" +:+ type_name v
                     +:+ "' object has no attribute 'lower'"))
  end.

(** [v == b] for a Boolean [b] *)
Definition equals_bool (v : pyvalue) (b : bool) : bool :=
  match v with
  | Scalar (PyBool b') => Bool.eqb b' b
  | Scalar (PyInt z) => z =? (if b then 1 else 0)
  | _ => false
  end.

(** [[f for f in filtered if test(f)]] *)
Fixpoint filter_by (test : gmap string pyvalue -> result bool)
    (filtered : list (gmap string pyvalue)) :
    result (list (gmap string pyvalue)) :=
  match filtered with
  | [] => Ok []
  | f :: rest =>
      rbind (test f) (fun keep =>
      rbind (filter_by test rest) (fun out =>
        Ok (if keep : bool then f :: out else out)))
  end.

(** [if 'k' in filters: filtered = [f for f in filtered if test(f)]] *)
Definition when_given {A} (given : option A)
    (test : A -> gmap string pyvalue -> result bool)
    (filtered : list (gmap string pyvalue)) :
    result (list (gmap string pyvalue)) :=
  match given with
  | Some a => filter_by (test a) filtered
  | None => Ok filtered
  end.

(** The tests of the six comprehensions. *)
Definition at_least (k : string) (bound : Z) (f : gmap string pyvalue) :
    result bool :=
  rbind (item f k) (fun v => rbind (as_int v) (fun z => Ok (bound <=? z))).

Definition at_most (k : string) (bound : Z) (f : gmap string pyvalue) :
    result bool :=
  rbind (item f k) (fun v => rbind (as_int v) (fun z => Ok (z <=? bound))).

Definition flag_is (k : string) (b : bool) (f : gmap string pyvalue) :
    result bool :=
  rbind (item f k) (fun v => Ok (equals_bool v b)).

Definition mentions (k : string) (needle : text) (f : gmap string pyvalue) :
    result bool :=
  rbind (item f k) (fun v =>
  rbind (lower_of v) (fun hay => Ok (pystr.contains (pystr.lower needle) hay))).

(** [MarkdownProcessor.filter_markdown_files] *)
Definition filter_markdown_files (files : list (gmap string pyvalue))
    (filters : filters) : result (list (gmap string pyvalue)) :=
  rbind (when_given (min_size filters) (at_least "size_bytes") files)
    (fun filtered =>
  rbind (when_given (max_size filters) (at_most "size_bytes") filtered)
    (fun filtered =>
  rbind (when_given (has_content filters) (flag_is "has_content") filtered)
    (fun filtered =>
  rbind (when_given (min_words filters) (at_least "word_count") filtered)
    (fun filtered =>
  rbind (when_given (contains_text filters) (mentions "content") filtered)
    (fun filtered =>
  when_given (filename_pattern filters) (mentions "filename") filtered))))).

End Markdown.

(** ** The script [scripts/embeddings_maker.py]

    [STORE_DIR] and [HASH_FILE] of the script are the defaults of
    [settings.VECTOR_STORE_DIR] and [settings.HASH_FILE]: the script and
    the service work on the same two locations. *)

Module embeddings_maker.

Section Script.

Variable w : world.

(** [main]; [Some 0] is [return 0], [None] falling off the end. Nothing
    is caught. *)
Definition main : M (option Z) :=
  ex <- hash_file_exists w ;;
  prev_hashes <- (if ex : bool then hash_file_read_json w
                  else ret (JDict ∅)) ;;
  documents <- load_documents w ;;
  cs <- lift (classify_loop w prev_hashes documents ([], [], ∅)) ;;
  let '(new_docs, kept_docs, current_hashes) := cs in
  if is_empty new_docs then ret (Some 0)
  else
    RecursiveCharacterTextSplitter w ;;;
    chunks <- text_splitter_split_documents w new_docs ;;
    fail_if (embeddings_error w) ;;;
    vector_store <- FAISS_from_documents w chunks ;;
    sx <- store_dir_exists w ;;
    (if sx : bool then ret tt else store_dir_mkdir w) ;;;
    save_local w vector_store ;;;
    fail_if (hash_mkdir_error w) ;;;
    hash_file_write w current_hashes ;;;
    ret None.

End Script.

End embeddings_maker.

(** ** Sample buckets *)

Definition sample_object : S3Client.s3_object :=
  {| S3Client.Key := list_ascii_of_string "notes/A.MD";
     S3Client.Size := 7;
     S3Client.LastModified := 1700000000 |}.

(** A bucket with one Markdown object and one image; [head_object] is
    refused. *)
Definition sample_s3 : S3Client.boto3 :=
  {| S3Client.list_objects_v2 := fun _ _ =>
       Ok [sample_object;
           {| S3Client.Key := list_ascii_of_string "img/a.png";
              S3Client.Size := 2048;
              S3Client.LastModified := 1700000001 |}];
     S3Client.get_object_text := fun _ _ => Ok (list_ascii_of_string "# Title");
     S3Client.head_object := fun _ _ => Raise (Exn "ClientError" "Forbidden") |}.

(** A bucket that cannot be reached. *)
Definition failing_s3 : S3Client.boto3 :=
  {| S3Client.list_objects_v2 := fun _ _ =>
       Raise (Exn "EndpointConnectionError" "Could not connect to the endpoint URL");
     S3Client.get_object_text := fun _ _ =>
       Raise (Exn "EndpointConnectionError" "Could not connect to the endpoint URL");
     S3Client.head_object := fun _ _ =>
       Raise (Exn "EndpointConnectionError" "Could not connect to the endpoint URL") |}.

(** * Properties *)

(** ** Running monadic code *)

Ltac unfold_monad :=
  unfold bind, ret, raise, try_catch, lift, gets, modify, fail_if in *.

(** Case split on the innermost scrutinee of the goal. *)
Ltac case_inner :=
  match goal with
  | |- context [match ?x with _ => _ end] =>
      lazymatch x with
      | context [match _ with _ => _ end] => fail
      | _ => destruct x eqn:?
      end
  end.

Ltac run_all := unfold_monad; cbn; repeat (case_inner; cbn); try done.

Section Stats.

Variable w : world.

Lemma _load_previous_hashes_reads s :
  exists r, _load_previous_hashes w s = (r, s).
Proof.
  unfold _load_previous_hashes, hash_file_exists, hash_file_read_json.
  run_all; eauto.
Qed.

Lemma get_stats_body_reads s :
  exists r, get_stats_body w s = (r, s).
Proof.
  unfold get_stats_body.
  destruct (_load_previous_hashes_reads s) as [r Hr].
  unfold bind at 1. rewrite Hr. destruct r as [v|e]; [|eauto].
  unfold hash_file_exists, hash_file_mtime, store_dir_exists, store_dir_size.
  run_all; eauto.
Qed.

Lemma get_stats_run s : get_stats w s = (Ok (stats_in w s), s).
Proof.
  unfold get_stats, stats_in, try_catch.
  destruct (get_stats_body_reads s) as [r ->]. by destruct r.
Qed.

(** Failure modes of the body of [get_stats]. *)
Lemma get_stats_body_hash_exists_error s e :
  hash_exists_error w = Some e -> get_stats_body w s = (Raise e, s).
Proof.
  intros H. unfold get_stats_body, _load_previous_hashes, hash_file_exists.
  rewrite H. reflexivity.
Qed.

Lemma get_stats_body_len_error s f :
  hash_exists_error w = None -> hash_read_error w = None ->
  hash_file s = Some f -> hf_content f = Parsable (JOther None) ->
  get_stats_body w s = (Raise (Exn "TypeError" "object has no len()"), s).
Proof.
  intros H1 H2 H3 H4.
  unfold get_stats_body, _load_previous_hashes, hash_file_exists,
    hash_file_read_json.
  rewrite H1, H2. unfold_monad. cbn.
  repeat (first [rewrite H3 | rewrite H4]; cbn). reflexivity.
Qed.

Lemma get_stats_body_store_exists_error s e :
  store_exists_error w = Some e -> exists e', get_stats_body w s = (Raise e', s).
Proof.
  intros H. destruct (get_stats_body_reads s) as [[st|e'] Hr]; [|eauto].
  exfalso. revert Hr.
  unfold get_stats_body, _load_previous_hashes, hash_file_exists,
    hash_file_read_json, hash_file_mtime, store_dir_exists.
  rewrite H. run_all.
Qed.

(** Recovered locally: an absent or unreadable hash file counts as an empty
    map, an unreadable store directory as an unknown size. *)
Lemma _load_previous_hashes_corrupted s f :
  hash_exists_error w = None ->
  hash_file s = Some f -> hf_content f = Unparsable ->
  _load_previous_hashes w s = (Ok (JDict ∅), s).
Proof.
  intros H1 H2 H3.
  unfold _load_previous_hashes, hash_file_exists, hash_file_read_json.
  rewrite H1. unfold_monad. cbn.
  destruct (hash_read_error w); cbn;
    repeat (first [rewrite H2 | rewrite H3]; cbn); reflexivity.
Qed.

Lemma _load_previous_hashes_absent s :
  hash_exists_error w = None -> hash_file s = None ->
  _load_previous_hashes w s = (Ok (JDict ∅), s).
Proof.
  intros H1 H2. unfold _load_previous_hashes, hash_file_exists.
  rewrite H1. unfold_monad. cbn. by rewrite H2.
Qed.

Lemma _load_previous_hashes_dict s f m :
  hash_exists_error w = None -> hash_read_error w = None ->
  hash_file s = Some f -> hf_content f = Parsable (JDict m) ->
  _load_previous_hashes w s = (Ok (JDict m), s).
Proof.
  intros H1 H2 H3 H4.
  unfold _load_previous_hashes, hash_file_exists, hash_file_read_json.
  rewrite H1, H2. unfold_monad. cbn.
  repeat (first [rewrite H3 | rewrite H4]; cbn). reflexivity.
Qed.

End Stats.

(** ** The change set *)

Section ChangeSet.

Variable w : world.

Lemma classify_loop_dict pm docs new0 kept0 cur0 :
  Forall has_key docs ->
  classify_loop w (JDict pm) docs (new0, kept0, cur0) =
    Ok (new0 ++ filter (to_process w pm) docs,
        kept0 ++ filter (fun d => ~ to_process w pm d) docs,
        foldl (record_hash w) cur0 docs).
Proof.
  intros Hk. revert new0 kept0 cur0.
  induction Hk as [|d docs [k Hd] _ IH]; intros new0 kept0 cur0.
  - cbn. by rewrite !app_nil_r.
  - cbn [classify_loop classify_step foldl]. unfold record_hash at 2.
    rewrite Hd. cbn [py_get rbind].
    assert (Hs : stored_hash pm d = pm !! k).
    { unfold stored_hash. by rewrite Hd. }
    rewrite !filter_cons.
    destruct (decide (pm !! k ≠ Some (_sha256 w (page_content d)))) as [Hne|He].
    + cbn [rbind]. rewrite IH.
      rewrite decide_True by (unfold to_process; by rewrite Hs).
      rewrite decide_False by (unfold to_process; rewrite Hs; tauto).
      by rewrite <- app_assoc.
    + cbn [rbind]. rewrite IH.
      rewrite decide_False by (unfold to_process; by rewrite Hs).
      rewrite decide_True by (unfold to_process; rewrite Hs; tauto).
      by rewrite <- app_assoc.
Qed.

(** Every fetched document contributes its hash; a later document with the
    same key overwrites an earlier one. *)
Lemma foldl_record_hash_last docs1 d docs2 k m :
  md_key (metadata d) = Some k ->
  Forall (fun d' => md_key (metadata d') ≠ Some k) docs2 ->
  foldl (record_hash w) m (docs1 ++ d :: docs2) !! k
    = Some (_sha256 w (page_content d)).
Proof.
  intros Hd Hl. rewrite foldl_app. cbn [foldl].
  unfold record_hash at 2. rewrite Hd.
  generalize (foldl (record_hash w) m docs1). intros m1.
  assert (H : <[k:=_sha256 w (page_content d)]> m1 !! k
              = Some (_sha256 w (page_content d))) by apply lookup_insert_eq.
  revert H. generalize (<[k:=_sha256 w (page_content d)]> m1). clear m1.
  induction Hl as [|d' docs2 Hd' _ IH]; intros m1 H; [done|].
  cbn [foldl]. apply IH. unfold record_hash.
  destruct (md_key (metadata d')) as [k'|] eqn:E; [|done].
  rewrite lookup_insert_ne; [done|]. congruence.
Qed.

Lemma foldl_record_hash_dom docs m k :
  is_Some (foldl (record_hash w) m docs !! k) <->
  is_Some (m !! k) \/ exists d, d ∈ docs /\ md_key (metadata d) = Some k.
Proof.
  revert m. induction docs as [|d docs IH]; intros m; cbn [foldl].
  - split; [auto|]. intros [H|(d & Hd & _)]; [done|]. by apply elem_of_nil in Hd.
  - rewrite IH. unfold record_hash at 1.
    destruct (md_key (metadata d)) as [k'|] eqn:E.
    + destruct (decide (k' = k)) as [->|Hne].
      * rewrite lookup_insert_eq. split; [|intros _; left; eauto].
        intros _. right. exists d. split; [left|done].
      * rewrite lookup_insert_ne by done. split.
        -- intros [H|(d' & Hd' & Hk)]; [by left|].
           right. exists d'. split; [by right|done].
        -- intros [H|(d' & Hd' & Hk)]; [by left|].
           apply elem_of_cons in Hd' as [->|Hd']; [congruence|].
           right. eauto.
    + split.
      * intros [H|(d' & Hd' & Hk)]; [by left|].
        right. exists d'. split; [by right|done].
      * intros [H|(d' & Hd' & Hk)]; [by left|].
        apply elem_of_cons in Hd' as [->|Hd']; [congruence|].
        right. eauto.
Qed.

(** The rule, in words: the key is absent from the previous map, or the
    hash stored under it is not the current one. *)
Lemma to_process_iff prev d k :
  md_key (metadata d) = Some k ->
  to_process w prev d <->
  prev !! k = None \/
  exists h, prev !! k = Some h /\ h ≠ _sha256 w (page_content d).
Proof.
  intros Hd. unfold to_process, stored_hash. rewrite Hd. cbn.
  destruct (prev !! k) as [h|]; split.
  - intros H. right. exists h. split; [done|congruence].
  - intros [H|(h' & H & Hne)]; congruence.
  - auto.
  - done.
Qed.

Lemma filter_to_process_empty docs :
  filter (to_process w ∅) docs = docs /\
  filter (fun d => ~ to_process w ∅ d) docs = [].
Proof.
  assert (H : forall d, to_process w ∅ d).
  { intros d. unfold to_process, stored_hash.
    destruct (md_key (metadata d)); cbn; [by rewrite lookup_empty|done]. }
  induction docs as [|d docs [IH1 IH2]]; [done|].
  rewrite !filter_cons.
  rewrite decide_True by apply H.
  rewrite decide_False by (intros Hn; apply Hn, H).
  by rewrite IH1, IH2.
Qed.

End ChangeSet.

(** C1. Change-set classification. For every list of fetched documents
    (each carrying its key) and every previous fingerprint map [pm]:
    [current_hashes] receives the hash of every document whatever the
    decision taken for it (a later document with the same key overwrites an
    earlier one); [new_docs] are exactly the documents whose key is absent
    from the previous map or stored with another hash, in order, and
    [kept_docs] the others; under [force_update] the previous map is empty
    and every document is to process. *)
Theorem classify_change_set (w : world) (force_update : bool)
    (documents : list document) (pm : gmap string string) (s : state) :
  Forall has_key documents ->
  (force_update = false -> _load_previous_hashes w s = (Ok (JDict pm), s)) ->
  let prev := if force_update then ∅ else pm in
  exists new_docs kept_docs current_hashes,
    classify w force_update documents s
      = (Ok (new_docs, kept_docs, current_hashes), s) /\
    current_hashes = foldl (record_hash w) ∅ documents /\
    (forall docs1 d docs2 k,
        documents = docs1 ++ d :: docs2 ->
        md_key (metadata d) = Some k ->
        Forall (fun d' => md_key (metadata d') ≠ Some k) docs2 ->
        current_hashes !! k = Some (sha256 w (page_content d))) /\
    (forall k, is_Some (current_hashes !! k) <->
               exists d, d ∈ documents /\ md_key (metadata d) = Some k) /\
    new_docs = filter (to_process w prev) documents /\
    kept_docs = filter (fun d => ~ to_process w prev d) documents /\
    (forall d k, md_key (metadata d) = Some k ->
        (to_process w prev d <->
         prev !! k = None \/
         exists h, prev !! k = Some h /\ h ≠ sha256 w (page_content d))) /\
    (force_update = true -> new_docs = documents /\ kept_docs = []).
Proof.
  intros Hk Hload prev.
  exists (filter (to_process w prev) documents),
         (filter (fun d => ~ to_process w prev d) documents),
         (foldl (record_hash w) ∅ documents).
  split.
  { unfold classify, bind, lift. subst prev.
    destruct force_update.
    - cbn. by rewrite classify_loop_dict.
    - rewrite Hload by done. by rewrite classify_loop_dict. }
  split; [done|]. split.
  { intros docs1 d docs2 k -> Hd Hl. by apply foldl_record_hash_last. }
  split.
  { intros k. rewrite foldl_record_hash_dom, lookup_empty.
    split; [intros [[? H]|H]; [done|exact H] | by right]. }
  split; [done|]. split; [done|]. split.
  { intros d k Hd. by apply to_process_iff. }
  intros ->. subst prev. apply filter_to_process_empty.
Qed.

Lemma classify_change_set_witness :
  exists new_docs kept_docs current_hashes,
    classify (sample_world (Ok []) (Ok []) None None) false
      [doc_a; sample_doc "B" "y2"] indexed_state
      = (Ok (new_docs, kept_docs, current_hashes), indexed_state) /\
    new_docs = [sample_doc "B" "y2"] /\ kept_docs = [doc_a] /\
    current_hashes !! "B" = Some "sha256:y2".
Proof.
  destruct (classify_change_set (sample_world (Ok []) (Ok []) None None) false
              [doc_a; sample_doc "B" "y2"]
              (<["A" := "sha256:x"]> (<["B" := "sha256:y"]> ∅)) indexed_state)
    as (n & k & c & H & Hc & _ & _ & Hn & Hkept & _).
  - repeat constructor; by eexists.
  - intros _. vm_compute. reflexivity.
  - exists n, k, c. split; [exact H|].
    rewrite Hn, Hkept, Hc. repeat split; vm_compute; reflexivity.
Defined.

(** ** The ingest pipeline *)

#[local] Arguments get_stats : simpl never.
#[local] Arguments classify : simpl never.

Section Ingest.

Variable w : world.

Lemma classify_reads force_update documents s :
  exists r, classify w force_update documents s = (r, s).
Proof.
  unfold classify, bind, lift. destruct force_update.
  - cbn. eauto.
  - destruct (_load_previous_hashes_reads w s) as [[v|e] ->]; eauto.
Qed.

(** The classification depends on the state through the hash file only. *)
Lemma classify_frame force_update documents s1 s2 :
  hash_file s1 = hash_file s2 ->
  (classify w force_update documents s1).1
    = (classify w force_update documents s2).1.
Proof.
  intros H. unfold classify, bind, lift. destruct force_update; [done|].
  destruct s1 as [v1 h1 d1 t1], s2 as [v2 h2 d2 t2]. cbn in H. subst h2.
  unfold _load_previous_hashes, hash_file_exists, hash_file_read_json.
  run_all.
Qed.

Lemma classify_known force_update documents s cs s1 :
  (classify w force_update documents s).1 = Ok cs ->
  hash_file s1 = hash_file s ->
  classify w force_update documents s1 = (Ok cs, s1).
Proof.
  intros H Hh. rewrite <- (classify_frame force_update documents s1 s Hh) in H.
  destruct (classify_reads force_update documents s1) as [r Hr].
  rewrite Hr in *. cbn in H. by subst r.
Qed.

Lemma process_body_loader_raises force_update s e :
  loader_load w = Raise e ->
  process_body w force_update s = (Raise e, log EvLoaderLoad s).
Proof.
  intros H. unfold process_body, load_documents. unfold_monad. cbn.
  by rewrite H.
Qed.

End Ingest.

(** C3. No exception escapes [process_embeddings]: for every world, flag
    and state it returns a result; and whenever a step of the [try] block
    raises [e] (so that the block raises [e]), the result has
    [success = false], the message ["Error processing embeddings: "]
    followed by [str(e)], and the statistics of the state the failure
    left. A raising loader is the first such step. *)
Theorem process_embeddings_never_raises (w : world) (force_update : bool)
    (s : state) :
  exists r s',
    process_embeddings w force_update s = (Ok r, s') /\
    (forall e s1,
        process_body w force_update s = (Raise e, s1) ->
        s' = s1 /\
        success r = false /\
        message r = "Error processing embeddings: " +:+ exn_msg e /\
        stats r = stats_in w s1) /\
    (forall e, loader_load w = Raise e ->
               success r = false /\
               message r = "Error processing embeddings: " +:+ exn_msg e).
Proof.
  unfold process_embeddings, try_catch.
  destruct (process_body w force_update s) as [[r|e] s1] eqn:Hbody.
  - exists r, s1. split; [done|]. split; [intros e s2 [=]|].
    intros e He. rewrite (process_body_loader_raises w force_update s e He) in Hbody.
    discriminate.
  - unfold bind. rewrite get_stats_run. cbn.
    eexists _, _. split; [reflexivity|]. split.
    + intros e' s2 [= <- <-]. done.
    + intros e' He.
      rewrite (process_body_loader_raises w force_update s e' He) in Hbody.
      by injection Hbody as <- _.
Qed.

Lemma process_embeddings_never_raises_witness :
  exists r s',
    process_embeddings
      (sample_world (Raise (Exn "Exception" "S3 connection failed"))
                    (Ok []) None None) false empty_state = (Ok r, s') /\
    success r = false /\
    message r = "Error processing embeddings: S3 connection failed".
Proof.
  destruct (process_embeddings_never_raises
              (sample_world (Raise (Exn "Exception" "S3 connection failed"))
                            (Ok []) None None) false empty_state)
    as (r & s' & H & _ & Hl).
  exists r, s'. split; [exact H|]. exact (Hl _ eq_refl).
Defined.

(** Unfolds a run of [process_embeddings] into its paths. *)
Ltac process_step w :=
  first
    [ rewrite (get_stats_run w)
    | match goal with
      | |- context [classify w ?f ?d ?s] =>
          let H := fresh "Hcs" in
          destruct (classify_reads w f d s) as [[[[? ?] ?]|?] H];
          rewrite H; clear H
      end
    | case_inner ];
  cbn.

Ltac process_paths w :=
  unfold process_embeddings, process_body, update_vector_store,
    save_vector_store, _save_hashes;
  unfold load_documents, RecursiveCharacterTextSplitter,
    text_splitter_split_documents, FAISS_from_documents,
    vector_store_merge_from, store_dir_mkdir, save_local, hash_file_write;
  unfold set_vector_store, set_hash_file, set_store_dir, log;
  unfold_monad; cbn;
  repeat process_step w.

(** Positions in a concrete trace. *)
Ltac case_position :=
  repeat match goal with
         | H : _ !! ?i = Some _ |- _ =>
             destruct i; cbn in H; try discriminate H
         end.

Ltac find_position :=
  let rec go fuel j :=
    lazymatch fuel with
    | O => fail
    | S ?fuel' => first [ exists j; eexists; split; [lia | reflexivity]
                        | go fuel' (S j) ]
    end in
  go 12%nat 0%nat.

Ltac with_prefix tac :=
  first [ eexists []; tac | eexists [_]; tac | eexists [_; _]; tac
        | eexists [_; _; _]; tac | eexists [_; _; _; _]; tac
        | eexists [_; _; _; _; _]; tac | eexists [_; _; _; _; _; _]; tac ].

Ltac solve_leaf :=
  repeat match goal with
         | |- _ /\ _ => split
         | |- exists _, _ => eexists
         | |- Forall _ _ => solve [repeat constructor]
         | |- _ = _ => reflexivity
         end.

Ltac refute_absent H :=
  exfalso;
  let rec go fuel j :=
    lazymatch fuel with
    | O => fail
    | S ?fuel' => first [ exact (H j _ _ eq_refl) | go fuel' (S j) ]
    end in
  go 12%nat 0%nat.

(** C4. Persistence order. In every run of [process_embeddings], with [t]
    the events the run added to the trace: a write of the fingerprint map
    (successful or not) is preceded by a successful save of the index; if
    a save of the index failed, the run reports [success = false], the
    hash file is what it was before the run and no write of the map was
    attempted; and the hash file changes only through such a write. *)
Theorem index_saved_before_hashes (w : world) (force_update : bool)
    (s : state) :
  exists r s' t,
    process_embeddings w force_update s = (Ok r, s') /\
    trace s' = trace s ++ t /\
    (forall i m ok,
        t !! i = Some (EvSaveHashes m ok) ->
        exists j ix, (j < i)%nat /\ t !! j = Some (EvSaveLocal ix true)) /\
    (forall i ix,
        t !! i = Some (EvSaveLocal ix false) ->
        success r = false /\ hash_file s' = hash_file s /\
        forall j m ok, t !! j ≠ Some (EvSaveHashes m ok)) /\
    ((forall i m ok, t !! i ≠ Some (EvSaveHashes m ok)) ->
     hash_file s' = hash_file s) /\
    (success r = true ->
     t = [EvLoaderLoad] \/
     exists t0 ix m,
       t = t0 ++ [EvSaveLocal ix true; EvSaveHashes m true] /\
       vector_store s' = Some ix /\
       store_dir s' = Some {| st_index := Some ix;
                              st_bytes := saved_size w ix |} /\
       hash_file s' = Some {| hf_content := Parsable (JDict m);
                              hf_mtime := now w |}).
Proof.
  process_paths w;
    rewrite <- ?app_assoc; cbn;
    (eexists _, _, _; split; [reflexivity|]; split; [reflexivity|]);
    cbn; (split; [|split; [|split]]);
    first
      [ solve [intros ? ? ? ?; case_position; find_position]
      | solve [intros ? ? ?; case_position;
               (split; [reflexivity|split; [reflexivity|]]);
               intros ? ? ? ?; case_position]
      | solve [intros _; reflexivity]
      | solve [intros Habs; refute_absent Habs]
      | solve [intros [=]]
      | solve [intros _; left; reflexivity]
      | intros _; right;
        with_prefix ltac:(eexists _, _; split; [reflexivity|];
                          repeat split; reflexivity) ].
Qed.

Lemma index_saved_before_hashes_witness :
  let w := sample_world (Ok [doc_a; doc_b]) (Ok [])
             None (Some (Exn "OSError" "No space left on device", None)) in
  exists r s',
    process_embeddings w false empty_state = (Ok r, s') /\
    success r = false /\
    hash_file s' = hash_file empty_state.
Proof.
  cbv zeta.
  destruct (index_saved_before_hashes
              (sample_world (Ok [doc_a; doc_b]) (Ok [])
                 None (Some (Exn "OSError" "No space left on device", None)))
              false empty_state)
    as (r & s' & t & Hrun & Ht & _ & Hfail & _).
  exists r, s'. split; [exact Hrun|].
  vm_compute in Hrun. injection Hrun as <- <-.
  cbn in Ht. subst t.
  destruct (Hfail 4%nat _ eq_refl) as (H1 & H2 & _).
  split; [exact H1|exact H2].
Defined.

(** Two runs in a row from an empty state: the first builds and persists,
    the second is short-circuited and leaves the index as it is. *)
Lemma process_embeddings_twice :
  let w := sample_world (Ok [doc_a; doc_b]) (Ok []) None None in
  let first := process_embeddings w false empty_state in
  let second := process_embeddings w false first.2 in
  (success <$> match first.1 with Ok r => Some r | Raise _ => None end)
    = Some true /\
  (message <$> match second.1 with Ok r => Some r | Raise _ => None end)
    = Some "No changes detected. Vector store is up to date." /\
  vector_store second.2 = vector_store first.2 /\
  vector_store first.2 = Some (sample_index [doc_a; doc_b]) /\
  hash_file second.2 = hash_file first.2.
Proof. vm_compute. repeat split; reflexivity. Qed.

(** C2, as the code has it. Build or merge. Take a run that reaches the
    index step: the loader returned [documents] (not empty), the
    classification gave [new_docs],
    the run is not short-circuited, and the splitter turned [new_docs] into
    [chunks]. If no index is loaded or [force_update] holds, all of
    [documents] are split again and a new index is built from those chunks
    alone; when that succeeds it is [self.vector_store], whatever was
    loaded before, and nothing is merged. Otherwise, with [base] loaded:
    if [chunks] is empty nothing is built or merged and [base] stays;
    else an index is built from [chunks] only and merged into [base].
    What follows in the trace are persistence events only. *)
Theorem build_or_merge (w : world) (force_update : bool)
    (documents new_docs kept_docs : list document)
    (current_hashes : gmap string string) (chunks : list document)
    (s : state) :
  loader_load w = Ok documents ->
  documents ≠ [] ->
  (classify w force_update documents s).1
    = Ok (new_docs, kept_docs, current_hashes) ->
  new_docs ≠ [] \/ force_update = true ->
  splitter_error w = None ->
  split_documents w new_docs = Ok chunks ->
  exists r s' rest,
    process_embeddings w force_update s = (Ok r, s') /\
    match vector_store s, force_update with
    | Some base, false =>
        match chunks with
        | [] =>
            trace s' = trace s ++ [EvLoaderLoad; EvSplit new_docs] ++ rest /\
            Forall is_persistence rest /\
            vector_store s' = Some base
        | _ :: _ =>
            trace s' = trace s
              ++ [EvLoaderLoad; EvSplit new_docs; EvFromDocuments chunks]
              ++ rest /\
            match from_documents w chunks with
            | Ok new_vector_store =>
                exists rest',
                  rest = EvMergeFrom base new_vector_store :: rest' /\
                  Forall is_persistence rest' /\
                  vector_store s'
                    = Some (merge_from w base new_vector_store).2
            | Raise _ =>
                rest = [] /\ vector_store s' = Some base /\ success r = false
            end
        end
    | _, _ =>
        trace s' = trace s
          ++ [EvLoaderLoad; EvSplit new_docs; EvSplit documents] ++ rest /\
        match split_documents w documents with
        | Ok all_chunks =>
            exists rest',
              rest = EvFromDocuments all_chunks :: rest' /\
              Forall is_persistence rest' /\
              match from_documents w all_chunks with
              | Ok ix => vector_store s' = Some ix
              | Raise _ =>
                  rest' = [] /\ vector_store s' = vector_store s /\
                  success r = false
              end
        | Raise _ =>
            rest = [] /\ vector_store s' = vector_store s /\ success r = false
        end
    end.
Proof.
  intros Hload Hne Hcs Hnew Hsplitter Hchunks.
  assert (Hshort : is_empty new_docs && negb force_update = false).
  { destruct Hnew as [Hn| ->]; [|by rewrite andb_false_r].
    by destruct new_docs. }
  destruct documents as [|d documents]; [done|].
  unfold process_embeddings, process_body, update_vector_store,
    save_vector_store, _save_hashes;
  unfold load_documents, RecursiveCharacterTextSplitter,
    text_splitter_split_documents, FAISS_from_documents,
    vector_store_merge_from, store_dir_mkdir, save_local, hash_file_write;
  unfold set_vector_store, set_hash_file, set_store_dir, log;
  unfold_monad; cbn.
  rewrite Hload. cbn.
  rewrite (classify_known w _ _ _ _ _ Hcs) by reflexivity. cbn.
  rewrite Hshort, Hsplitter. cbn. rewrite Hchunks. cbn.
  repeat (first [rewrite (get_stats_run w) | case_inner]; cbn);
    try solve [exfalso; cbn in *; congruence];
    rewrite <- ?app_assoc; cbn;
    (eexists _, _, _; split; [reflexivity|]);
    cbn; rewrite ?Heqo; cbn;
    solve_leaf.
Qed.

Lemma build_or_merge_witness :
  exists r s',
    process_embeddings (sample_world (Ok [doc_a; doc_b]) (Ok []) None None)
      true indexed_state = (Ok r, s') /\
    vector_store s' = Some (sample_index [doc_a; doc_b]).
Proof.
  destruct (build_or_merge (sample_world (Ok [doc_a; doc_b]) (Ok []) None None)
              true [doc_a; doc_b] [doc_a; doc_b] [] 
              (<["B" := "sha256:y"]> (<["A" := "sha256:x"]> ∅))
              [doc_a; doc_b] indexed_state)
    as (r & s' & rest & Hrun & _ & rest' & _ & _ & Hvs).
  - reflexivity.
  - discriminate.
  - vm_compute. reflexivity.
  - by right.
  - reflexivity.
  - reflexivity.
  - exists r, s'. split; [exact Hrun|]. exact Hvs.
Defined.

(** C2, as stated, fails: having no index loaded does not by itself make a
    run build one. With the fingerprints of A and B on record, no index
    loaded and no force, the run ends at the up-to-date answer: nothing is
    split or embedded and there is still no index. And a forced run whose
    loader finds no document ends at "No documents found to process",
    with nothing built either. *)
Lemma no_index_and_nothing_built :
  let s := {| vector_store := None;
              hash_file := hash_file indexed_state;
              store_dir := None;
              trace := [] |} in
  (exists r s',
     process_embeddings
       (sample_world (Ok [doc_a; doc_b]) (Ok []) None None) false s
     = (Ok r, s') /\
     success r = true /\
     message r = up_to_date_message /\
     trace s' = [EvLoaderLoad] /\
     vector_store s' = None /\
     store_dir s' = None) /\
  (exists r s',
     process_embeddings (sample_world (Ok []) (Ok []) None None) true s
     = (Ok r, s') /\
     success r = false /\
     message r = "No documents found to process" /\
     trace s' = [EvLoaderLoad] /\
     vector_store s' = None /\
     store_dir s' = None).
Proof.
  cbv zeta. split.
  - eexists _, _. split; [vm_compute; reflexivity|].
    repeat split; reflexivity.
  - eexists _, _. split; [vm_compute; reflexivity|].
    repeat split; reflexivity.
Qed.

(** The short-circuited run. *)
Lemma process_embeddings_up_to_date (w : world)
    (documents kept_docs : list document)
    (current_hashes : gmap string string) (s : state) :
  loader_load w = Ok documents ->
  documents ≠ [] ->
  (classify w false documents s).1 = Ok ([], kept_docs, current_hashes) ->
  process_embeddings w false s
  = (Ok {| success := true;
           message := "No changes detected. Vector store is up to date.";
           stats := stats_in w (log EvLoaderLoad s) |},
     log EvLoaderLoad s).
Proof.
  intros Hload Hne Hcs.
  destruct documents as [|d documents]; [done|].
  unfold process_embeddings, process_body, load_documents.
  unfold_monad. cbn. rewrite Hload. cbn.
  rewrite (classify_known w _ _ _ _ _ Hcs) by reflexivity. cbn.
  by rewrite (get_stats_run w).
Qed.

(** Documents with pairwise different keys whose fingerprints are the
    ones on record are all unchanged. *)
Lemma filter_to_process_recorded (w : world) (documents : list document) :
  Forall has_key documents ->
  NoDup (md_key ∘ metadata <$> documents) ->
  filter (to_process w (foldl (record_hash w) ∅ documents)) documents = [].
Proof.
  intros Hk Hnd.
  assert (H : forall d, d ∈ documents ->
                ~ to_process w (foldl (record_hash w) ∅ documents) d).
  { intros d Hd.
    apply list_elem_of_split in Hd as (l1 & l2 & ->).
    rewrite fmap_app, fmap_cons in Hnd.
    apply NoDup_app in Hnd as (_ & _ & Hnd).
    apply NoDup_cons in Hnd as [Hnotin _].
    apply Forall_app in Hk as [_ Hk]. apply Forall_cons in Hk as [[k Hd] _].
    unfold to_process, stored_hash. rewrite Hd. cbn.
    rewrite (foldl_record_hash_last w l1 d l2 k ∅ Hd); [tauto|].
    apply Forall_forall. intros d' Hd' Heq. apply Hnotin.
    apply list_elem_of_fmap. exists d'. split; [|done]. cbn. congruence. }
  revert H. generalize (foldl (record_hash w) ∅ documents). intros m H.
  induction documents as [|d documents IH]; [done|].
  rewrite filter_cons, decide_False by (apply H; left).
  apply IH; [by eapply Forall_inv_tail|by eapply NoDup_cons_1_2|].
  intros d' Hd'. apply H. by right.
Qed.

(** Idempotence: once the fingerprints of the fetched documents are on
    disk and readable, a run without [force_update] over the same
    documents is short-circuited: it touches neither the index nor the
    disk. *)
Lemma process_embeddings_idempotent (w : world) (documents : list document)
    (s : state) (f : hash_file_t) :
  loader_load w = Ok documents ->
  documents ≠ [] ->
  Forall has_key documents ->
  NoDup (md_key ∘ metadata <$> documents) ->
  hash_exists_error w = None ->
  hash_read_error w = None ->
  hash_file s = Some f ->
  hf_content f = Parsable (JDict (foldl (record_hash w) ∅ documents)) ->
  exists r s',
    process_embeddings w false s = (Ok r, s') /\
    success r = true /\
    message r = up_to_date_message /\
    trace s' = trace s ++ [EvLoaderLoad] /\
    vector_store s' = vector_store s /\
    store_dir s' = store_dir s /\
    hash_file s' = hash_file s.
Proof.
  intros Hload Hne Hk Hnd He Hr Hf Hc.
  pose proof (_load_previous_hashes_dict w s f _ He Hr Hf Hc) as Hprev.
  assert (Hcs : (classify w false documents s).1
                = Ok ([], filter (fun d => ~ to_process w
                                     (foldl (record_hash w) ∅ documents) d)
                             documents,
                      foldl (record_hash w) ∅ documents)).
  { unfold classify, bind, lift. rewrite Hprev.
    rewrite classify_loop_dict by done. cbn.
    by rewrite filter_to_process_recorded. }
  rewrite (process_embeddings_up_to_date w _ _ _ s Hload Hne Hcs).
  eexists _, _. split; [reflexivity|]. repeat split; reflexivity.
Qed.

(** C7, as the code has it. Short circuit: when the loader returns
    documents, none of them is classified as to process and [force_update]
    is false, [process_embeddings] returns [success = true] with the
    up-to-date message, having called neither the splitter nor FAISS: the
    only event is the loader call. [self.vector_store], the store
    directory and the hash file are left as they were; in particular the
    fingerprint map is not written, whatever its keys. *)
Theorem short_circuit (w : world) (documents kept_docs : list document)
    (current_hashes : gmap string string) (s : state) :
  loader_load w = Ok documents ->
  documents ≠ [] ->
  (classify w false documents s).1 = Ok ([], kept_docs, current_hashes) ->
  exists r s',
    process_embeddings w false s = (Ok r, s') /\
    success r = true /\
    message r = "No changes detected. Vector store is up to date." /\
    stats r = stats_in w s' /\
    trace s' = trace s ++ [EvLoaderLoad] /\
    vector_store s' = vector_store s /\
    store_dir s' = store_dir s /\
    hash_file s' = hash_file s.
Proof.
  intros Hload Hne Hcs.
  rewrite (process_embeddings_up_to_date w _ _ _ s Hload Hne Hcs).
  eexists _, _. split; [reflexivity|]. repeat split; reflexivity.
Qed.

Lemma short_circuit_witness :
  exists r s',
    process_embeddings (sample_world (Ok [doc_a; doc_b]) (Ok []) None None)
      false indexed_state = (Ok r, s') /\
    success r = true /\
    trace s' = [EvLoaderLoad] /\
    vector_store s' = vector_store indexed_state.
Proof.
  destruct (short_circuit (sample_world (Ok [doc_a; doc_b]) (Ok []) None None)
              [doc_a; doc_b] [doc_a; doc_b]
              (<["B" := "sha256:y"]> (<["A" := "sha256:x"]> ∅)) indexed_state)
    as (r & s' & Hrun & Hs & _ & _ & Ht & Hv & _).
  - reflexivity.
  - discriminate.
  - vm_compute. reflexivity.
  - exists r, s'. repeat split; assumption.
Defined.

(** C7, as stated, fails on its last clause. With A and B fingerprinted on
    disk and only A fetched, unchanged: nothing is to process, the key set
    of the current map (A) differs from the previous one (A and B), and yet
    the run writes no map: the hash file still holds the previous map. *)
Lemma short_circuit_keeps_previous_map :
  let w := sample_world (Ok [doc_a]) (Ok []) None None in
  let current := <["A" := "sha256:x"]> (∅ : gmap string string) in
  let previous := <["A" := "sha256:x"]> (<["B" := "sha256:y"]> ∅) in
  classify w false [doc_a] indexed_state
    = (Ok ([], [doc_a], current), indexed_state) /\
  _load_previous_hashes w indexed_state = (Ok (JDict previous), indexed_state) /\
  dom current ≠ dom previous /\
  (process_embeddings w false indexed_state).1
    = Ok {| success := true;
            message := "No changes detected. Vector store is up to date.";
            stats := {| schemas.total_documents := 2;
                        schemas.total_chunks := 2;
                        schemas.last_update := Some "2024-01-01T00:00:00";
                        schemas.vector_store_size := Some 200 |} |} /\
  trace (process_embeddings w false indexed_state).2 = [EvLoaderLoad] /\
  hash_file (process_embeddings w false indexed_state).2
    = Some {| hf_content := Parsable (JDict previous);
              hf_mtime := 1700000000 |} /\
  previous ≠ current.
Proof.
  cbv zeta.
  assert (Hdom : dom (<["A" := "sha256:x"]> (∅ : gmap string string))
                 ≠ dom (<["A" := "sha256:x"]>
                          (<["B" := "sha256:y"]> (∅ : gmap string string)))).
  { intros H.
    assert (HB : "B" ∈ dom (<["A" := "sha256:x"]>
                              (<["B" := "sha256:y"]> (∅ : gmap string string)))).
    { apply elem_of_dom. eexists. reflexivity. }
    rewrite <- H in HB. apply elem_of_dom in HB as [x Hx].
    vm_compute in Hx. discriminate. }
  repeat split; try (vm_compute; reflexivity); try exact Hdom.
  intros H. apply Hdom. by rewrite H.
Qed.

(** ** Statistics *)

(** C9. [get_stats] is total: in every state and world, whatever the hash
    file holds or lacks, whether an index is loaded or not, and whichever
    file operations raise, it returns statistics, raises nothing and
    changes nothing; and when its [try] block raises, the statistics are
    the zeroed ones (0 documents, 0 chunks, no last update, no size). *)
Theorem get_stats_total (w : world) (s : state) :
  exists st,
    get_stats w s = (Ok st, s) /\
    (forall e s', get_stats_body w s = (Raise e, s') -> st = zero_stats).
Proof.
  exists (stats_in w s). split; [apply get_stats_run|].
  intros e s' H. unfold stats_in. by rewrite H.
Qed.

Lemma get_stats_total_witness :
  get_stats
    (sample_world (Ok []) (Ok []) (Some (Exn "PermissionError" "denied")) None)
    indexed_state
  = (Ok {| schemas.total_documents := 0; schemas.total_chunks := 0;
           schemas.last_update := None; schemas.vector_store_size := None |},
     indexed_state).
Proof.
  destruct (get_stats_total
              (sample_world (Ok []) (Ok [])
                 (Some (Exn "PermissionError" "denied")) None)
              indexed_state) as (st & Hrun & Hzero).
  rewrite Hrun. f_equal. f_equal.
  apply (Hzero (Exn "PermissionError" "denied") indexed_state).
  vm_compute. reflexivity.
Defined.

(** Without faults the statistics are read off the state. *)
Lemma get_stats_indexed_state :
  (get_stats (sample_world (Ok []) (Ok []) None None) indexed_state).1
  = Ok {| schemas.total_documents := 2; schemas.total_chunks := 2;
          schemas.last_update := Some "2024-01-01T00:00:00";
          schemas.vector_store_size := Some 200 |}.
Proof. vm_compute. reflexivity. Qed.

Lemma get_stats_empty_state :
  (get_stats (sample_world (Ok []) (Ok []) None None) empty_state).1
  = Ok zero_stats.
Proof. vm_compute. reflexivity. Qed.

(** ** The query pipeline *)

Section Query.

Lemma filter_results_ok threshold results chunks :
  divisible results = true ->
  filter_results threshold results chunks
    = Ok (chunks ++ (shape <$> filter (fun r => passes threshold r) results)).
Proof.
  revert chunks. induction results as [|[doc sc] results IH]; intros chunks H.
  - cbn. by rewrite app_nil_r.
  - cbn in H. apply andb_prop in H as [H1 H2].
    cbn [filter_results]. unfold similarity_of, py_div.
    apply negb_true_iff in H1. rewrite H1. cbn [rbind].
    assert (Hp : passes threshold (doc, sc)
                 = Qle_bool threshold (1 / (1 + sc))) by reflexivity.
    destruct (Qle_bool threshold (1 / (1 + sc))) eqn:E.
    + rewrite filter_cons, decide_True by (rewrite Hp; cbn; tauto).
      rewrite IH by done.
      cbn [fmap list_fmap]. rewrite <- app_assoc. reflexivity.
    + rewrite filter_cons, decide_False by (rewrite Hp; cbn; tauto).
      by rewrite IH.
Qed.

(** What [search] does with a loaded index. *)
Lemma search_loaded w query max_results threshold s ix :
  vector_store s = Some ix ->
  search w query max_results threshold s =
    (match similarity_search_with_score w ix query max_results with
     | Ok results =>
         match filter_results threshold results [] with
         | Ok chunks => Ok chunks
         | Raise e => Raise (search_error e)
         end
     | Raise e => Raise (search_error e)
     end, s).
Proof.
  intros H. unfold search. unfold_monad. cbn. rewrite H. cbn.
  destruct (similarity_search_with_score w ix query max_results); [|done].
  by destruct (filter_results threshold a []).
Qed.

End Query.

Section QueryNumbers.

Variable fl : arithmetic.

Lemma filter_results_with_similarities threshold results chunks :
  filter_results_with fl threshold results chunks
  = rbind (similarities fl results) (fun scored =>
      Ok (chunks ++ (shaped fl <$> filter (fun r => accepted threshold r) scored))).
Proof.
  revert chunks. induction results as [|[doc sc] results IH]; intros chunks.
  - cbn. by rewrite app_nil_r.
  - cbn [filter_results_with similarities].
    destruct (similarity_with fl sc) as [q|e]; [|reflexivity]. cbn [rbind].
    assert (Hp : accepted threshold (doc, q) = Qle_bool threshold q)
      by reflexivity.
    destruct (Qle_bool threshold q) eqn:E; rewrite IH;
      (destruct (similarities fl results) as [scored|e]; [|reflexivity]);
      cbn [rbind].
    + rewrite filter_cons, decide_True by (rewrite Hp; cbn; tauto).
      cbn [fmap list_fmap]. by rewrite <- app_assoc.
    + by rewrite filter_cons, decide_False by (rewrite Hp; cbn; tauto).
Qed.

Lemma accepted_mono t1 t2 r :
  (t1 <= t2)%Q -> accepted t2 r = true -> accepted t1 r = true.
Proof.
  unfold accepted. intros Hle H. apply Qle_bool_iff in H.
  apply Qle_bool_iff. exact (Qle_trans _ _ _ Hle H).
Qed.

Lemma filter_accepted_sublist t1 t2 (scored : list (document * Q)) :
  (t1 <= t2)%Q ->
  filter (fun r => accepted t2 r) scored
    `sublist_of` filter (fun r => accepted t1 r) scored.
Proof.
  intros Hle. induction scored as [|r scored IH]; [constructor|].
  rewrite !filter_cons.
  destruct (decide (accepted t2 r)) as [H2|H2].
  - rewrite decide_True; [by constructor|].
    apply Is_true_true, (accepted_mono _ _ _ Hle), Is_true_true, H2.
  - destruct (decide (accepted t1 r)); [by constructor|done].
Qed.

(** A computed similarity belongs to an engine result. *)
Lemma similarities_elem results scored doc q :
  similarities fl results = Ok scored ->
  (doc, q) ∈ scored ->
  exists distance,
    (doc, distance) ∈ results /\ similarity_with fl distance = Ok q.
Proof.
  revert scored. induction results as [|[d sc] results IH]; intros scored H Hin.
  - injection H as <-. by apply elem_of_nil in Hin.
  - cbn [similarities] in H.
    destruct (similarity_with fl sc) as [q0|] eqn:Hq; [|done]. cbn [rbind] in H.
    destruct (similarities fl results) as [scored'|]; [|done].
    cbn [rbind] in H. injection H as <-.
    apply elem_of_cons in Hin as [Hin|Hin].
    + injection Hin as -> ->. exists sc. split; [by left|exact Hq].
    + destruct (IH scored' eq_refl Hin) as (distance & H1 & H2).
      exists distance. split; [by right|exact H2].
Qed.

(** What [search_with] does with a loaded index. *)
Lemma search_with_loaded w query max_results threshold s ix :
  vector_store s = Some ix ->
  search_with fl w query max_results threshold s =
    (match similarity_search_with_score w ix query max_results with
     | Ok results =>
         match filter_results_with fl threshold results [] with
         | Ok chunks => Ok chunks
         | Raise e => Raise (search_error e)
         end
     | Raise e => Raise (search_error e)
     end, s).
Proof.
  intros H. unfold search_with. unfold_monad. cbn. rewrite H. cbn.
  destruct (similarity_search_with_score w ix query max_results); [|done].
  by destruct (filter_results_with fl threshold a []).
Qed.

End QueryNumbers.

(** [search] is [search_with] in exact arithmetic. *)
Lemma filter_results_with_exact threshold results chunks :
  filter_results_with exact threshold results chunks
  = filter_results threshold results chunks.
Proof.
  revert chunks. induction results as [|[doc sc] results IH]; intros chunks;
    [reflexivity|].
  cbn [filter_results_with filter_results].
  change (similarity_with exact sc) with (similarity_of sc).
  destruct (similarity_of sc) as [q|]; [|reflexivity]. cbn [rbind].
  change (to_chunk_with exact doc q) with (to_chunk doc q).
  destruct (Qle_bool threshold q); apply IH.
Qed.

Lemma search_with_exact w query max_results threshold s :
  search_with exact w query max_results threshold s
  = search w query max_results threshold s.
Proof.
  unfold search_with, search. unfold_monad.
  destruct (vector_store s); [|reflexivity].
  destruct (similarity_search_with_score w i query max_results); [|reflexivity].
  by rewrite filter_results_with_exact.
Qed.

(** C8. Threshold filtering and monotonicity. When [search] returns, it
    returns exactly the engine's results whose similarity, as the number
    type of the distances computes [1 / (1 + distance)], is at least the
    threshold, shaped and in the engine's order. Hence, for the same
    query, [max_results] and state, if [t1 <= t2] and the search with [t2]
    returns, the search with [t1] returns too, and every result of the
    former is a result of the latter, in the same order. *)
Theorem threshold_monotone (fl : arithmetic) (w : world) (query : string)
    (max_results : Z) (t1 t2 : Q) (s : state)
    (chunks2 : list DocumentChunk) :
  (t1 <= t2)%Q ->
  (search_with fl w query max_results t2 s).1 = Ok chunks2 ->
  exists ix results scored chunks1,
    vector_store s = Some ix /\
    similarity_search_with_score w ix query max_results = Ok results /\
    similarities fl results = Ok scored /\
    (search_with fl w query max_results t1 s).1 = Ok chunks1 /\
    chunks1 = shaped fl <$> filter (fun r => accepted t1 r) scored /\
    chunks2 = shaped fl <$> filter (fun r => accepted t2 r) scored /\
    chunks2 `sublist_of` chunks1 /\
    (forall c, c ∈ chunks2 -> c ∈ chunks1).
Proof.
  intros Hle H2.
  destruct (vector_store s) as [ix|] eqn:Hvs.
  2: { unfold search_with in H2. unfold_monad. cbn in H2.
       by rewrite Hvs in H2. }
  rewrite (search_with_loaded _ _ _ _ _ _ _ Hvs) in H2.
  rewrite (search_with_loaded _ _ _ _ _ _ _ Hvs).
  destruct (similarity_search_with_score w ix query max_results)
    as [results|e] eqn:Hres; [|done].
  cbn [fst] in *.
  rewrite filter_results_with_similarities in *.
  destruct (similarities fl results) as [scored|e] eqn:Hsim; [|done].
  cbn [rbind app] in *. injection H2 as <-.
  assert (Hsub : shaped fl <$> filter (fun r => accepted t2 r) scored
                 `sublist_of`
                 shaped fl <$> filter (fun r => accepted t1 r) scored).
  { apply fmap_sublist. by apply filter_accepted_sublist. }
  exists ix, results, scored. eexists.
  split; [reflexivity|]. split; [exact Hres|]. split; [exact Hsim|].
  do 3 (split; [reflexivity|]). split; [exact Hsub|].
  intros c Hc. by eapply elem_of_sublist.
Qed.

Lemma threshold_monotone_witness :
  exists chunks1,
    (search_with exact
       (sample_world (Ok []) (Ok [(doc_a, 1 # 5); (doc_b, 1 # 1)]) None None)
       "cats" 5 (1 # 2) indexed_state).1 = Ok chunks1 /\
    [shaped exact (doc_a, 5 # 6)] `sublist_of` chunks1.
Proof.
  destruct (threshold_monotone exact
              (sample_world (Ok []) (Ok [(doc_a, 1 # 5); (doc_b, 1 # 1)]) None None)
              "cats" 5 (1 # 2) (7 # 10) indexed_state
              [shaped exact (doc_a, 5 # 6)])
    as (ix & results & scored & chunks1 & _ & _ & _ & Hrun & _ & _ & Hsub & _).
  - unfold Qle. cbn. lia.
  - vm_compute. reflexivity.
  - exists chunks1. split; [exact Hrun|exact Hsub].
Defined.

(** ** Scores *)

Section Scores.

Lemma pow_pos_10 (k : positive) :
  0 < Z.pow_pos 10 k /\ Z.pos (Z.to_pos (Z.pow_pos 10 k)) = Z.pow_pos 10 k.
Proof.
  assert (H : 0 < Z.pow_pos 10 k).
  { change (0 < 10 ^ Z.pos k). apply Z.pow_pos_nonneg; lia. }
  split; [exact H|]. by apply Z2Pos.id.
Qed.

Lemma round_unit_interval (x : Q) (k : positive) :
  (0 <= x)%Q -> (x <= 1)%Q -> (0 <= round x k)%Q /\ (round x k <= 1)%Q.
Proof.
  intros H0 H1. unfold round, Qle in *. cbn in *.
  destruct (pow_pos_10 k) as [Hs Hid]. rewrite Hid.
  set (sc := Z.pow_pos 10 k) in *. set (n := Qnum x * sc).
  set (d := Z.pos (Qden x)) in *.
  assert (Hd : 0 < d) by (subst d; lia).
  pose proof (Z.div_mod n d ltac:(lia)) as Hdm.
  pose proof (Z.mod_pos_bound n d Hd) as Hr.
  assert (Hn0 : 0 <= n) by (subst n; nia).
  assert (Hn1 : n <= d * sc) by (subst n; nia).
  assert (Hq0 : 0 <= n / d) by (apply Z.div_pos; lia).
  assert (Hq1 : n / d <= sc) by nia.
  destruct (Z.ltb_spec (2 * (n mod d)) d); [lia|].
  assert (n / d < sc) by nia.
  destruct (Z.ltb_spec d (2 * (n mod d))); [lia|].
  destruct (Z.even (n / d)); lia.
Qed.


End Scores.

(** The laws of exact arithmetic the bounds on the scores rest on. *)
Lemma exact_add_one (d : Q) : (0 <= d)%Q -> (1 <= num_add exact 1 d)%Q.
Proof. cbn. lra. Qed.

Lemma exact_div_one (x q : Q) :
  (1 <= x)%Q -> num_div exact 1 x = Ok q -> (0 <= q)%Q /\ (q <= 1)%Q.
Proof.
  cbn. unfold py_div. intros Hx H.
  destruct (Qeq_bool x 0); [done|]. injection H as <-. split.
  - apply Qle_shift_div_l; lra.
  - apply Qle_shift_div_r; lra.
Qed.

Lemma exact_round_unit (q : Q) :
  (0 <= q)%Q -> (q <= 1)%Q ->
  (0 <= num_round exact q 4)%Q /\ (num_round exact q 4 <= 1)%Q.
Proof. apply round_unit_interval. Qed.

(** C5, as the code has it. Every result [c] returned by [search] comes
    from an engine result [(doc, distance)]; the similarity tested against
    the threshold is the quotient [1 / (1 + distance)] as the number type
    of the distances computes it, and the score attached to [c] is not
    that similarity but [round(similarity, 4)]. When the distance is not
    negative, as L2 distances are, and the number type rounds sums,
    quotients and [round] without leaving the bounds its exact results
    obey, as exact and IEEE arithmetic do, the similarity and the score
    lie in [0, 1]. *)
Theorem search_scores (fl : arithmetic) (w : world) (query : string)
    (max_results : Z) (threshold : Q) (s : state)
    (chunks : list DocumentChunk) (c : DocumentChunk) :
  (search_with fl w query max_results threshold s).1 = Ok chunks ->
  c ∈ chunks ->
  exists ix results doc distance similarity,
    vector_store s = Some ix /\
    similarity_search_with_score w ix query max_results = Ok results /\
    (doc, distance) ∈ results /\
    num_div fl 1 (num_add fl 1 distance) = Ok similarity /\
    (threshold <= similarity)%Q /\
    c = to_chunk_with fl doc similarity /\
    schemas.score c = Some (num_round fl similarity 4) /\
    ((forall d, (0 <= d)%Q -> (1 <= num_add fl 1 d)%Q) ->
     (forall x q, (1 <= x)%Q -> num_div fl 1 x = Ok q ->
                  (0 <= q)%Q /\ (q <= 1)%Q) ->
     (forall q, (0 <= q)%Q -> (q <= 1)%Q ->
                (0 <= num_round fl q 4)%Q /\ (num_round fl q 4 <= 1)%Q) ->
     (0 <= distance)%Q ->
     (0 <= similarity)%Q /\ (similarity <= 1)%Q /\
     (0 <= num_round fl similarity 4)%Q /\
     (num_round fl similarity 4 <= 1)%Q).
Proof.
  intros Hrun Hc.
  destruct (vector_store s) as [ix|] eqn:Hvs.
  2: { unfold search_with in Hrun. unfold_monad. cbn in Hrun.
       by rewrite Hvs in Hrun. }
  rewrite (search_with_loaded _ _ _ _ _ _ _ Hvs) in Hrun.
  destruct (similarity_search_with_score w ix query max_results)
    as [results|e] eqn:Hres; [|done].
  cbn [fst] in Hrun.
  rewrite filter_results_with_similarities in Hrun.
  destruct (similarities fl results) as [scored|e] eqn:Hsim; [|done].
  cbn [rbind app] in Hrun. injection Hrun as <-.
  apply list_elem_of_fmap in Hc as ([doc q] & -> & Hr).
  apply list_elem_of_filter in Hr as [Hpass Hin].
  destruct (similarities_elem fl results scored doc q Hsim Hin)
    as (distance & Hd & Hq).
  exists ix, results, doc, distance, q.
  split; [reflexivity|]. split; [exact Hres|]. split; [exact Hd|].
  split; [exact Hq|]. split.
  { apply Qle_bool_iff. apply Is_true_true in Hpass. exact Hpass. }
  split; [reflexivity|]. split; [reflexivity|].
  intros Hadd Hdiv Hround H0.
  destruct (Hdiv _ _ (Hadd _ H0) Hq) as [Hq0 Hq1].
  split; [exact Hq0|]. split; [exact Hq1|]. by apply Hround.
Qed.

Lemma search_scores_witness :
  exists doc distance similarity,
    num_div exact 1 (num_add exact 1 distance) = Ok similarity /\
    shaped exact (doc_a, 5 # 6) = to_chunk_with exact doc similarity /\
    (0 <= num_round exact similarity 4)%Q /\
    (num_round exact similarity 4 <= 1)%Q.
Proof.
  destruct (search_scores exact
              (sample_world (Ok []) (Ok [(doc_a, 1 # 5); (doc_b, 1 # 1)]) None None)
              "cats" 5 (7 # 10) indexed_state [shaped exact (doc_a, 5 # 6)]
              (shaped exact (doc_a, 5 # 6)))
    as (ix & results & doc & distance & similarity
        & _ & Hres & Hin & Hq & _ & Hc & _ & Hb).
  - vm_compute. reflexivity.
  - apply list_elem_of_singleton. reflexivity.
  - exists doc, distance, similarity. split; [exact Hq|]. split; [exact Hc|].
    injection Hres as <-.
    assert (H0 : (0 <= distance)%Q).
    { apply elem_of_cons in Hin as [Hin|Hin].
      - injection Hin as -> ->. unfold Qle; cbn; lia.
      - apply list_elem_of_singleton in Hin. injection Hin as -> ->.
        unfold Qle; cbn; lia. }
    destruct (Hb exact_add_one exact_div_one exact_round_unit H0)
      as (_ & _ & H1 & H2).
    split; [exact H1|exact H2].
Defined.

(** C5, as stated, fails: for the engine result at distance 1/5 the
    returned score is 0.8333, not 1/(1+1/5) = 5/6. *)
Lemma search_score_is_rounded :
  let w := sample_world (Ok []) (Ok [(doc_a, 1 # 5)]) None None in
  exists c,
    (search w "cats" 5 (7 # 10) indexed_state).1 = Ok [c] /\
    similarity_search_with_score w (sample_index [doc_a; doc_b]) "cats" 5
      = Ok [(doc_a, 1 # 5)] /\
    schemas.score c = Some (8333 # 10000) /\
    ~ (8333 # 10000 == 1 / (1 + (1 # 5)))%Q.
Proof.
  cbv zeta. eexists. split; [vm_compute; reflexivity|].
  split; [reflexivity|]. split; [reflexivity|].
  intros H. unfold Qeq in H. vm_compute in H. discriminate.
Qed.

(** C6, as the code has it. Without a loaded index [search] raises the
    not-ready error at once: the engine is not called and the state is
    untouched. With an index, whatever the engine or the filtering loop
    raises is re-raised as one error whose message is ["Search error: "]
    followed by the cause's. Both errors are [ValueError]s: they differ by
    their message, never by their type. *)
Theorem search_errors (w : world) (query : string) (max_results : Z)
    (threshold : Q) (s : state) :
  match vector_store s with
  | None => search w query max_results threshold s = (Raise not_ready, s)
  | Some ix =>
      forall e',
        (search w query max_results threshold s).1 = Raise e' ->
        exists e,
          e' = search_error e /\
          (similarity_search_with_score w ix query max_results = Raise e \/
           exists results,
             similarity_search_with_score w ix query max_results = Ok results /\
             filter_results threshold results [] = Raise e)
  end /\
  exn_type not_ready = "ValueError" /\
  exn_msg not_ready
    = "Vector store not available. Please process embeddings first." /\
  forall e,
    exn_type (search_error e) = exn_type not_ready /\
    exn_msg (search_error e) = "Search error: " +:+ exn_msg e /\
    exn_msg (search_error e) ≠ exn_msg not_ready.
Proof.
  split.
  - destruct (vector_store s) as [ix|] eqn:Hvs.
    + intros e' H. rewrite (search_loaded _ _ _ _ _ _ Hvs) in H. cbn [fst] in H.
      destruct (similarity_search_with_score w ix query max_results)
        as [results|e] eqn:Hres.
      * destruct (filter_results threshold results []) as [cs|e] eqn:Hf; [done|].
        injection H as <-. exists e. split; [done|]. right. eauto.
      * injection H as <-. exists e. split; [done|]. by left.
    + unfold search. unfold_monad. cbn. by rewrite Hvs.
  - split; [reflexivity|]. split; [reflexivity|].
    intros e. split; [reflexivity|]. split; [reflexivity|].
    cbn. discriminate.
Qed.

Lemma search_errors_witness :
  search (sample_world (Ok []) (Ok []) None None) "cats" 5 (7 # 10) empty_state
  = (Raise not_ready, empty_state).
Proof.
  pose proof (search_errors (sample_world (Ok []) (Ok []) None None)
                "cats" 5 (7 # 10) empty_state) as [H _].
  exact H.
Defined.

(** C6, as stated, fails: the not-ready error and the error wrapping an
    engine failure have the same type. *)
Lemma search_errors_share_type :
  let w := sample_world (Ok []) (Raise (Exn "Exception" "Search failed"))
             None None in
  exists e1 e2,
    (search w "cats" 5 (7 # 10) empty_state).1 = Raise e1 /\
    (search w "cats" 5 (7 # 10) indexed_state).1 = Raise e2 /\
    e1 = not_ready /\
    e2 = Exn "ValueError" "Search error: Search failed" /\
    ~ (exn_type e1 ≠ exn_type e2).
Proof.
  cbv zeta. eexists _, _.
  split; [vm_compute; reflexivity|]. split; [vm_compute; reflexivity|].
  split; [reflexivity|]. split; [reflexivity|].
  intros H. by apply H.
Qed.

(** ** The singleton *)

#[local] Arguments loads : simpl never.
#[local] Arguments _load_vector_store : simpl never.

Section SingletonProofs.

(** [_load_vector_store] never raises and is logged once. *)
Lemma _load_vector_store_run w s :
  exists s',
    _load_vector_store w s = (Ok tt, s') /\
    loads (trace s') = S (loads (trace s)).
Proof.
  assert (Hl : forall t ev, is_load_vector_store ev = false ->
                            loads (t ++ [ev]) = loads t).
  { intros t ev H. unfold loads. rewrite List.filter_app. cbn. rewrite H.
    by rewrite app_nil_r. }
  assert (Hl1 : forall t, loads (t ++ [EvLoadVectorStore]) = S (loads t)).
  { intros t. unfold loads. rewrite List.filter_app, length_app. cbn. lia. }
  unfold _load_vector_store, store_dir_exists, load_local, log,
    set_vector_store.
  unfold_monad. destruct s as [v h [d|] t]; cbn.
  all: repeat (case_inner; cbn);
    eexists; (split; [reflexivity|]); cbn; rewrite ?Hl by done; apply Hl1.
Qed.

Ltac singleton_step :=
  first
    [ rewrite lookup_insert_eq
    | match goal with
      | |- context [_load_vector_store ?w ?st] =>
          let s' := fresh "s'" in
          let H := fresh "Hload" in
          destruct (_load_vector_store_run w st) as (s' & -> & H)
      end
    | case_inner ];
  cbn in *.

Ltac rewrite_known :=
  repeat match goal with
         | H : ?x = _ |- context [?x] => rewrite H
         end.

Lemma run_call_no_reset c p :
  is_reset c = false ->
  exists o p',
    run_call c p = (o, p') /\
    (forall a, cls_instance p = Some a -> cls_instance p' = Some a) /\
    (forall a, o = Some a -> cls_instance p' = Some a) /\
    (loads (events p') + budget p' <= loads (events p) + budget p)%nat.
Proof.
  destruct c as [w|w|]; [| |discriminate]; intros _.
  all: unfold run_call, get_instance, EmbeddingService, __new__, __init__,
         allocate, on_instance, get_initialized, set_initialized,
         set_cls_instance, set_object, set_vector_store;
       unfold_monad; cbn.
  all: repeat singleton_step.
  all: eexists _, _; (split; [reflexivity|]);
       unfold budget, initialized_instance; cbn;
       rewrite ?lookup_insert_eq; cbn; rewrite_known; cbn;
       rewrite ?lookup_insert_eq; cbn; simplify_eq.
  all: (split; [intros; congruence|]); (split; [intros; congruence|]).
  all: repeat (case_inner; cbn in * ); first [lia | congruence].
Qed.

Lemma run_calls_no_reset calls p :
  forallb (fun c => negb (is_reset c)) calls = true ->
  exists outs p',
    run_calls calls p = (outs, p') /\
    (forall a, cls_instance p = Some a -> cls_instance p' = Some a) /\
    (forall a, a ∈ outs -> cls_instance p' = Some a) /\
    (loads (events p') + budget p' <= loads (events p) + budget p)%nat.
Proof.
  revert p. induction calls as [|c calls IH]; intros p H.
  - exists [], p. split; [done|]. split; [done|]. split; [|lia].
    intros a Ha. by apply elem_of_nil in Ha.
  - cbn in H. apply andb_prop in H as [Hc H].
    apply negb_true_iff in Hc.
    destruct (run_call_no_reset c p Hc) as (o & p1 & Hrun & Hkeep & Hout & Hb).
    destruct (IH p1 H) as (outs & p' & Hruns & Hkeep' & Houts & Hb').
    cbn [run_calls]. rewrite Hrun, Hruns.
    eexists _, p'. split; [reflexivity|].
    split; [by auto|]. split; [|lia].
    intros a Ha. destruct o as [a0|]; [|by auto].
    apply elem_of_cons in Ha as [->|Ha]; by auto.
Qed.

End SingletonProofs.

(** C10. Singleton. Between two resets, that is for every sequence of
    constructions [EmbeddingService()] and calls of [get_instance] run from
    any state of the process: all the calls that return give back the same
    object, which is the one the class holds (and held before, if it held
    one); [_load_vector_store] runs at most once over the whole sequence,
    and not at all if the instance held was already initialised; so every
    caller reads the [vector_store] of one and the same object. *)
Theorem singleton_until_reset (calls : list call) (p : process) :
  forallb (fun c => negb (is_reset c)) calls = true ->
  exists outs p',
    run_calls calls p = (outs, p') /\
    (forall a b, a ∈ outs -> b ∈ outs -> a = b) /\
    (forall a, a ∈ outs -> cls_instance p' = Some a) /\
    (forall a b, cls_instance p = Some a -> b ∈ outs -> b = a) /\
    (loads (events p') <= loads (events p) + 1)%nat /\
    (initialized_instance p = true ->
     (loads (events p') <= loads (events p))%nat) /\
    (forall a b, a ∈ outs -> b ∈ outs ->
                 vector_store_of p' a = vector_store_of p' b).
Proof.
  intros H.
  destruct (run_calls_no_reset calls p H) as (outs & p' & Hrun & Hkeep & Hout & Hb).
  assert (Heq : forall a b, a ∈ outs -> b ∈ outs -> a = b).
  { intros a b Ha Hb'. apply Hout in Ha, Hb'. congruence. }
  exists outs, p'. split; [exact Hrun|]. split; [exact Heq|].
  split; [exact Hout|]. split.
  { intros a b Ha Hb'. apply Hkeep in Ha. apply Hout in Hb'. congruence. }
  split.
  { unfold budget in Hb. destruct (initialized_instance p'), (initialized_instance p); lia. }
  split.
  { intros Hi. unfold budget in Hb. rewrite Hi in Hb. lia. }
  intros a b Ha Hb'. by rewrite (Heq a b Ha Hb').
Qed.

Lemma singleton_until_reset_witness :
  let w := sample_world (Ok []) (Ok []) None None in
  exists p',
    run_calls [Construct w; Construct w; GetInstance w]
      (fresh_process None None) = ([0; 0; 0]%nat, p') /\
    (loads (events p') <= 1)%nat.
Proof.
  cbv zeta.
  destruct (singleton_until_reset
              [Construct (sample_world (Ok []) (Ok []) None None);
               Construct (sample_world (Ok []) (Ok []) None None);
               GetInstance (sample_world (Ok []) (Ok []) None None)]
              (fresh_process None None))
    as (outs & p' & Hrun & _ & _ & _ & Hl & _).
  - reflexivity.
  - exists p'. split; [|exact Hl].
    rewrite Hrun. f_equal.
    assert (Ho : (run_calls
                    [Construct (sample_world (Ok []) (Ok []) None None);
                     Construct (sample_world (Ok []) (Ok []) None None);
                     GetInstance (sample_world (Ok []) (Ok []) None None)]
                    (fresh_process None None)).1 = [0; 0; 0]%nat)
      by (vm_compute; reflexivity).
    by rewrite Hrun in Ho.
Defined.

(** After [reset_instance] the next construction makes a new object and
    initialises it again. *)
Lemma reset_instance_gives_new_object :
  let w := sample_world (Ok []) (Ok []) None None in
  let run := run_calls [Construct w; ResetInstance; Construct w]
               (fresh_process None None) in
  run.1 = [0; 1]%nat /\ loads (events run.2) = 2%nat.
Proof. vm_compute. split; reflexivity. Qed.

(** A failed construction leaves an instance that [get_instance] hands out
    uninitialised; the next construction initialises that same object. *)
Lemma failed_construction_is_retried :
  let w_ok := sample_world (Ok []) (Ok []) None None in
  let w_bad := {| sha256 := sha256 w_ok; loader_load := loader_load w_ok;
                  splitter_error := None;
                  split_documents := split_documents w_ok;
                  embeddings_error := Some (Exn "OpenAIError" "no api key");
                  from_documents := from_documents w_ok;
                  merge_from := merge_from w_ok;
                  similarity_search_with_score :=
                    similarity_search_with_score w_ok;
                  saved_size := saved_size w_ok;
                  fromtimestamp_isoformat := fromtimestamp_isoformat w_ok;
                  now := now w_ok;
                  hash_exists_error := None; hash_read_error := None;
                  hash_stat_error := None; hash_mkdir_error := None;
                  hash_write_error := None; store_exists_error := None;
                  store_rglob_error := None; store_mkdir_error := None;
                  save_local_error := None; load_local_error := None |} in
  let run := run_calls [Construct w_bad; GetInstance w_ok; Construct w_ok]
               (fresh_process None None) in
  run.1 = [0; 0]%nat /\ loads (events run.2) = 1%nat.
Proof. vm_compute. split; reflexivity. Qed.

(** * Further properties *)

(** ** Ordering and extreme thresholds of [search] *)

Section Ordering.

(** [round] picks the nearest multiple, and the even one on a tie. *)
Lemma round_nearest_even (x : Q) (k : positive) :
  exists z,
    round x k = z # Z.to_pos (Z.pow_pos 10 k) /\
    - Z.pos (Qden x) <= 2 * (z * Z.pos (Qden x) - Qnum x * Z.pow_pos 10 k)
      <= Z.pos (Qden x) /\
    (Z.abs (2 * (z * Z.pos (Qden x) - Qnum x * Z.pow_pos 10 k))
       = Z.pos (Qden x) -> Z.even z = true).
Proof.
  unfold round.
  set (sc := Z.pow_pos 10 k). set (n := Qnum x * sc). set (d := Z.pos (Qden x)).
  assert (Hd : 0 < d) by (subst d; lia).
  pose proof (Z.div_mod n d ltac:(lia)) as Hdm.
  pose proof (Z.mod_pos_bound n d Hd) as Hr.
  eexists. split; [reflexivity|].
  destruct (Z.ltb_spec (2 * (n mod d)) d); [split; lia|].
  destruct (Z.ltb_spec d (2 * (n mod d))); [split; lia|].
  destruct (Z.even (n / d)) eqn:E; [split; [lia|done]|].
  split; [lia|]. intros _.
  rewrite Z.even_add, E. reflexivity.
Qed.

Lemma round_monotone (x y : Q) (k : positive) :
  (x <= y)%Q -> (round x k <= round y k)%Q.
Proof.
  intros Hxy.
  destruct (round_nearest_even x k) as (z1 & -> & Hb1 & He1).
  destruct (round_nearest_even y k) as (z2 & -> & Hb2 & He2).
  destruct (pow_pos_10 k) as [Hs Hid].
  unfold Qle in *. cbn. rewrite Hid.
  destruct x as [a b], y as [c d]. cbn [Qnum Qden] in *.
  set (sc := Z.pow_pos 10 k) in *.
  assert (Hle : z1 <= z2); [|nia].
  destruct (Z_le_gt_dec z1 z2) as [|Hgt]; [done|exfalso].
  assert (H1 : 2 * (Z.pos b * Z.pos d) * (z1 - z2)
               <= 2 * sc * (a * Z.pos d - c * Z.pos b)
                  + 2 * (Z.pos b * Z.pos d)) by nia.
  assert (H2 : sc * (a * Z.pos d - c * Z.pos b) <= 0) by nia.
  assert (Hz : z1 = z2 + 1) by nia.
  assert (H3 : sc * (a * Z.pos d - c * Z.pos b) = 0) by nia.
  assert (T1 : 2 * (z1 * Z.pos b - a * sc) = Z.pos b) by nia.
  assert (T2 : 2 * (z2 * Z.pos d - c * sc) = - Z.pos d) by nia.
  assert (E1 : Z.even z1 = true) by (apply He1; lia).
  assert (E2 : Z.even z2 = true) by (apply He2; lia).
  apply Z.even_spec in E1 as [k1 E1], E2 as [k2 E2]. lia.
Qed.

Lemma similarity_antitone (d1 d2 : Q) :
  (0 <= d1)%Q -> (d1 <= d2)%Q -> (similarity d2 <= similarity d1)%Q.
Proof.
  intros H0 H. unfold similarity.
  apply Qle_shift_div_l; [lra|].
  assert (E : (1 / (1 + d2) * (1 + d1) == (1 + d1) / (1 + d2))%Q).
  { field. lra. }
  rewrite E. apply Qle_shift_div_r; lra.
Qed.

End Ordering.

Section SearchEdges.

Lemma nonnegative_divisible (results : list (document * Q)) :
  Forall (fun r => (0 <= r.2)%Q) results -> divisible results = true.
Proof.
  intros H. unfold divisible. apply forallb_forall. intros r Hr.
  apply list_elem_of_In in Hr. rewrite Forall_forall in H.
  specialize (H r Hr). apply negb_true_iff.
  destruct (Qeq_bool (1 + r.2) 0) eqn:E; [|done].
  apply Qeq_bool_iff in E. lra.
Qed.

Lemma chunk_score_shape (r : document * Q) :
  chunk_score (shape r) = round (similarity r.2) 4.
Proof. reflexivity. Qed.

Lemma shape_filter_sorted threshold (results : list (document * Q)) :
  StronglySorted (fun r1 r2 => (r1.2 <= r2.2)%Q) results ->
  Forall (fun r => (0 <= r.2)%Q) results ->
  StronglySorted (fun c1 c2 => (chunk_score c2 <= chunk_score c1)%Q)
    (shape <$> filter (fun r => passes threshold r) results).
Proof.
  intros Hs Hn. induction Hs as [|r results Hs IH Hr]; [constructor|].
  apply Forall_cons in Hn as [Hr0 Hn].
  rewrite filter_cons. destruct (decide (passes threshold r)); [|by apply IH].
  cbn [fmap list_fmap]. constructor; [by apply IH|].
  apply Forall_fmap, Forall_forall. intros r' Hr'.
  apply list_elem_of_filter in Hr' as [_ Hr'].
  rewrite Forall_forall in Hr.
  specialize (Hr r' Hr').
  change (round (similarity r'.2) 4 <= round (similarity r.2) 4)%Q.
  apply round_monotone.
  by apply similarity_antitone.
Qed.

End SearchEdges.

(** X1. Ordering. When the engine answers with distances that are not
    negative and in ascending order, the chunks [search] returns carry
    scores in non-increasing order. *)
Theorem search_ordered (w : world) (query : string) (max_results : Z)
    (threshold : Q) (s : state) (ix : index)
    (results : list (document * Q)) (chunks : list DocumentChunk) :
  vector_store s = Some ix ->
  similarity_search_with_score w ix query max_results = Ok results ->
  StronglySorted (fun r1 r2 => (r1.2 <= r2.2)%Q) results ->
  Forall (fun r => (0 <= r.2)%Q) results ->
  (search w query max_results threshold s).1 = Ok chunks ->
  StronglySorted (fun c1 c2 => (chunk_score c2 <= chunk_score c1)%Q) chunks.
Proof.
  intros Hvs Hres Hs Hn Hrun.
  rewrite (search_loaded _ _ _ _ _ _ Hvs), Hres in Hrun. cbn [fst] in Hrun.
  rewrite filter_results_ok in Hrun by by apply nonnegative_divisible.
  cbn [app] in Hrun. injection Hrun as <-.
  by apply shape_filter_sorted.
Qed.

Lemma search_ordered_witness :
  StronglySorted (fun c1 c2 => (chunk_score c2 <= chunk_score c1)%Q)
    [shape (doc_a, 1 # 5); shape (doc_b, 1 # 1)].
Proof.
  apply (search_ordered
           (sample_world (Ok []) (Ok [(doc_a, 1 # 5); (doc_b, 1 # 1)]) None None)
           "cats" 5 (1 # 2) indexed_state (sample_index [doc_a; doc_b])
           [(doc_a, 1 # 5); (doc_b, 1 # 1)]).
  - reflexivity.
  - reflexivity.
  - repeat constructor; unfold Qle; cbn; lia.
  - repeat constructor; unfold Qle; cbn; lia.
  - vm_compute. reflexivity.
Defined.



(** ** Edges of the ingest pipeline *)

Section IngestEdges.

Variable w : world.

Lemma classify_loop_current_hashes prev documents acc cs :
  classify_loop w prev documents acc = Ok cs ->
  cs.2 = foldl (record_hash w) acc.2 documents.
Proof.
  revert acc. induction documents as [|d documents IH]; intros acc H.
  - cbn in H. by injection H as <-.
  - cbn [classify_loop] in H. destruct acc as [[n k] c].
    unfold classify_step in H. cbn [foldl snd]. unfold record_hash at 2.
    destruct (md_key (metadata d)) as [key|]; [|done].
    destruct (py_get prev key) as [stored|]; [|done]. cbn [rbind] in H.
    destruct (decide (stored ≠ Some (_sha256 w (page_content d))));
      cbn [rbind] in H; by rewrite (IH _ H).
Qed.

Lemma classify_current_hashes force_update documents s new_docs kept_docs cur :
  (classify w force_update documents s).1 = Ok (new_docs, kept_docs, cur) ->
  cur = foldl (record_hash w) ∅ documents.
Proof.
  unfold classify, bind, lift. intros H.
  destruct ((if force_update then ret (JDict ∅) else _load_previous_hashes w) s)
    as [[prev|e] s1]; [|done].
  cbn in H. by apply classify_loop_current_hashes in H.
Qed.

Lemma classify_loop_missing_key pm docs1 d docs2 acc :
  Forall has_key docs1 ->
  md_key (metadata d) = None ->
  classify_loop w (JDict pm) (docs1 ++ d :: docs2) acc
  = Raise (Exn "KeyError" "'key'").
Proof.
  intros Hk Hd. revert acc.
  induction Hk as [|d1 docs1 [k Hd1] _ IH]; intros [[n kp] c].
  - cbn. by rewrite Hd.
  - cbn [app classify_loop classify_step]. rewrite Hd1. cbn [py_get rbind].
    destruct (decide (pm !! k ≠ Some (_sha256 w (page_content d1))));
      cbn [rbind]; apply IH.
Qed.

(** What [get_stats] reports when the hash file holds a map and nothing
    fails but, possibly, the walk over the store directory. *)
Lemma stats_in_readable s m t iso :
  hash_exists_error w = None ->
  hash_read_error w = None ->
  hash_stat_error w = None ->
  store_exists_error w = None ->
  hash_file s = Some {| hf_content := Parsable (JDict m); hf_mtime := t |} ->
  fromtimestamp_isoformat w t = Ok iso ->
  stats_in w s
  = {| schemas.total_documents := Z.of_nat (size m);
       schemas.total_chunks :=
         match vector_store s with
         | Some ix => default 0 (ntotal ix)
         | None => 0
         end;
       schemas.last_update := Some iso;
       schemas.vector_store_size :=
         match store_dir s, store_rglob_error w with
         | Some d, None => Some (st_bytes d)
         | _, _ => None
         end |}.
Proof.
  intros H1 H2 H3 H4 H5 H6.
  unfold stats_in, get_stats_body, _load_previous_hashes, hash_file_exists,
    hash_file_read_json, hash_file_mtime, store_dir_exists, store_dir_size.
  rewrite H1, H2, H3, H4. unfold_monad.
  destruct s as [v h d tr]. cbn in H5. subst h. cbn. rewrite H6. cbn.
  destruct v as [[? [?|]]|], d as [?|], (store_rglob_error w); reflexivity.
Qed.

(** A successful run that was not short-circuited: what it leaves. *)
Lemma process_embeddings_persisted force_update s r s' :
  process_embeddings w force_update s = (Ok r, s') ->
  success r = true ->
  message r ≠ up_to_date_message ->
  exists documents new_docs kept_docs chunks ix,
    loader_load w = Ok documents /\
    (classify w force_update documents s).1
      = Ok (new_docs, kept_docs, foldl (record_hash w) ∅ documents) /\
    message r = success_message new_docs chunks /\
    stats r = stats_in w s' /\
    vector_store s' = Some ix /\
    store_dir s' = Some {| st_index := Some ix; st_bytes := saved_size w ix |} /\
    hash_file s'
      = Some {| hf_content :=
                  Parsable (JDict (foldl (record_hash w) ∅ documents));
                hf_mtime := now w |}.
Proof.
  revert r s'.
  unfold process_embeddings, process_body, update_vector_store,
    save_vector_store, _save_hashes;
  unfold load_documents, RecursiveCharacterTextSplitter,
    text_splitter_split_documents, FAISS_from_documents,
    vector_store_merge_from, store_dir_mkdir, save_local, hash_file_write;
  unfold set_vector_store, set_hash_file, set_store_dir, log;
  unfold_monad; cbn.
  destruct (loader_load w) as [documents|e] eqn:Hload; cbn.
  2: { rewrite (get_stats_run w). cbn. by intros r s' [= <- <-]. }
  destruct (is_empty documents); cbn.
  { rewrite (get_stats_run w). cbn. by intros r s' [= <- <-]. }
  match goal with
  | |- context [classify w ?f ?d ?s1] =>
      destruct (classify_reads w f d s1) as [cs Hcs]; rewrite Hcs;
      pose proof (f_equal fst Hcs) as Hcs1; cbn [fst] in Hcs1;
      rewrite (classify_frame w f d s1 s eq_refl) in Hcs1
  end.
  destruct cs as [[[new_docs kept_docs] cur]|e]; cbn.
  2: { rewrite (get_stats_run w). cbn. by intros r s' [= <- <-]. }
  pose proof (classify_current_hashes _ _ _ _ _ _ Hcs1) as ->.
  repeat (first [rewrite (get_stats_run w) | case_inner]; cbn);
    intros r s' [= <- <-]; cbn; intros Hs Hm; try done;
    eexists _, _, _, _, _; repeat split; try reflexivity; eassumption.
Qed.

End IngestEdges.

(** X4. No documents. When the loader returns an empty list,
    [process_embeddings] reports [success = false] with "No documents found
    to process", also under [force_update]; the hash file is not consulted
    for classification, and the index and the disk stay as they were. *)
Theorem process_embeddings_no_documents (w : world) (force_update : bool)
    (s : state) :
  loader_load w = Ok [] ->
  exists r s',
    process_embeddings w force_update s = (Ok r, s') /\
    success r = false /\
    message r = "No documents found to process" /\
    trace s' = trace s ++ [EvLoaderLoad] /\
    vector_store s' = vector_store s /\
    hash_file s' = hash_file s /\
    store_dir s' = store_dir s.
Proof.
  intros Hload.
  unfold process_embeddings, process_body, load_documents, log.
  unfold_monad. cbn. rewrite Hload. cbn. rewrite (get_stats_run w). cbn.
  eexists _, _. split; [reflexivity|]. repeat split; reflexivity.
Qed.

Lemma process_embeddings_no_documents_witness :
  exists r s',
    process_embeddings (sample_world (Ok []) (Ok []) None None) true
      indexed_state = (Ok r, s') /\
    success r = false /\
    vector_store s' = vector_store indexed_state.
Proof.
  destruct (process_embeddings_no_documents
              (sample_world (Ok []) (Ok []) None None) true indexed_state
              eq_refl)
    as (r & s' & Hrun & Hs & _ & _ & Hv & _).
  exists r, s'. repeat split; assumption.
Defined.

(** X5. A document without a key. If one fetched document has no ["key"]
    in its metadata, the run fails with the message "Error processing
    embeddings: 'key'", wherever the document stands in the list: nothing
    is split, embedded or written, although the documents before it were
    classified. *)
Theorem process_embeddings_missing_key (w : world) (force_update : bool)
    (docs1 docs2 : list document) (d : document)
    (pm : gmap string string) (s : state) :
  loader_load w = Ok (docs1 ++ d :: docs2) ->
  Forall has_key docs1 ->
  md_key (metadata d) = None ->
  (force_update = false -> _load_previous_hashes w s = (Ok (JDict pm), s)) ->
  exists r s',
    process_embeddings w force_update s = (Ok r, s') /\
    success r = false /\
    message r = "Error processing embeddings: 'key'" /\
    trace s' = trace s ++ [EvLoaderLoad] /\
    vector_store s' = vector_store s /\
    hash_file s' = hash_file s /\
    store_dir s' = store_dir s.
Proof.
  intros Hload Hk Hd Hprev.
  assert (Hcs : (classify w force_update (docs1 ++ d :: docs2) s).1
                = Raise (Exn "KeyError" "'key'")).
  { unfold classify, bind, lift. destruct force_update.
    - cbn. by apply classify_loop_missing_key.
    - rewrite Hprev by done. by apply classify_loop_missing_key. }
  unfold process_embeddings, process_body, load_documents, log.
  unfold_monad. cbn. rewrite Hload. cbn.
  assert (He : is_empty (docs1 ++ d :: docs2) = false) by by destruct docs1.
  rewrite He.
  match goal with
  | |- context [classify w ?f ?docs ?s1] =>
      destruct (classify_reads w f docs s1) as [cs Hcs1];
      rewrite Hcs1; apply (f_equal fst) in Hcs1; cbn [fst] in Hcs1;
      rewrite (classify_frame w f docs s1 s eq_refl), Hcs in Hcs1; subst cs
  end.
  cbn. rewrite (get_stats_run w). cbn.
  eexists _, _. split; [reflexivity|]. repeat split; reflexivity.
Qed.

Lemma process_embeddings_missing_key_witness :
  exists r s',
    process_embeddings
      (sample_world
         (Ok [doc_a;
              {| page_content := "z";
                 metadata := {| md_key := None; md_source := None;
                                md_size := None; md_last_modified := None |} |}])
         (Ok []) None None) false indexed_state = (Ok r, s') /\
    success r = false /\
    message r = "Error processing embeddings: 'key'".
Proof.
  destruct (process_embeddings_missing_key
              (sample_world
                 (Ok [doc_a;
                      {| page_content := "z";
                         metadata := {| md_key := None; md_source := None;
                                        md_size := None;
                                        md_last_modified := None |} |}])
                 (Ok []) None None) false [doc_a] []
              {| page_content := "z";
                 metadata := {| md_key := None; md_source := None;
                                md_size := None; md_last_modified := None |} |}
              (<["A" := "sha256:x"]> (<["B" := "sha256:y"]> ∅)) indexed_state)
    as (r & s' & Hrun & Hs & Hm & _).
  - reflexivity.
  - repeat constructor. by eexists.
  - reflexivity.
  - intros _. vm_compute. reflexivity.
  - exists r, s'. repeat split; assumption.
Defined.

(** X6. An unreadable fingerprint map counts as none. When the hash file
    is absent, cannot be read, or does not parse, a run without
    [force_update] classifies every fetched document as to process, as a
    first run does. *)
Theorem unreadable_hashes_reprocess_all (w : world)
    (documents : list document) (s : state) :
  Forall has_key documents ->
  hash_exists_error w = None ->
  hash_file s = None \/ is_Some (hash_read_error w) \/
    (exists f, hash_file s = Some f /\ hf_content f = Unparsable) ->
  classify w false documents s
  = (Ok (documents, [], foldl (record_hash w) ∅ documents), s).
Proof.
  intros Hk He Hcase.
  assert (Hprev : _load_previous_hashes w s = (Ok (JDict ∅), s)).
  { destruct Hcase as [Hn|[[e Hr]|(f & Hf & Hc)]].
    - by apply _load_previous_hashes_absent.
    - unfold _load_previous_hashes, hash_file_exists, hash_file_read_json.
      rewrite He, Hr. unfold_monad. cbn.
      by destruct (bool_decide (is_Some (hash_file s))).
    - by eapply _load_previous_hashes_corrupted. }
  unfold classify, bind, lift. rewrite Hprev.
  rewrite classify_loop_dict by done. cbn.
  by destruct (filter_to_process_empty w documents) as [-> ->].
Qed.

Lemma unreadable_hashes_reprocess_all_witness :
  classify (sample_world (Ok []) (Ok []) None None) false [doc_a; doc_b]
    {| vector_store := None;
       hash_file := Some {| hf_content := Unparsable; hf_mtime := 0 |};
       store_dir := None; trace := [] |}
  = (Ok ([doc_a; doc_b], [],
         foldl (record_hash (sample_world (Ok []) (Ok []) None None)) ∅
           [doc_a; doc_b]),
     {| vector_store := None;
        hash_file := Some {| hf_content := Unparsable; hf_mtime := 0 |};
        store_dir := None; trace := [] |}).
Proof.
  apply (unreadable_hashes_reprocess_all
           (sample_world (Ok []) (Ok []) None None) [doc_a; doc_b]).
  - repeat constructor; by eexists.
  - reflexivity.
  - right. right. eexists. split; reflexivity.
Defined.

(** X7. Statistics after a successful run. When a run that was not
    short-circuited succeeds and the hash file can be read back, the
    statistics it returns count the distinct keys of the fetched documents,
    take the chunk count from the index now in memory, date the last
    update at the write of the map, and give the size of the saved index
    (no size if walking the store directory fails). *)
Theorem stats_after_success (w : world) (force_update : bool) (s s' : state)
    (r : ProcessResult) (documents : list document) (iso : string) :
  process_embeddings w force_update s = (Ok r, s') ->
  success r = true ->
  message r ≠ up_to_date_message ->
  loader_load w = Ok documents ->
  hash_exists_error w = None ->
  hash_read_error w = None ->
  hash_stat_error w = None ->
  store_exists_error w = None ->
  fromtimestamp_isoformat w (now w) = Ok iso ->
  exists ix,
    vector_store s' = Some ix /\
    stats r
    = {| schemas.total_documents :=
           Z.of_nat (size (foldl (record_hash w) ∅ documents));
         schemas.total_chunks := default 0 (ntotal ix);
         schemas.last_update := Some iso;
         schemas.vector_store_size :=
           match store_rglob_error w with
           | None => Some (saved_size w ix)
           | Some _ => None
           end |}.
Proof.
  intros Hrun Hs Hm Hload H1 H2 H3 H4 Hiso.
  destruct (process_embeddings_persisted w _ _ _ _ Hrun Hs Hm)
    as (docs & n & k & c & ix & Hl & _ & _ & Hst & Hv & Hd & Hh).
  rewrite Hload in Hl. injection Hl as <-.
  exists ix. split; [exact Hv|].
  rewrite Hst, (stats_in_readable w s' _ _ iso H1 H2 H3 H4 Hh Hiso).
  by rewrite Hv, Hd.
Qed.

Lemma stats_after_success_witness :
  exists r s',
    process_embeddings (sample_world (Ok [doc_a; doc_b]) (Ok []) None None)
      false empty_state = (Ok r, s') /\
    schemas.total_documents (stats r) = 2 /\
    schemas.total_chunks (stats r) = 2.
Proof.
  destruct (process_embeddings
              (sample_world (Ok [doc_a; doc_b]) (Ok []) None None)
              false empty_state) as [[r|e] s'] eqn:Hrun;
    [|vm_compute in Hrun; discriminate].
  destruct (stats_after_success
              (sample_world (Ok [doc_a; doc_b]) (Ok []) None None)
              false empty_state s' r [doc_a; doc_b] "2024-01-01T00:00:00" Hrun)
    as (ix & Hv & Hst); try reflexivity.
  - vm_compute in Hrun. by injection Hrun as <- _.
  - vm_compute in Hrun. injection Hrun as <- _. cbn. discriminate.
  - exists r, s'. split; [reflexivity|].
    rewrite Hst. vm_compute in Hrun. injection Hrun as _ <-.
    injection Hv as <-. split; vm_compute; reflexivity.
Defined.

(** ** The instance across restarts, resets and failed constructions *)

Section Lifecycle.

Lemma _load_vector_store_loads w s ix d :
  store_exists_error w = None ->
  load_local_error w = None ->
  store_dir s = Some d ->
  st_index d = Some ix ->
  exists s',
    _load_vector_store w s = (Ok tt, s') /\
    vector_store s' = Some ix /\
    hash_file s' = hash_file s /\
    store_dir s' = store_dir s.
Proof.
  intros H1 H2 H3 H4.
  unfold _load_vector_store, store_dir_exists, load_local, log,
    set_vector_store.
  rewrite H1, H2. unfold_monad.
  destruct s as [v h sd t]. cbn in H3. subst sd.
  destruct d as [i b]. cbn in H4. subst i. cbn.
  eexists. split; [reflexivity|]. repeat split; reflexivity.
Qed.

Lemma wf_fresh_process h d : wf_process (fresh_process h d).
Proof.
  split.
  - intros a [o Ho]. cbn in Ho. by rewrite lookup_empty in Ho.
  - intros a Ha. discriminate.
Qed.

End Lifecycle.

(** X9. The index survives a restart. After a successful run that was not
    short-circuited, a new process that finds the same disk and constructs
    the service (with a readable store directory) holds, once constructed,
    the very index the run left in memory. *)
Theorem index_survives_restart (w w2 : world) (force_update : bool)
    (s s' : state) (r : ProcessResult) :
  process_embeddings w force_update s = (Ok r, s') ->
  success r = true ->
  message r ≠ up_to_date_message ->
  embeddings_error w2 = None ->
  store_exists_error w2 = None ->
  load_local_error w2 = None ->
  exists a p' ix,
    EmbeddingService w2 (fresh_process (hash_file s') (store_dir s'))
      = (Ok a, p') /\
    vector_store s' = Some ix /\
    vector_store_of p' a = Some ix /\
    (is_initialized a p').1 = Ok true /\
    disk_hash_file p' = hash_file s' /\
    disk_store_dir p' = store_dir s'.
Proof.
  intros Hrun Hs Hm He Hx Hl.
  destruct (process_embeddings_persisted w _ _ _ _ Hrun Hs Hm)
    as (docs & n & k & c & ix & _ & _ & _ & _ & Hv & Hd & _).
  unfold EmbeddingService, __new__, __init__, allocate, on_instance,
    get_initialized, set_initialized, set_cls_instance, set_object,
    is_initialized, get_initialized, vector_store_of.
  rewrite He. unfold_monad. cbn.
  repeat (rewrite lookup_insert_eq; cbn).
  match goal with
  | |- context [_load_vector_store w2 ?st] =>
      destruct (_load_vector_store_loads w2 st ix _ Hx Hl Hd eq_refl)
        as (s2 & -> & Hv2 & Hh2 & Hd2)
  end.
  cbn. repeat (rewrite lookup_insert_eq; cbn).
  eexists _, _, ix. split; [reflexivity|]. cbn.
  repeat (rewrite lookup_insert_eq; cbn).
  repeat split; done.
Qed.

Lemma index_survives_restart_witness :
  let w := sample_world (Ok [doc_a; doc_b]) (Ok []) None None in
  let s' := (process_embeddings w false empty_state).2 in
  exists a p',
    EmbeddingService w (fresh_process (hash_file s') (store_dir s')) = (Ok a, p') /\
    vector_store_of p' a = Some (sample_index [doc_a; doc_b]).
Proof.
  cbv zeta.
  destruct (process_embeddings
              (sample_world (Ok [doc_a; doc_b]) (Ok []) None None)
              false empty_state) as [[r|e] s'] eqn:Hrun;
    [|vm_compute in Hrun; discriminate].
  destruct (index_survives_restart
              (sample_world (Ok [doc_a; doc_b]) (Ok []) None None)
              (sample_world (Ok [doc_a; doc_b]) (Ok []) None None)
              false empty_state s' r Hrun)
    as (a & p' & ix & Hc & Hv & Hvo & _); try reflexivity.
  - vm_compute in Hrun. by injection Hrun as <- _.
  - vm_compute in Hrun. injection Hrun as <- _. cbn. discriminate.
  - exists a, p'. cbn [snd]. split; [exact Hc|].
    rewrite Hvo, <- Hv. vm_compute in Hrun. by injection Hrun as _ <-.
Defined.

(** X10. What a reset does not undo. After [reset_instance], the next
    successful construction returns a new object, initialised and held by
    the class; an object handed out before the reset is a different one and
    keeps its attributes, so references taken before and after the reset
    no longer share state. *)
Theorem reset_keeps_old_instance (w : world) (p p2 : process) (a b : nat)
    (o : instance) :
  wf_process p ->
  objects p !! a = Some o ->
  EmbeddingService w (reset_instance p).2 = (Ok b, p2) ->
  b ≠ a /\
  objects p2 !! a = Some o /\
  cls_instance p2 = Some b /\
  (is_initialized b p2).1 = Ok true /\
  (loads (events p2) = S (loads (events p)))%nat.
Proof.
  intros [Hwf _] Ho.
  assert (Hne : next_addr p ≠ a).
  { specialize (Hwf a (ex_intro _ o Ho)). lia. }
  unfold EmbeddingService, __new__, __init__, allocate, on_instance,
    get_initialized, set_initialized, set_cls_instance, set_object,
    is_initialized, get_initialized, reset_instance, set_cls_initialized.
  unfold_monad. cbn. repeat (rewrite lookup_insert_eq; cbn).
  destruct (embeddings_error w); cbn; [discriminate|].
  repeat (rewrite lookup_insert_eq; cbn).
  match goal with
  | |- context [_load_vector_store w ?st] =>
      destruct (_load_vector_store_run w st) as (s2 & -> & Hl)
  end.
  cbn in *. repeat (rewrite lookup_insert_eq; cbn).
  intros [= <- <-]. cbn. repeat (rewrite lookup_insert_eq; cbn).
  split; [done|]. split.
  { by rewrite !lookup_insert_ne by done. }
  split; [done|]. split; [done|]. exact Hl.
Qed.

Lemma reset_keeps_old_instance_witness :
  let w := sample_world (Ok []) (Ok []) None None in
  let p := (run_calls [Construct w] (fresh_process None None)).2 in
  exists b p2,
    EmbeddingService w (reset_instance p).2 = (Ok b, p2) /\ b ≠ 0%nat.
Proof.
  cbv zeta.
  destruct (EmbeddingService (sample_world (Ok []) (Ok []) None None)
              (reset_instance
                 (run_calls [Construct (sample_world (Ok []) (Ok []) None None)]
                    (fresh_process None None)).2).2)
    as [[b|e] p2] eqn:Hrun; [|vm_compute in Hrun; discriminate].
  exists b, p2. split; [reflexivity|].
  refine (proj1 (reset_keeps_old_instance _ _ p2 0%nat b
                   {| inst_initialized := Some true;
                      inst_vector_store := None |} _ _ Hrun)).
  - split.
    + intros a [o Ho]. vm_compute in Ho.
      destruct a as [|a]; [vm_compute; lia|].
      exfalso. revert Ho.
      change ((<[0%nat := {| inst_initialized := Some true;
                             inst_vector_store := None |}]>
                 (∅ : gmap nat instance)) !! S a = Some o -> False).
      rewrite lookup_insert_ne by done. by rewrite lookup_empty.
    + intros a Ha. vm_compute in Ha. injection Ha as <-.
      eexists. vm_compute. reflexivity.
  - vm_compute. reflexivity.
Defined.

(** X11. A failed construction. If the embeddings client cannot be built
    while the class holds no instance, [EmbeddingService()] raises, and yet
    the class now holds the object [__new__] made: a later [get_instance]
    returns it as it is, not initialised and without having run
    [_load_vector_store]. *)
Theorem failed_construction_leaves_instance (w w2 : world) (p : process)
    (e : exn) :
  cls_instance p = None ->
  cls_initialized p = false ->
  embeddings_error w = Some e ->
  exists p1 a,
    EmbeddingService w p = (Raise e, p1) /\
    get_instance w2 p1 = (Ok a, p1) /\
    (is_initialized a p1).1 = Ok false /\
    events p1 = events p.
Proof.
  intros Hi Hc He.
  unfold EmbeddingService, get_instance, __new__, __init__, allocate,
    get_initialized, set_cls_instance, is_initialized, get_initialized.
  unfold_monad. cbn. rewrite Hi, He. cbn.
  repeat (rewrite lookup_insert_eq; cbn).
  rewrite Hc. cbn.
  eexists _, _. split; [reflexivity|]. cbn. split; [reflexivity|].
  repeat (rewrite lookup_insert_eq; cbn). by split.
Qed.

Lemma failed_construction_leaves_instance_witness :
  exists p1 a,
    get_instance (sample_world (Ok []) (Ok []) None None) p1 = (Ok a, p1) /\
    (is_initialized a p1).1 = Ok false.
Proof.
  destruct (failed_construction_leaves_instance
              {| sha256 := fun t => t; loader_load := Ok [];
                 splitter_error := None; split_documents := fun d => Ok d;
                 embeddings_error := Some (Exn "OpenAIError" "no api key");
                 from_documents := fun c => Ok (sample_index c);
                 merge_from := fun b _ => (Ok tt, b);
                 similarity_search_with_score := fun _ _ _ => Ok [];
                 saved_size := fun _ => 0;
                 fromtimestamp_isoformat := fun _ => Ok "";
                 now := 0;
                 hash_exists_error := None; hash_read_error := None;
                 hash_stat_error := None; hash_mkdir_error := None;
                 hash_write_error := None; store_exists_error := None;
                 store_rglob_error := None; store_mkdir_error := None;
                 save_local_error := None; load_local_error := None |}
              (sample_world (Ok []) (Ok []) None None)
              (fresh_process None None) (Exn "OpenAIError" "no api key")
              eq_refl eq_refl eq_refl)
    as (p1 & a & _ & Hg & Hi & _).
  exists p1, a. split; assumption.
Defined.

(** ** The routes *)

Section RouteProofs.

Lemma process_embeddings_returns w force_update s :
  exists r s', process_embeddings w force_update s = (Ok r, s').
Proof.
  unfold process_embeddings, try_catch.
  destruct (process_body w force_update s) as [[r|e] s1]; [by eauto|].
  unfold bind. rewrite get_stats_run. cbn. by eauto.
Qed.

Lemma search_reads w query max_results threshold s :
  exists r,
    search w query max_results threshold s = (r, s) /\
    forall e, r = Raise e -> exn_type e = "ValueError".
Proof.
  destruct (vector_store s) as [ix|] eqn:Hvs.
  - rewrite (search_loaded _ _ _ _ _ _ Hvs). eexists. split; [reflexivity|].
    intros e.
    destruct (similarity_search_with_score w ix query max_results)
      as [results|e0]; [|by intros [= <-]].
    destruct (filter_results threshold results []); [done|by intros [= <-]].
  - unfold search. unfold_monad. cbn. rewrite Hvs.
    eexists. split; [reflexivity|]. by intros e [= <-].
Qed.

Lemma on_instance_reads {A} (c : M A) (p : process) (a : nat) (o : instance)
    (r : result A) :
  objects p !! a = Some o ->
  c (State (inst_vector_store o) (disk_hash_file p) (disk_store_dir p)
           (events p))
  = (r, State (inst_vector_store o) (disk_hash_file p) (disk_store_dir p)
              (events p)) ->
  on_instance a c p = (r, p).
Proof.
  intros Ho Hc. unfold on_instance. rewrite Ho, Hc. cbn.
  destruct p as [ci cin objs na dh dd ev]. cbn in *. f_equal. f_equal.
  destruct o as [oi ov]. cbn. by apply insert_id.
Qed.

End RouteProofs.

(** X12. Status of the search route. When the class already holds an
    initialised instance, [search_documents] answers with the chunks
    [search] returns and their count as [total_results], and turns every
    failure of [search], a missing index as well as a failing engine, into
    status 400 with the error's message as detail: the 500 branch is not
    taken. The process is left as it was. *)
Theorem search_route_status (w : world) (value_error : string -> bool)
    (request : routes.SearchRequest) (p : process) (a : nat) (o : instance) :
  value_error "ValueError" = true ->
  cls_instance p = Some a ->
  objects p !! a = Some o ->
  inst_initialized o = Some true ->
  routes.search_documents w value_error request p
  = (match (search w (routes.query request) (routes.max_results request)
              (routes.threshold request)
              (State (inst_vector_store o) (disk_hash_file p)
                     (disk_store_dir p) (events p))).1 with
     | Ok chunks =>
         Response {| routes.response_query := routes.query request;
                     routes.results := chunks;
                     routes.total_results := Z.of_nat (length chunks) |}
     | Raise e => HTTPException 400 (exn_msg e)
     end, p).
Proof.
  intros Hv Hi Ho _.
  destruct (search_reads w (routes.query request) (routes.max_results request)
              (routes.threshold request)
              (State (inst_vector_store o) (disk_hash_file p)
                     (disk_store_dir p) (events p))) as (r & Hr & Hty).
  unfold routes.search_documents, get_instance.
  unfold bind, gets, ret. rewrite Hi.
  rewrite (on_instance_reads _ p a o r Ho Hr). rewrite Hr. cbn [fst].
  destruct r as [chunks|e]; [reflexivity|].
  by rewrite (Hty e eq_refl), Hv.
Qed.

Lemma search_route_status_witness :
  let w := sample_world (Ok []) (Raise (Exn "RuntimeError" "engine down"))
             None None in
  let p := {| cls_instance := Some 0%nat; cls_initialized := false;
              objects := <[0%nat := {| inst_initialized := Some true;
                                       inst_vector_store :=
                                         Some (sample_index [doc_a]) |}]> ∅;
              next_addr := 1; disk_hash_file := None; disk_store_dir := None;
              events := [] |} in
  routes.search_documents w (String.eqb "ValueError")
    {| routes.query := "cats"; routes.max_results := 5;
       routes.threshold := 7 # 10 |} p
  = (HTTPException 400 "Search error: engine down", p).
Proof.
  cbv zeta.
  rewrite (search_route_status _ (String.eqb "ValueError") _ _ 0%nat
             {| inst_initialized := Some true;
                inst_vector_store := Some (sample_index [doc_a]) |}).
  - reflexivity.
  - reflexivity.
  - reflexivity.
  - reflexivity.
  - reflexivity.
Defined.

(** X13. The routes that read [embedding_service]. A handler that finds
    the name bound to an allocated instance runs the service on it and
    answers with its result; but the module binds no such name, so as the
    module stands [POST /process] and [GET /stats] always answer 500 with
    the name error as detail, and the task scheduled by [POST /rebuild]
    ends without a rebuild: none of the three reaches the service or
    changes the process. *)
Theorem routes_need_embedding_service (w : world)
    (request : routes.ProcessEmbeddingsRequest) (p : process) :
  (forall globals a o,
      globals !! "embedding_service" = Some a ->
      objects p !! a = Some o ->
      exists r p',
        on_instance a (process_embeddings w (routes.force_update request)) p
          = (Ok r, p') /\
        routes.process_embeddings_route w globals request p
          = (Response r, p')) /\
  routes.process_embeddings_route w routes.module_globals request p
    = (HTTPException 500
         "Failed to process embeddings: name 'embedding_service' is not defined",
       p) /\
  routes.get_embedding_stats w routes.module_globals p
    = (HTTPException 500
         "Failed to get stats: name 'embedding_service' is not defined", p) /\
  (routes.rebuild_embeddings w routes.module_globals).2 p = (Ok tt, p).
Proof.
  split; [|repeat split; reflexivity].
  intros globals a o Hg Ho.
  unfold routes.process_embeddings_route, routes.load_global. rewrite Hg.
  unfold bind at 1. unfold ret at 1.
  unfold on_instance. rewrite Ho.
  destruct (process_embeddings_returns w (routes.force_update request)
              (State (inst_vector_store o) (disk_hash_file p)
                     (disk_store_dir p) (events p))) as (r & s' & ->).
  eexists _, _. split; reflexivity.
Qed.

Lemma routes_need_embedding_service_witness :
  routes.get_embedding_stats (sample_world (Ok []) (Ok []) None None)
    routes.module_globals (fresh_process None None)
  = (HTTPException 500
       "Failed to get stats: name 'embedding_service' is not defined",
     fresh_process None None).
Proof.
  exact (proj1 (proj2 (proj2
           (routes_need_embedding_service
              (sample_world (Ok []) (Ok []) None None)
              {| routes.force_update := false |}
              (fresh_process None None))))).
Defined.

(** ** Text operations *)

Section Text.

Import pystr.

Lemma list_eq_nil_or_snoc {A} (l : list A) :
  l = [] \/ exists l' a, l = l' ++ [a].
Proof. induction l using rev_ind; [by left|right; eauto]. Qed.

Lemma drop_while_suffix f l : exists l1, l = l1 ++ drop_while f l.
Proof.
  induction l as [|c l [l1 IH]]; [by exists []|].
  cbn. destruct (f c); [|by exists []].
  exists (c :: l1). cbn. by rewrite <- IH.
Qed.

Lemma drop_while_head f l c l' : drop_while f l = c :: l' -> f c = false.
Proof.
  induction l as [|x l IH]; [done|]. cbn.
  destruct (f x) eqn:E; [exact IH|]. by intros [= <- _].
Qed.

Lemma drop_while_id f c l : f c = false -> drop_while f (c :: l) = c :: l.
Proof. intros H. cbn. by rewrite H. Qed.

Lemma lstrip_suffix l : exists l1, l = l1 ++ lstrip l.
Proof. apply drop_while_suffix. Qed.

Lemma rstrip_prefix l : exists l2, l = rstrip l ++ l2.
Proof.
  unfold rstrip. destruct (drop_while_suffix isspace (rev l)) as [l1 H].
  exists (rev l1). rewrite <- rev_app_distr, <- H. by rewrite rev_involutive.
Qed.

(** [strip] cuts a contiguous piece out of the text. *)
Lemma strip_infix l : exists l1 l2, l = l1 ++ strip l ++ l2.
Proof.
  unfold strip. destruct (lstrip_suffix l) as [l1 H1].
  destruct (rstrip_prefix (lstrip l)) as [l2 H2].
  exists l1, l2. by rewrite <- H2.
Qed.

Lemma rstrip_last l c l' : rstrip l = l' ++ [c] -> isspace c = false.
Proof.
  unfold rstrip. intros H. apply (f_equal (@rev ascii)) in H.
  rewrite rev_involutive, rev_app_distr in H. cbn in H.
  by apply drop_while_head in H.
Qed.

Lemma rstrip_keeps_head c l :
  isspace c = false -> exists l', rstrip (c :: l) = c :: l'.
Proof.
  intros Hc. unfold rstrip. cbn [rev].
  destruct (drop_while_suffix isspace (rev l ++ [c])) as [l1 H].
  destruct (drop_while isspace (rev l ++ [c])) as [|x d] eqn:E.
  - exfalso. rewrite app_nil_r in H. subst l1.
    assert (Hall : forall m, drop_while isspace m = [] ->
                             Forall (fun x => isspace x = true) m).
    { clear. induction m as [|x m IH]; [constructor|]. cbn.
      destruct (isspace x) eqn:Ex; [|done]. intros H. constructor; auto. }
    apply Hall in E. apply Forall_app in E as [_ E].
    apply Forall_cons in E as [E _]. congruence.
  - assert (Hlast : exists d', x :: d = d' ++ [c]).
    { destruct (list_eq_nil_or_snoc (x :: d)) as [|(d' & y & Hd)]; [done|].
      exists d'. rewrite Hd in H. rewrite app_assoc in H.
      apply app_inj_tail in H as [_ ->]. exact Hd. }
    destruct Hlast as [d' ->]. rewrite rev_app_distr. cbn. eauto.
Qed.

Lemma strip_ends l :
  strip l = [] \/
  exists c l', strip l = c :: l' /\ isspace c = false /\
    exists l'' c', strip l = l'' ++ [c'] /\ isspace c' = false.
Proof.
  unfold strip. destruct (lstrip l) as [|c m] eqn:E; [by left|].
  right. pose proof (drop_while_head _ _ _ _ E) as Hc.
  destruct (rstrip_keeps_head c m Hc) as [l' Hl'].
  exists c, l'. split; [exact Hl'|]. split; [exact Hc|].
  destruct (list_eq_nil_or_snoc (rstrip (c :: m))) as [Hn|(l'' & c' & Hs)];
    [by rewrite Hl' in Hn|].
  exists l'', c'. split; [exact Hs|]. by eapply rstrip_last.
Qed.

Lemma split_on_nonempty sep l : split_on sep l ≠ [].
Proof.
  destruct l as [|c l]; [done|]. cbn.
  destruct (bool_decide (c = sep)); [done|].
  by destruct (split_on sep l).
Qed.

Lemma split_on_length sep l :
  length (split_on sep l)
  = S (length (List.filter (fun c => bool_decide (c = sep)) l)).
Proof.
  induction l as [|c l IH]; [done|]. cbn.
  destruct (bool_decide (c = sep)); cbn; [by rewrite IH|].
  pose proof (split_on_nonempty sep l).
  destruct (split_on sep l); [done|]. exact IH.
Qed.

(** The pieces hold no separator and are contiguous parts of the text. *)
Lemma split_on_pieces sep l piece :
  piece ∈ split_on sep l ->
  (sep ∉ piece) /\ exists l1 l2, l = l1 ++ piece ++ l2.
Proof.
  revert piece. induction l as [|c l IH]; intros piece H.
  - cbn in H. apply list_elem_of_singleton in H as ->.
    split; [by intros ?%elem_of_nil|]. by exists [], [].
  - cbn in H. destruct (bool_decide (c = sep)) eqn:E.
    + apply elem_of_cons in H as [->|H].
      * split; [by intros ?%elem_of_nil|]. by exists [], (c :: l).
      * destruct (IH _ H) as (Hn & l1 & l2 & Hl).
        split; [exact Hn|]. exists (c :: l1), l2. cbn. by rewrite <- Hl.
    + apply bool_decide_eq_false in E.
      pose proof (split_on_nonempty sep l).
      destruct (split_on sep l) as [|p ps] eqn:Es; [done|].
      apply elem_of_cons in H as [->|H].
      * destruct (IH p) as (Hn & l1 & l2 & Hl); [by left|].
        split.
        { intros [Hc|Hc]%elem_of_cons; [congruence|done]. }
        assert (Hp : exists l2', l = p ++ l2').
        { clear - Es. revert p ps Es.
          induction l as [|x l IH]; intros p ps Es.
          - cbn in Es. injection Es as <- <-. by exists [].
          - cbn in Es. destruct (bool_decide (x = sep)).
            + injection Es as <- <-. by exists (x :: l).
            + destruct (split_on sep l) as [|q qs] eqn:Eq.
              * injection Es as <- <-. exfalso.
                by apply (split_on_nonempty sep l).
              * injection Es as <- <-.
                destruct (IH q qs eq_refl) as [l2' ->].
                by exists l2'. }
        destruct Hp as [l2' ->]. by exists [], l2'.
      * destruct (IH piece) as (Hn & l1 & l2 & Hl); [by right|].
        split; [exact Hn|]. exists (c :: l1), l2. cbn. by rewrite <- Hl.
Qed.

End Text.

(** ** The Markdown processor *)

Section Markdown.

Import pystr.

Lemma replace_newline_free l : newline ∉ replace_char newline space l.
Proof.
  unfold replace_char. intros H. apply list_elem_of_In, in_map_iff in H.
  destruct H as (c & Hc & _).
  destruct (bool_decide (c = newline)) eqn:E; [discriminate|].
  by apply bool_decide_eq_false in E.
Qed.

Lemma remove_char_subset a l c : c ∈ remove_char a l -> c ∈ l /\ c ≠ a.
Proof.
  unfold remove_char. intros H. apply list_elem_of_In, filter_In in H.
  destruct H as [H1 H2]. split; [by apply list_elem_of_In|].
  apply negb_true_iff, bool_decide_eq_false in H2. exact H2.
Qed.

Lemma slice_to_length l n :
  0 <= n -> Z.of_nat (length (slice_to l n)) <= n.
Proof.
  intros Hn. unfold slice_to. destruct (Z.ltb_spec n 0); [lia|].
  rewrite length_take. lia.
Qed.

Lemma infix_not_elem {A} (x : A) l l1 m l2 :
  l = l1 ++ m ++ l2 -> x ∉ l -> x ∉ m.
Proof.
  intros -> H Hm. apply H. rewrite !elem_of_app. auto.
Qed.

End Markdown.

(** X14. The preview. For a non-negative [max_length], the preview of a
    content is at most [max_length + 3] characters long and holds neither
    a line feed nor a carriage return; a content that is absent, empty or
    all whitespace has the empty preview. *)
Theorem content_preview_bounds (content : option text) (max_length : Z) :
  0 <= max_length ->
  let preview := MarkdownProcessor._get_content_preview content max_length in
  Z.of_nat (length preview) <= max_length + 3 /\
  (newline ∉ preview) /\
  (carriage_return ∉ preview) /\
  (match content with
   | Some c => pystr.strip c = [] -> preview = []
   | None => preview = []
   end).
Proof.
  intros Hn. cbv zeta. unfold MarkdownProcessor._get_content_preview.
  destruct content as [[|c0 c]|]; cbn [length].
  1,3: (split; [lia|]; split; [by intros ?%elem_of_nil|];
       split; [by intros ?%elem_of_nil|done]).
  set (clean := pystr.remove_char carriage_return
                  (pystr.replace_char newline space (pystr.strip (c0 :: c)))).
  assert (Hnl : newline ∉ clean).
  { intros H. apply remove_char_subset in H as [H _].
    by apply replace_newline_free in H. }
  assert (Hcr : carriage_return ∉ clean).
  { intros H. by apply remove_char_subset in H as [_ H]. }
  assert (Hsl : forall x, x ∈ pystr.slice_to clean max_length -> x ∈ clean).
  { intros x. unfold pystr.slice_to.
    destruct (max_length <? 0); apply subseteq_take. }
  destruct (Z.leb_spec (Z.of_nat (length clean)) max_length).
  - split; [lia|]. split; [exact Hnl|]. split; [exact Hcr|].
    intros Hs. subst clean. by rewrite Hs.
  - split.
    { rewrite length_app. pose proof (slice_to_length clean max_length Hn).
      cbn [length list_ascii_of_string]. lia. }
    split.
    { intros [H1|H1]%elem_of_app; [by apply Hnl, Hsl|].
      cbn in H1. repeat (apply elem_of_cons in H1 as [H1|H1];
                          [discriminate|]). by apply elem_of_nil in H1. }
    split.
    { intros [H1|H1]%elem_of_app; [by apply Hcr, Hsl|].
      cbn in H1. repeat (apply elem_of_cons in H1 as [H1|H1];
                          [discriminate|]). by apply elem_of_nil in H1. }
    intros Hs. exfalso. subst clean. rewrite Hs in *. cbn in *. lia.
Qed.

Lemma content_preview_bounds_witness :
  Z.of_nat (length (MarkdownProcessor._get_content_preview
                      (Some (list_ascii_of_string "abcdefghij")) 4)) <= 4 + 3.
Proof.
  refine (proj1 (content_preview_bounds
                   (Some (list_ascii_of_string "abcdefghij")) 4 _)).
  lia.
Defined.

(** X15. The headers. Every header [_extract_markdown_headers] returns is
    not empty, neither begins nor ends with whitespace, holds no line feed
    and is a contiguous part of the content; and there are at most as many
    headers as lines. *)
Theorem markdown_headers_wellformed (content : text) (header : text) :
  header ∈ MarkdownProcessor._extract_markdown_headers (Some content) ->
  (exists c l, header = c :: l /\ pystr.isspace c = false) /\
  (exists l c, header = l ++ [c] /\ pystr.isspace c = false) /\
  (newline ∉ header) /\
  (exists before after, content = before ++ header ++ after) /\
  (length (MarkdownProcessor._extract_markdown_headers (Some content))
   <= S (length (List.filter (fun c => bool_decide (c = newline)) content)))%nat.
Proof.
  intros H. unfold MarkdownProcessor._extract_markdown_headers in *.
  destruct content as [|c0 content]; [by apply elem_of_nil in H|].
  set (text := c0 :: content) in *.
  assert (Hlen : (length (omap MarkdownProcessor.header_of_line
                            (pystr.split_on newline text))
                  <= S (length (List.filter
                                  (fun c => bool_decide (c = newline)) text)))%nat).
  { rewrite <- split_on_length. generalize (pystr.split_on newline text).
    intros ls. induction ls as [|x ls IH]; [done|]. cbn.
    destruct (MarkdownProcessor.header_of_line x); cbn; lia. }
  apply list_elem_of_omap in H as (line & Hline & Hh).
  apply split_on_pieces in Hline as (Hnl & b & a & Htext).
  unfold MarkdownProcessor.header_of_line in Hh.
  destruct (pystr.startswith_char hash_sign (pystr.strip line)); [|done].
  destruct (strip_infix line) as (s1 & s2 & Hs).
  destruct (drop_while_suffix (fun x => bool_decide (x = hash_sign))
              (pystr.strip line)) as [h1 Hd].
  fold (pystr.lstrip_char hash_sign (pystr.strip line)) in Hd.
  destruct (strip_infix (pystr.lstrip_char hash_sign (pystr.strip line)))
    as (t1 & t2 & Ht).
  destruct (strip_ends (pystr.lstrip_char hash_sign (pystr.strip line)))
    as [He|(c & l & Hc & Hsp & l' & c' & Hc' & Hsp')].
  { by rewrite He in Hh. }
  assert (Hhd : header
                = pystr.strip (pystr.lstrip_char hash_sign (pystr.strip line))).
  { destruct (pystr.strip (pystr.lstrip_char hash_sign (pystr.strip line)));
      [done|]. by injection Hh as <-. }
  rewrite <- Hhd in *.
  split; [by eauto|]. split; [by eauto|].
  assert (Hinf : exists x y, line = x ++ header ++ y).
  { exists (s1 ++ h1 ++ t1), (t2 ++ s2).
    rewrite Hs at 1. rewrite Hd at 1. rewrite Ht at 1.
    by rewrite <- !app_assoc. }
  destruct Hinf as (x & y & Hxy).
  split; [by eapply infix_not_elem|]. split; [|exact Hlen].
  exists (b ++ x), (y ++ a). rewrite Htext, Hxy. by rewrite <- !app_assoc.
Qed.

Lemma markdown_headers_wellformed_witness :
  newline ∉ list_ascii_of_string "Sub".
Proof.
  refine (proj1 (proj2 (proj2
            (markdown_headers_wellformed
               (list_ascii_of_string "# Title" ++ [newline]
                ++ list_ascii_of_string "  ## Sub  ")
               (list_ascii_of_string "Sub") _)))).
  vm_compute. apply elem_of_cons. right. apply elem_of_cons. by left.
Defined.

(** ** File sizes *)

Section Sizes.

Lemma scale_size_spec names : forall name x,
  (0 < x)%Q ->
  exists (i : nat) (v : Q),
    (i <= length names)%nat /\
    scale_size x name names = (v, nth i (name :: names) name) /\
    (v * inject_Z (1024 ^ Z.of_nat i) == x)%Q /\
    ((i < length names)%nat -> (v < 1024)%Q) /\
    ((0 < i)%nat -> (1 <= v)%Q).
Proof.
  induction names as [|next rest IH]; intros name x Hx.
  - exists 0%nat, x. cbn [length nth]. repeat split; try lia.
    change (inject_Z (1024 ^ Z.of_nat 0)) with 1%Q. ring.
  - cbn [scale_size]. destruct (Qle_bool 1024 x) eqn:E.
    + apply Qle_bool_iff in E.
      destruct (IH next (x / 1024)%Q) as (i & v & Hi & Hs & Hv & Hlt & Hge).
      { apply Qlt_shift_div_l; [reflexivity|]. lra. }
      exists (S i), v. split; [cbn; lia|]. split.
      { rewrite Hs. f_equal.
        change (nth (S i) (name :: next :: rest) name)
          with (nth i (next :: rest) name).
        apply nth_indep. cbn. lia. }
      split.
      { rewrite Nat2Z.inj_succ, Z.pow_succ_r by lia.
        rewrite inject_Z_mult.
        apply Qeq_trans with (1024 * (v * inject_Z (1024 ^ Z.of_nat i)))%Q;
          [ring|].
        rewrite Hv. field. }
      split; [intros H; apply Hlt; cbn in H; lia|].
      intros _. destruct i as [|i]; [|apply Hge; lia].
      change (inject_Z (1024 ^ Z.of_nat 0)) with 1%Q in Hv.
      assert (Hv' : (v == x / 1024)%Q) by (rewrite <- Hv; ring).
      rewrite Hv'. apply Qle_shift_div_l; [reflexivity|]. lra.
    + exists 0%nat, x. cbn [length nth]. repeat split; try lia.
      { change (inject_Z (1024 ^ Z.of_nat 0)) with 1%Q. ring. }
      intros _. apply Qnot_le_lt. intros H. apply Qle_bool_iff in H. congruence.
Qed.

(** Rounding to two decimals keeps a value between 1 and 1024. *)
Lemma round_shown (v : Q) :
  (1 <= v)%Q ->
  (1 <= round (Qabs v) 2)%Q /\
  ((v < 1024)%Q -> (round (Qabs v) 2 <= 1024)%Q).
Proof.
  intros H1.
  assert (Ha : (Qabs v == v)%Q) by (apply Qabs_pos; lra).
  split.
  - apply Qle_trans with (round 1 2); [by vm_compute|].
    apply round_monotone. rewrite Ha. exact H1.
  - intros H2. apply Qle_trans with (round 1024 2); [|by vm_compute].
    apply round_monotone. rewrite Ha. by apply Qlt_le_weak.
Qed.

Lemma format_file_size_scaled (size_names : list string) (size_bytes : Z) :
  0 < size_bytes ->
  exists (i : nat) (v : Q),
    (i <= length size_names)%nat /\
    format_file_size size_names size_bytes
      = format_2f v +:+ " " +:+ nth i ("B" :: size_names) "B" /\
    (v * inject_Z (1024 ^ Z.of_nat i) == inject_Z size_bytes)%Q /\
    (1 <= v)%Q /\
    ((i < length size_names)%nat -> (v < 1024)%Q) /\
    (1 <= round (Qabs v) 2)%Q /\
    ((i < length size_names)%nat -> (round (Qabs v) 2 <= 1024)%Q).
Proof.
  intros Hn. unfold format_file_size.
  destruct (Z.eqb_spec size_bytes 0); [lia|].
  destruct (scale_size_spec size_names "B" (inject_Z size_bytes))
    as (i & v & Hi & Hs & Hv & Hlt & Hge).
  { change 0%Q with (inject_Z 0). rewrite <- Zlt_Qlt. lia. }
  rewrite Hs. exists i, v.
  assert (H1 : (1 <= v)%Q).
  { destruct i as [|i]; [|apply Hge; lia].
    change (inject_Z (1024 ^ Z.of_nat 0)) with 1%Q in Hv.
    assert (Hv' : (v == inject_Z size_bytes)%Q) by (rewrite <- Hv; ring).
    rewrite Hv'. change 1%Q with (inject_Z 1). rewrite <- Zle_Qle. lia. }
  destruct (round_shown v H1) as [Hr1 Hr2].
  repeat split; try assumption. intros Hi'. apply Hr2, Hlt, Hi'.
Qed.

End Sizes.

(** X8. Readable sizes. For a positive size below 2^53, where the code's
    float divisions by 1024.0 are exact, [_format_file_size] prints, with
    two decimals and followed by the [i]-th unit, the quotient of the size
    by [1024^i]. That quotient is at least 1, and below 1024 unless the
    unit is the last one of the class: GB for the Markdown processor, TB
    for the S3 client. The number printed is the quotient rounded: it lies
    between 1 and, for a unit that is not the last, 1024 inclusive. *)
Theorem format_file_size_unit (size_bytes : Z) :
  0 < size_bytes < 2 ^ 53 ->
  (exists (i : nat) (v : Q),
     (i <= 3)%nat /\
     MarkdownProcessor._format_file_size size_bytes
       = format_2f v +:+ " " +:+ nth i ["B"; "KB"; "MB"; "GB"] "B" /\
     (v * inject_Z (1024 ^ Z.of_nat i) == inject_Z size_bytes)%Q /\
     (1 <= v)%Q /\
     ((i < 3)%nat -> (v < 1024)%Q) /\
     (1 <= round (Qabs v) 2)%Q /\
     ((i < 3)%nat -> (round (Qabs v) 2 <= 1024)%Q)) /\
  (exists (i : nat) (v : Q),
     (i <= 4)%nat /\
     S3Client._format_file_size size_bytes
       = format_2f v +:+ " " +:+ nth i ["B"; "KB"; "MB"; "GB"; "TB"] "B" /\
     (v * inject_Z (1024 ^ Z.of_nat i) == inject_Z size_bytes)%Q /\
     (1 <= v)%Q /\
     ((i < 4)%nat -> (v < 1024)%Q) /\
     (1 <= round (Qabs v) 2)%Q /\
     ((i < 4)%nat -> (round (Qabs v) 2 <= 1024)%Q)).
Proof.
  intros [Hn _]. split.
  - apply (format_file_size_scaled ["KB"; "MB"; "GB"] size_bytes Hn).
  - apply (format_file_size_scaled ["KB"; "MB"; "GB"; "TB"] size_bytes Hn).
Qed.

Lemma format_file_size_unit_witness :
  exists (i : nat) (v : Q),
    (i <= 3)%nat /\
    MarkdownProcessor._format_file_size 1048575
      = format_2f v +:+ " " +:+ nth i ["B"; "KB"; "MB"; "GB"] "B" /\
    (v * inject_Z (1024 ^ Z.of_nat i) == inject_Z 1048575)%Q /\
    (1 <= v)%Q /\
    ((i < 3)%nat -> (v < 1024)%Q) /\
    (1 <= round (Qabs v) 2)%Q /\
    ((i < 3)%nat -> (round (Qabs v) 2 <= 1024)%Q).
Proof.
  refine (proj1 (format_file_size_unit 1048575 _)). split; reflexivity.
Defined.

(** The bound 1024 is reached below the last unit. *)
Lemma format_file_size_rounds_up :
  MarkdownProcessor._format_file_size 1048575 = "1024.00 KB".
Proof. vm_compute. reflexivity. Qed.

(** ** The S3 client *)

Section S3.

Import pystr.

Lemma endswith_spec suffix l :
  endswith suffix l = true <-> exists stem, l = stem ++ suffix.
Proof.
  unfold endswith. rewrite andb_true_iff, bool_decide_eq_true, Nat.leb_le.
  split.
  - intros [H _]. exists (take (length l - length suffix) l).
    symmetry. etrans; [|apply (take_drop (length l - length suffix) l)].
    by rewrite H.
  - intros [stem ->]. rewrite length_app. split; [|lia].
    replace (length stem + length suffix - length suffix)%nat
      with (length stem) by lia.
    by rewrite drop_app_length.
Qed.

Lemma is_prefix_spec p l : is_prefix p l = true <-> exists rest, l = p ++ rest.
Proof.
  revert l. induction p as [|a p IH]; intros l; cbn.
  - split; [intros _; by exists l|done].
  - destruct l as [|b l].
    + split; [done|]. by intros [rest H].
    + rewrite andb_true_iff, bool_decide_eq_true, IH. split.
      * intros [-> [rest ->]]. by exists rest.
      * intros [rest H]. injection H as -> ->. eauto.
Qed.

Lemma contains_spec p l :
  contains p l = true <-> exists before after, l = before ++ p ++ after.
Proof.
  induction l as [|c l IH].
  - cbn. rewrite orb_false_r, is_prefix_spec. split.
    + intros [rest H]. by exists [], rest.
    + intros (before & after & H). destruct before; [|done].
      by exists after.
  - cbn [contains]. rewrite orb_true_iff, is_prefix_spec, IH. split.
    + intros [[rest H]|(before & after & ->)].
      * by exists [], rest.
      * by exists (c :: before), after.
    + intros (before & after & H). destruct before as [|b before].
      * left. by exists after.
      * right. injection H as -> ->. by exists before, after.
Qed.

Lemma List_filter_sublist {A} (f : A -> bool) l : sublist (List.filter f l) l.
Proof.
  induction l as [|x l IH]; [constructor|]. cbn.
  destruct (f x); by constructor.
Qed.

Lemma elem_of_List_filter {A} (f : A -> bool) l x :
  x ∈ List.filter f l <-> x ∈ l /\ f x = true.
Proof. by rewrite !list_elem_of_In, filter_In. Qed.

End S3.

(** X16. Objects by extension. [get_objects_by_extension] returns, in the
    order of the listing, exactly the listed objects whose key ends, case
    ignored, with a dot and the extension; when the listing fails it
    returns the empty list instead of raising. *)
Theorem get_objects_by_extension_spec (s3 : S3Client.boto3)
    (bucket_name extension prefix : text) :
  let found := S3Client.get_objects_by_extension s3 bucket_name extension prefix in
  match S3Client.list_objects s3 bucket_name prefix with
  | Ok objects =>
      sublist found objects /\
      forall obj, obj ∈ found <->
        obj ∈ objects /\
        exists stem, pystr.lower (S3Client.Key obj)
                     = stem ++ dot :: pystr.lower extension
  | Raise _ => found = []
  end.
Proof.
  cbv zeta. unfold S3Client.get_objects_by_extension.
  destruct (S3Client.list_objects s3 bucket_name prefix) as [objects|e];
    [|reflexivity].
  split; [apply List_filter_sublist|].
  intros obj. by rewrite elem_of_List_filter, endswith_spec.
Qed.

Lemma get_objects_by_extension_spec_witness :
  sublist
    (S3Client.get_objects_by_extension sample_s3 []
       (list_ascii_of_string "md") [])
    [sample_object;
     {| S3Client.Key := list_ascii_of_string "img/a.png";
        S3Client.Size := 2048;
        S3Client.LastModified := 1700000001 |}].
Proof.
  exact (proj1 (get_objects_by_extension_spec sample_s3 []
                  (list_ascii_of_string "md") [])).
Defined.

(** X17. Objects by name. [search_objects] returns, in the order of the
    listing, exactly the listed objects whose key contains the search
    term, case ignored (so every object for the empty term); when the
    listing fails it returns the empty list. *)
Theorem search_objects_spec (s3 : S3Client.boto3)
    (bucket_name search_term prefix : text) :
  let found := S3Client.search_objects s3 bucket_name search_term prefix in
  match S3Client.list_objects s3 bucket_name prefix with
  | Ok objects =>
      sublist found objects /\
      (forall obj, obj ∈ found <->
         obj ∈ objects /\
         exists before after,
           pystr.lower (S3Client.Key obj)
           = before ++ pystr.lower search_term ++ after) /\
      (search_term = [] -> found = objects)
  | Raise _ => found = []
  end.
Proof.
  cbv zeta. unfold S3Client.search_objects.
  destruct (S3Client.list_objects s3 bucket_name prefix) as [objects|e];
    [|reflexivity].
  split; [apply List_filter_sublist|]. split.
  - intros obj. by rewrite elem_of_List_filter, contains_spec.
  - intros ->. induction objects as [|obj objects IH]; [done|].
    cbn [List.filter]. replace (pystr.contains _ _) with true.
    + by rewrite IH.
    + symmetry. apply contains_spec. by exists [], (pystr.lower (S3Client.Key obj)).
Qed.

Lemma search_objects_spec_witness :
  S3Client.search_objects sample_s3 [] [] []
  = [sample_object;
     {| S3Client.Key := list_ascii_of_string "img/a.png";
        S3Client.Size := 2048;
        S3Client.LastModified := 1700000001 |}].
Proof.
  exact (proj2 (proj2 (search_objects_spec sample_s3 [] [] [])) eq_refl).
Defined.

(** X18. Moving an object. [move_object] never raises. It deletes the
    source only after the copy succeeded, and answers [True] exactly when
    the copy and the deletion both succeeded; when the deletion fails it
    answers [False] although the copy has been made. *)
Theorem move_object_outcome {S : Type} (s3 : S3Client.boto3_writes S)
    (source_bucket source_key dest_bucket dest_key : text) (s : S) :
  match S3Client.boto_copy_object s3 source_bucket source_key
          dest_bucket dest_key s with
  | (Raise _, s1) =>
      S3Client.move_object s3 source_bucket source_key dest_bucket dest_key s
      = (Ok false, s1)
  | (Ok _, s1) =>
      match S3Client.boto_delete_object s3 source_bucket source_key s1 with
      | (Ok _, s2) =>
          S3Client.move_object s3 source_bucket source_key dest_bucket
            dest_key s = (Ok true, s2)
      | (Raise _, s2) =>
          S3Client.move_object s3 source_bucket source_key dest_bucket
            dest_key s = (Ok false, s2)
      end
  end.
Proof.
  unfold S3Client.move_object, S3Client.copy_object, S3Client.delete_object.
  unfold try_catch, bind, ret.
  destruct (S3Client.boto_copy_object s3 source_bucket source_key
              dest_bucket dest_key s) as [[[]|e] s1]; [|reflexivity].
  by destruct (S3Client.boto_delete_object s3 source_bucket source_key s1)
    as [[[]|e] s2].
Qed.

Lemma move_object_outcome_witness :
  S3Client.move_object
    {| S3Client.boto_copy_object := fun _ _ _ _ (copies : nat) =>
         (Ok tt, S copies);
       S3Client.boto_delete_object := fun _ _ (copies : nat) =>
         (Raise (Exn "ClientError" "Access Denied"), copies) |}
    [] (list_ascii_of_string "a.md") [] (list_ascii_of_string "b.md") 0%nat
  = (Ok false, 1%nat).
Proof.
  exact (move_object_outcome
           {| S3Client.boto_copy_object := fun _ _ _ _ (copies : nat) =>
                (Ok tt, S copies);
              S3Client.boto_delete_object := fun _ _ (copies : nat) =>
                (Raise (Exn "ClientError" "Access Denied"), copies) |}
           [] (list_ascii_of_string "a.md") [] (list_ascii_of_string "b.md")
           0%nat).
Defined.

(** ** The Markdown files and the loader *)

Section Loader.

Variable s3 : S3Client.boto3.
Variable bucket_name : text.

Lemma markdown_file_metadata obj :
  Markdown.markdown_file s3 bucket_name obj !! "metadata"
  = Some (Dict (Markdown.file_metadata obj
                  (S3Client.get_object_content s3 bucket_name (S3Client.Key obj))
                  (S3Client.get_file_info_summary s3 bucket_name
                     (S3Client.Key obj)))).
Proof. reflexivity. Qed.

Lemma markdown_file_content obj :
  Markdown.markdown_file s3 bucket_name obj !! "content"
  = Some (Scalar match S3Client.get_object_content s3 bucket_name
                         (S3Client.Key obj) with
                 | Some t => PyStr t
                 | None => PyNone
                 end).
Proof. reflexivity. Qed.

Lemma markdown_file_keys obj k :
  k ≠ "content" -> k ≠ "metadata" ->
  Markdown.markdown_file s3 bucket_name obj !! k = None.
Proof.
  intros H1 H2. unfold Markdown.markdown_file.
  by rewrite !lookup_insert_ne, lookup_empty.
Qed.

Lemma file_metadata_has_content obj content info :
  Markdown.file_metadata obj content info !! "has_content"
  = Some (PyBool (negb (is_empty (pystr.strip (default [] content))))).
Proof. reflexivity. Qed.

Lemma file_metadata_key obj content info :
  Markdown.file_metadata obj content info !! "key"
  = Some (PyStr (S3Client.Key obj)).
Proof. reflexivity. Qed.

Lemma file_metadata_last_modified obj content info :
  Markdown.file_metadata obj content info !! "last_modified"
  = Some (PyDatetime (S3Client.LastModified obj)).
Proof. reflexivity. Qed.

Lemma file_metadata_source obj content info :
  Markdown.file_metadata obj content info !! "source" = None.
Proof. reflexivity. Qed.

Lemma file_metadata_size obj content info :
  Markdown.file_metadata obj content info !! "size" = None.
Proof. reflexivity. Qed.

(** The pair [load] makes of an object, if it makes one. *)
Lemma documents_of_markdown_files objects :
  Markdown.documents_of (Markdown.markdown_file s3 bucket_name <$> objects)
  = Ok (omap (fun obj =>
          match S3Client.get_object_content s3 bucket_name (S3Client.Key obj) with
          | Some t =>
              if is_empty (pystr.strip t) then None
              else Some (Scalar (PyStr t),
                         Dict (Markdown.file_metadata obj (Some t)
                                 (S3Client.get_file_info_summary s3 bucket_name
                                    (S3Client.Key obj))))
          | None => None
          end) objects).
Proof.
  induction objects as [|obj objects IH]; [reflexivity|].
  cbn [fmap list_fmap omap list_omap Markdown.documents_of].
  unfold item at 1. rewrite markdown_file_metadata. cbn [rbind subscript].
  unfold item at 1. rewrite file_metadata_has_content. cbn [rbind truthy].
  destruct (S3Client.get_object_content s3 bucket_name (S3Client.Key obj))
    as [t|] eqn:Hc; cbn [default from_option id].
  - destruct (is_empty (pystr.strip t)) eqn:He; cbn [negb].
    + exact IH.
    + unfold item at 1. rewrite markdown_file_content, Hc. cbn [rbind].
      unfold item at 1. rewrite markdown_file_metadata, Hc. cbn [rbind].
      fold (@fmap list _ _ _ (Markdown.markdown_file s3 bucket_name) objects).
      by rewrite IH.
  - exact IH.
Qed.

End Loader.

Section LoaderDocuments.

Variable isoformat : Z -> string.
Variable s3 : S3Client.boto3.
Variable bucket_name prefix : text.

(** What [load] returns: one document for every listed Markdown object
    that could be read and is not blank. *)
Lemma load_run :
  Markdown.load isoformat s3 bucket_name prefix
  = Ok (omap (fun obj =>
          match S3Client.get_object_content s3 bucket_name (S3Client.Key obj) with
          | Some t =>
              if is_empty (pystr.strip t) then None
              else Some
                {| page_content := string_of_list_ascii t;
                   metadata :=
                     {| md_key := Some (string_of_list_ascii (S3Client.Key obj));
                        md_source := None;
                        md_size := None;
                        md_last_modified :=
                          Some (LMDatetime
                                  (isoformat (S3Client.LastModified obj))) |} |}
          | None => None
          end)
        (S3Client.get_objects_by_extension s3 bucket_name
           (list_ascii_of_string "md") prefix)).
Proof.
  unfold Markdown.load, Markdown.load_pairs, Markdown.get_all_markdown_files.
  rewrite documents_of_markdown_files. cbn [rbind]. f_equal.
  induction (S3Client.get_objects_by_extension s3 bucket_name
               (list_ascii_of_string "md") prefix) as [|obj objects IH];
    [reflexivity|].
  cbn [omap list_omap].
  destruct (S3Client.get_object_content s3 bucket_name (S3Client.Key obj))
    as [t|]; [|exact IH].
  destruct (is_empty (pystr.strip t)); [exact IH|].
  rewrite fmap_cons, IH. f_equal.
Qed.

End LoaderDocuments.

(** X19. The loader. [MarkdownLoader.load] never raises. Every document
    it returns carries a key, and comes from a listed Markdown object that
    could be read and is not blank: its page content is the object's text
    and its key the object's key. Conversely every such object gives a
    document. *)
Theorem load_documents_of_objects (isoformat : Z -> string)
    (s3 : S3Client.boto3) (bucket_name prefix : text) :
  let objects :=
    S3Client.get_objects_by_extension s3 bucket_name
      (list_ascii_of_string "md") prefix in
  exists docs,
    Markdown.load isoformat s3 bucket_name prefix = Ok docs /\
    Forall has_key docs /\
    (forall d, d ∈ docs ->
       exists obj t,
         obj ∈ objects /\
         S3Client.get_object_content s3 bucket_name (S3Client.Key obj) = Some t /\
         pystr.strip t ≠ [] /\
         page_content d = string_of_list_ascii t /\
         md_key (metadata d) = Some (string_of_list_ascii (S3Client.Key obj))) /\
    (forall obj t,
       obj ∈ objects ->
       S3Client.get_object_content s3 bucket_name (S3Client.Key obj) = Some t ->
       pystr.strip t ≠ [] ->
       exists d, d ∈ docs /\
         page_content d = string_of_list_ascii t /\
         md_key (metadata d) = Some (string_of_list_ascii (S3Client.Key obj))).
Proof.
  cbv zeta. eexists. split; [apply load_run|].
  split; [|split].
  - apply Forall_forall. intros d Hd.
    apply list_elem_of_omap in Hd as (obj & _ & Hd).
    destruct (S3Client.get_object_content s3 bucket_name (S3Client.Key obj))
      as [t|]; [|done].
    destruct (is_empty (pystr.strip t)); [done|].
    injection Hd as <-. by eexists.
  - intros d Hd. apply list_elem_of_omap in Hd as (obj & Hobj & Hd).
    destruct (S3Client.get_object_content s3 bucket_name (S3Client.Key obj))
      as [t|] eqn:Hc; [|done].
    destruct (is_empty (pystr.strip t)) eqn:He; [done|].
    injection Hd as <-. exists obj, t. repeat split; try done.
    intros Hs. by rewrite Hs in He.
  - intros obj t Hobj Hc Hs. eexists. split.
    + apply list_elem_of_omap. exists obj. split; [exact Hobj|].
      rewrite Hc. destruct (pystr.strip t); [done|]. reflexivity.
    + done.
Qed.

Lemma load_documents_of_objects_witness :
  exists docs,
    Markdown.load pretty sample_s3 [] [] = Ok docs /\ Forall has_key docs.
Proof.
  destruct (load_documents_of_objects pretty sample_s3 [] [])
    as (docs & Hload & Hkeys & _).
  exists docs. split; assumption.
Defined.

(** X20. What a search result says of a loaded document. The metadata
    the loader attaches has neither a ["source"] nor a ["size"] entry: the
    chunk [search] shapes from a loaded document has the source "unknown"
    and no size, while its key is the object's key and its date the
    object's modification date in ISO format. *)
Theorem loaded_document_chunk (isoformat : Z -> string)
    (s3 : S3Client.boto3) (bucket_name prefix : text)
    (docs : list document) (d : document) (similarity : Q) :
  Markdown.load isoformat s3 bucket_name prefix = Ok docs ->
  d ∈ docs ->
  let shaped := schemas.metadata (to_chunk d similarity) in
  schemas.source shaped = "unknown" /\
  schemas.size shaped = None /\
  exists obj,
    obj ∈ S3Client.get_objects_by_extension s3 bucket_name
            (list_ascii_of_string "md") prefix /\
    schemas.key shaped = string_of_list_ascii (S3Client.Key obj) /\
    schemas.last_modified shaped
    = Some (isoformat (S3Client.LastModified obj)).
Proof.
  intros Hload Hd. rewrite load_run in Hload. injection Hload as <-.
  apply list_elem_of_omap in Hd as (obj & Hobj & Hd).
  destruct (S3Client.get_object_content s3 bucket_name (S3Client.Key obj))
    as [t|]; [|done].
  destruct (is_empty (pystr.strip t)); [done|].
  injection Hd as <-. cbn. repeat split. by exists obj.
Qed.

Lemma loaded_document_chunk_witness :
  schemas.source
    (schemas.metadata
       (to_chunk
          {| page_content := "# Title";
             metadata :=
               {| md_key := Some "notes/A.MD"; md_source := None;
                  md_size := None;
                  md_last_modified := Some (LMDatetime "1700000000") |} |}
          (1 # 2)))
  = "unknown".
Proof.
  refine (proj1 (loaded_document_chunk pretty sample_s3 [] [] _ _ (1 # 2) _ _)).
  - vm_compute. reflexivity.
  - left.
Defined.

(** X21. A failing bucket looks like an empty one. When listing the
    bucket fails, the loader returns no documents, and [process_embeddings]
    answers "No documents found to process": the run is a failure, the
    cause is not reported, and the index and the disk stay as they were. *)
Theorem listing_failure_is_no_documents (w : world) (isoformat : Z -> string)
    (s3 : S3Client.boto3) (bucket_name prefix : text) (e : exn)
    (force_update : bool) (s : state) :
  loader_load w = Markdown.load isoformat s3 bucket_name prefix ->
  S3Client.list_objects s3 bucket_name prefix = Raise e ->
  loader_load w = Ok [] /\
  exists r s',
    process_embeddings w force_update s = (Ok r, s') /\
    success r = false /\
    message r = "No documents found to process" /\
    vector_store s' = vector_store s /\
    hash_file s' = hash_file s /\
    store_dir s' = store_dir s.
Proof.
  intros Hw He.
  assert (Hload : loader_load w = Ok []).
  { rewrite Hw, load_run. unfold S3Client.get_objects_by_extension.
    by rewrite He. }
  split; [exact Hload|].
  unfold process_embeddings, process_body, load_documents, log.
  unfold_monad. cbn. rewrite Hload. cbn. rewrite (get_stats_run w). cbn.
  eexists _, _. split; [reflexivity|]. repeat split; reflexivity.
Qed.

Lemma listing_failure_is_no_documents_witness :
  exists r s',
    process_embeddings
      (sample_world (Markdown.load pretty failing_s3 [] []) (Ok []) None None)
      false indexed_state = (Ok r, s') /\
    success r = false /\
    message r = "No documents found to process".
Proof.
  destruct (listing_failure_is_no_documents
              (sample_world (Markdown.load pretty failing_s3 [] [])
                 (Ok []) None None)
              pretty failing_s3 [] []
              (Exn "EndpointConnectionError"
                   "Could not connect to the endpoint URL")
              false indexed_state eq_refl eq_refl)
    as (_ & r & s' & Hrun & Hs & Hm & _).
  exists r, s'. repeat split; assumption.
Defined.

(** X22. The summary. [get_markdown_files_summary] reads the sizes at the
    top level of the files, where [get_all_markdown_files] has put them
    under ["metadata"]: it answers that there are no files when there are
    none, and raises [KeyError('size_bytes')] otherwise. *)
Theorem summary_needs_flat_files (s3 : S3Client.boto3)
    (bucket_name prefix : text) :
  Markdown.get_markdown_files_summary s3 bucket_name prefix
  = if is_empty (S3Client.get_objects_by_extension s3 bucket_name
                   (list_ascii_of_string "md") prefix)
    then Ok Markdown.NoFiles
    else Raise (Exn "KeyError" "'size_bytes'").
Proof.
  unfold Markdown.get_markdown_files_summary, Markdown.summarize,
    Markdown.get_all_markdown_files.
  destruct (S3Client.get_objects_by_extension s3 bucket_name
              (list_ascii_of_string "md") prefix) as [|obj objects];
    [reflexivity|].
  cbn [fmap list_fmap is_empty Markdown.sum_items].
  unfold item at 1. by rewrite markdown_file_keys.
Qed.

Lemma summary_needs_flat_files_witness :
  Markdown.get_markdown_files_summary sample_s3 [] []
  = Raise (Exn "KeyError" "'size_bytes'").
Proof.
  exact (summary_needs_flat_files sample_s3 [] []).
Defined.

Section Filters.

Import Markdown.

Lemma filter_by_ok test files out :
  filter_by test files = Ok out ->
  sublist out files /\
  forall f, f ∈ out <-> f ∈ files /\ test f = Ok true.
Proof.
  revert out. induction files as [|f0 files IH]; intros out H.
  - injection H as <-. split; [constructor|].
    intros f. split; [by intros ?%elem_of_nil|by intros [?%elem_of_nil _]].
  - cbn [filter_by] in H. destruct (test f0) as [keep|] eqn:Ht; [|done].
    cbn [rbind] in H.
    destruct (filter_by test files) as [out'|]; [|done].
    destruct (IH out' eq_refl) as [Hsub Hin].
    cbn [rbind] in H. injection H as <-. destruct keep.
    + split; [by constructor|]. intros f. rewrite !elem_of_cons, Hin.
      split; [intros [->|[? ?]]; auto|intros [[->|?] ?]; auto].
    + split; [by constructor|]. intros f. rewrite elem_of_cons, Hin.
      split; [intros [? ?]; auto|].
      intros [[->|?] ?]; [congruence|auto].
Qed.

Lemma when_given_ok {A} (given : option A) test files out :
  when_given given test files = Ok out ->
  sublist out files /\
  forall f, f ∈ out <->
    f ∈ files /\ forall a, given = Some a -> test a f = Ok true.
Proof.
  destruct given as [a|]; cbn [when_given]; intros H.
  - apply filter_by_ok in H as [Hsub Hin]. split; [exact Hsub|].
    intros f. rewrite Hin. split.
    + intros [? ?]. split; [done|]. by intros ? [= <-].
    + intros [? H]. auto.
  - injection H as <-. split; [done|]. intros f. split; [|tauto].
    intros ?. split; [done|]. by intros.
Qed.

Lemma filter_by_raises test f files e :
  test f = Raise e -> filter_by test (f :: files) = Raise e.
Proof. intros H. cbn. by rewrite H. Qed.

End Filters.

(** X23. Filters are conjunctive. When [filter_markdown_files] returns,
    its result is made, in their order, of exactly the files that pass the
    test of every filter given; with no filter it returns the files. *)
Theorem filter_markdown_files_conjunctive
    (files : list (gmap string pyvalue)) (filters : Markdown.filters)
    (out : list (gmap string pyvalue)) :
  Markdown.filter_markdown_files files filters = Ok out ->
  sublist out files /\
  forall f, f ∈ out <->
    f ∈ files /\
    (forall m, Markdown.min_size filters = Some m ->
               Markdown.at_least "size_bytes" m f = Ok true) /\
    (forall m, Markdown.max_size filters = Some m ->
               Markdown.at_most "size_bytes" m f = Ok true) /\
    (forall b, Markdown.has_content filters = Some b ->
               Markdown.flag_is "has_content" b f = Ok true) /\
    (forall m, Markdown.min_words filters = Some m ->
               Markdown.at_least "word_count" m f = Ok true) /\
    (forall t, Markdown.contains_text filters = Some t ->
               Markdown.mentions "content" t f = Ok true) /\
    (forall t, Markdown.filename_pattern filters = Some t ->
               Markdown.mentions "filename" t f = Ok true).
Proof.
  unfold Markdown.filter_markdown_files. intros H.
  destruct (Markdown.when_given (Markdown.min_size filters) _ files)
    as [l1|] eqn:H1; [|done]. cbn [rbind] in H.
  destruct (Markdown.when_given (Markdown.max_size filters) _ l1)
    as [l2|] eqn:H2; [|done]. cbn [rbind] in H.
  destruct (Markdown.when_given (Markdown.has_content filters) _ l2)
    as [l3|] eqn:H3; [|done]. cbn [rbind] in H.
  destruct (Markdown.when_given (Markdown.min_words filters) _ l3)
    as [l4|] eqn:H4; [|done]. cbn [rbind] in H.
  destruct (Markdown.when_given (Markdown.contains_text filters) _ l4)
    as [l5|] eqn:H5; [|done]. cbn [rbind] in H.
  apply when_given_ok in H1 as [S1 I1], H2 as [S2 I2], H3 as [S3 I3],
    H4 as [S4 I4], H5 as [S5 I5], H as [S6 I6].
  split.
  - do 5 (etrans; [|eassumption]). exact S6.
  - intros f. rewrite I6, I5, I4, I3, I2, I1. tauto.
Qed.

Lemma filter_markdown_files_conjunctive_witness :
  sublist
    [(<["size_bytes" := Scalar (PyInt 2000)]> ∅ : gmap string pyvalue)]
    [<["size_bytes" := Scalar (PyInt 10)]> ∅;
     <["size_bytes" := Scalar (PyInt 2000)]> ∅].
Proof.
  refine (proj1 (filter_markdown_files_conjunctive
            [<["size_bytes" := Scalar (PyInt 10)]> ∅;
             <["size_bytes" := Scalar (PyInt 2000)]> ∅]
            {| Markdown.min_size := Some 100; Markdown.max_size := None;
               Markdown.has_content := None; Markdown.min_words := None;
               Markdown.contains_text := None;
               Markdown.filename_pattern := None |}
            [<["size_bytes" := Scalar (PyInt 2000)]> ∅] _)).
  vm_compute. reflexivity.
Defined.

Section NestedFiles.

Import Markdown.

Variable s3 : S3Client.boto3.
Variable bucket_name : text.

Lemma item_markdown_file obj k :
  k ≠ "content" -> k ≠ "metadata" ->
  item (markdown_file s3 bucket_name obj) k
  = Raise (Exn "KeyError" ("'" +:+ k +:+ "'")).
Proof. intros H1 H2. unfold item. by rewrite markdown_file_keys. Qed.

Lemma filter_by_item_raises (test : gmap string pyvalue -> result bool)
    k obj files :
  k ≠ "content" -> k ≠ "metadata" ->
  (forall f e, item f k = Raise e -> test f = Raise e) ->
  filter_by test (markdown_file s3 bucket_name obj :: files)
  = Raise (Exn "KeyError" ("'" +:+ k +:+ "'")).
Proof.
  intros H1 H2 Ht. apply filter_by_raises, Ht. by apply item_markdown_file.
Qed.

End NestedFiles.

(** X24. Filters and the files of [get_all_markdown_files]. The size,
    content-flag, word-count and file-name filters read their key at the
    top level of a file, where [get_all_markdown_files] has put it under
    ["metadata"]: on a non-empty list of such files every one of these
    filters raises [KeyError] (the file-name filter when no text filter
    runs before it). *)
Theorem filter_markdown_files_nested (s3 : S3Client.boto3)
    (bucket_name prefix : text) (filters : Markdown.filters) :
  let files := Markdown.get_all_markdown_files s3 bucket_name prefix in
  files ≠ [] ->
  is_Some (Markdown.min_size filters) \/
  is_Some (Markdown.max_size filters) \/
  is_Some (Markdown.has_content filters) \/
  is_Some (Markdown.min_words filters) \/
  (Markdown.contains_text filters = None /\
   is_Some (Markdown.filename_pattern filters)) ->
  exists k,
    k ∈ ["size_bytes"; "has_content"; "word_count"; "filename"] /\
    Markdown.filter_markdown_files files filters
    = Raise (Exn "KeyError" ("'" +:+ k +:+ "'")).
Proof.
  cbv zeta. unfold Markdown.get_all_markdown_files.
  destruct (S3Client.get_objects_by_extension s3 bucket_name
              (list_ascii_of_string "md") prefix) as [|obj objects];
    [done|].
  intros _ H. rewrite fmap_cons.
  set (rest := Markdown.markdown_file s3 bucket_name <$> objects).
  assert (Hraise : forall k f e (g : pyvalue -> result bool),
            item f k = Raise e -> rbind (item f k) g = Raise e).
  { intros k f e g ->. reflexivity. }
  unfold Markdown.filter_markdown_files.
  destruct filters as [a b c d t p]. cbn in H |- *.
  destruct a as [a|].
  { exists "size_bytes". split; [by repeat constructor|]. cbn [Markdown.when_given].
    rewrite (filter_by_item_raises s3 bucket_name _ "size_bytes"); try done.
    intros f e. apply Hraise. }
  cbn [Markdown.when_given rbind]. destruct b as [b|].
  { exists "size_bytes". split; [by repeat constructor|]. cbn [Markdown.when_given].
    rewrite (filter_by_item_raises s3 bucket_name _ "size_bytes"); try done.
    intros f e. apply Hraise. }
  cbn [Markdown.when_given rbind]. destruct c as [c|].
  { exists "has_content". split; [by repeat constructor|]. cbn [Markdown.when_given].
    rewrite (filter_by_item_raises s3 bucket_name _ "has_content"); try done.
    intros f e. apply Hraise. }
  cbn [Markdown.when_given rbind]. destruct d as [d|].
  { exists "word_count". split; [by repeat constructor|]. cbn [Markdown.when_given].
    rewrite (filter_by_item_raises s3 bucket_name _ "word_count"); try done.
    intros f e. apply Hraise. }
  cbn [Markdown.when_given rbind].
  destruct H as [[? [=]]|[[? [=]]|[[? [=]]|[[? [=]]|[-> [p' ->]]]]]].
  cbn [Markdown.when_given rbind].
  exists "filename". split; [by repeat constructor|].
  rewrite (filter_by_item_raises s3 bucket_name _ "filename"); try done.
  intros f e. apply Hraise.
Qed.

Lemma filter_markdown_files_nested_witness :
  exists k,
    Markdown.filter_markdown_files
      (Markdown.get_all_markdown_files sample_s3 [] [])
      {| Markdown.min_size := None; Markdown.max_size := None;
         Markdown.has_content := Some true; Markdown.min_words := None;
         Markdown.contains_text := None;
         Markdown.filename_pattern := None |}
    = Raise (Exn "KeyError" ("'" +:+ k +:+ "'")).
Proof.
  destruct (filter_markdown_files_nested sample_s3 [] []
              {| Markdown.min_size := None; Markdown.max_size := None;
                 Markdown.has_content := Some true;
                 Markdown.min_words := None;
                 Markdown.contains_text := None;
                 Markdown.filename_pattern := None |})
    as (k & _ & Hk).
  - vm_compute. discriminate.
  - right. right. left. by eexists.
  - by exists k.
Defined.

Section Counts.

Import pystr.

Lemma drop_while_nil f l : drop_while f l = [] <-> forallb f l = true.
Proof.
  induction l as [|c l IH]; [done|]. cbn. destruct (f c); [exact IH|done].
Qed.

Lemma forallb_rev {A} (f : A -> bool) l : forallb f (rev l) = forallb f l.
Proof.
  induction l as [|x l IH]; [done|]. cbn.
  rewrite forallb_app, IH. cbn. rewrite andb_true_r. apply andb_comm.
Qed.

Lemma rstrip_nil l : rstrip l = [] <-> forallb isspace l = true.
Proof.
  unfold rstrip. rewrite <- (forallb_rev isspace l), <- drop_while_nil.
  split; [|by intros ->].
  intros H. apply (f_equal (@rev ascii)) in H.
  by rewrite rev_involutive in H.
Qed.

(** A text is blank when [strip] leaves nothing of it. *)
Lemma strip_nil l : strip l = [] <-> forallb isspace l = true.
Proof.
  unfold strip, lstrip. rewrite rstrip_nil.
  destruct (drop_while isspace l) as [|c m] eqn:E.
  - split; [intros _; by apply drop_while_nil|done].
  - pose proof (drop_while_head _ _ _ _ E) as Hc. cbn. rewrite Hc. cbn.
    split; [done|]. intros H. apply drop_while_nil in H. congruence.
Qed.

Lemma words_from_word l c word : words_from l (c :: word) ≠ [].
Proof.
  revert c word. induction l as [|x l IH]; intros c word; cbn.
  - done.
  - destruct (isspace x); [done|apply IH].
Qed.

(** [split()] finds no word exactly in a blank text. *)
Lemma split_nil l : split l = [] <-> forallb isspace l = true.
Proof.
  unfold split. induction l as [|c l IH]; [done|]. cbn.
  destruct (isspace c); cbn; [exact IH|].
  split; [|done]. intros H. by apply words_from_word in H.
Qed.

Lemma words_from_length l word :
  (length (words_from l word)
   <= length l + match word with [] => 0 | _ => 1 end)%nat.
Proof.
  revert word. induction l as [|c l IH]; intros word; cbn.
  - destruct word; cbn; lia.
  - destruct (isspace c).
    + destruct word; cbn; specialize (IH []); cbn in IH; lia.
    + specialize (IH (c :: word)). cbn in IH. destruct word; lia.
Qed.

Lemma split_length l : (length (split l) <= length l)%nat.
Proof. unfold split. pose proof (words_from_length l []). cbn in H. lia. Qed.

Lemma split_on_length_le sep l :
  (1 <= length (split_on sep l) <= S (length l))%nat.
Proof.
  rewrite split_on_length. split; [lia|].
  apply le_n_S. induction l as [|c l IH]; [done|]. cbn.
  destruct (bool_decide (c = sep)); cbn; lia.
Qed.

Lemma headers_length content :
  (length (MarkdownProcessor._extract_markdown_headers (Some content))
   <= length (split_on newline content))%nat.
Proof.
  unfold MarkdownProcessor._extract_markdown_headers.
  destruct content as [|c0 content]; [cbn; lia|].
  generalize (split_on newline (c0 :: content)). intros ls.
  induction ls as [|x ls IH]; [done|]. cbn.
  destruct (MarkdownProcessor.header_of_line x); cbn; lia.
Qed.

End Counts.

(** X25. The counts of a Markdown file. In every file
    [get_all_markdown_files] returns, the metadata agree with each other:
    the file has content exactly when it has at least one word, there are
    no more words than characters, a file with characters has between one
    line and one more line than characters, a file without characters
    (or one that could not be read) has no lines, and there are no more
    headers than lines. *)
Theorem markdown_file_counts (s3 : S3Client.boto3) (bucket_name prefix : text)
    (f : gmap string pyvalue) :
  f ∈ Markdown.get_all_markdown_files s3 bucket_name prefix ->
  exists m (b : bool) (words lines chars : Z) (headers : list text),
    f !! "metadata" = Some (Dict m) /\
    m !! "has_content" = Some (PyBool b) /\
    m !! "word_count" = Some (PyInt words) /\
    m !! "line_count" = Some (PyInt lines) /\
    m !! "content_length" = Some (PyInt chars) /\
    m !! "headers" = Some (PyStrList headers) /\
    (b = true <-> 0 < words) /\
    0 <= words <= chars /\
    (0 < chars -> 1 <= lines <= chars + 1) /\
    (chars = 0 -> lines = 0) /\
    Z.of_nat (length headers) <= lines.
Proof.
  unfold Markdown.get_all_markdown_files. intros Hf.
  apply list_elem_of_fmap in Hf as (obj & -> & _).
  set (content := S3Client.get_object_content s3 bucket_name (S3Client.Key obj)).
  set (t := default [] content).
  eexists _, _, _, _, _, _.
  split; [apply markdown_file_metadata|].
  do 5 (split; [reflexivity|]).
  fold content. fold t.
  pose proof (split_length t) as Hw.
  pose proof (split_on_length_le newline t) as Hl.
  assert (Hh : (length (MarkdownProcessor._extract_markdown_headers content)
                <= if negb (is_empty t) then length (pystr.split_on newline t)
                   else 0)%nat).
  { subst t. destruct content as [[|c0 c]|]; cbn [default from_option id negb is_empty];
      [cbn; lia| |cbn; lia].
    apply headers_length. }
  split; [|split; [|split; [|split]]].
  - rewrite negb_true_iff. split.
    + intros Hb.
      assert (Hs : pystr.strip t ≠ []) by (intros Hs; by rewrite Hs in Hb).
      rewrite strip_nil, <- split_nil in Hs.
      destruct (pystr.split t); [done|cbn; lia].
    + intros Hwords.
      assert (Hs : pystr.split t ≠ []) by (intros Hs; rewrite Hs in Hwords; cbn in Hwords; lia).
      rewrite split_nil, <- strip_nil in Hs.
      by destruct (pystr.strip t).
  - lia.
  - intros Hc. destruct t; cbn in Hc |- *; [lia|]. cbn in Hl. lia.
  - intros Hc. destruct t; [done|]. cbn in Hc. lia.
  - destruct (negb (is_empty t)); lia.
Qed.

Lemma markdown_file_counts_witness :
  exists m,
    Markdown.markdown_file sample_s3 [] sample_object !! "metadata"
    = Some (Dict m) /\
    m !! "word_count" = Some (PyInt 2).
Proof.
  destruct (markdown_file_counts sample_s3 [] []
              (Markdown.markdown_file sample_s3 [] sample_object))
    as (m & b & words & lines & chars & headers & Hm & _ & Hw & _).
  - left.
  - exists m. split; [exact Hm|].
    rewrite Hw. f_equal. f_equal.
    vm_compute in Hm. injection Hm as <-. vm_compute in Hw. by injection Hw.
Defined.

(** ** The script *)

(** X26. The script rebuilds from the changed documents only. When
    [main] of [scripts/embeddings_maker.py] runs to its end, the index it
    has saved is the one built from the chunks of the new or changed
    documents alone, whatever index was on disk before, while the hash
    file it has written records every fetched document as current; the
    unchanged documents are no longer in the saved index. *)
Theorem main_saves_changed_documents_only (w : world)
    (documents : list document) (prev : gmap string string)
    (f : hash_file_t) (s s' : state) :
  loader_load w = Ok documents ->
  Forall has_key documents ->
  hash_file s = Some f ->
  hf_content f = Parsable (JDict prev) ->
  embeddings_maker.main w s = (Ok None, s') ->
  exists chunks ix,
    filter (to_process w prev) documents ≠ [] /\
    split_documents w (filter (to_process w prev) documents) = Ok chunks /\
    from_documents w chunks = Ok ix /\
    store_dir s'
    = Some {| st_index := Some ix; st_bytes := saved_size w ix |} /\
    hash_file s'
    = Some {| hf_content :=
                Parsable (JDict (foldl (record_hash w) ∅ documents));
              hf_mtime := now w |} /\
    vector_store s' = vector_store s.
Proof.
  intros Hload Hk Hf Hc.
  unfold embeddings_maker.main, hash_file_exists, hash_file_read_json,
    load_documents, RecursiveCharacterTextSplitter,
    text_splitter_split_documents, FAISS_from_documents, store_dir_exists,
    store_dir_mkdir, save_local, hash_file_write.
  unfold_monad. cbn.
  destruct (hash_exists_error w); cbn; [done|]. rewrite Hf. cbn.
  destruct (hash_read_error w); cbn; [done|]. rewrite Hf, Hc, Hload. cbn.
  rewrite classify_loop_dict by done. cbn.
  destruct (filter (to_process w prev) documents) as [|d new_docs] eqn:Hnew;
    cbn; [done|].
  destruct (splitter_error w); cbn; [done|].
  destruct (split_documents w (d :: new_docs)) as [chunks|]; cbn; [|done].
  destruct (embeddings_error w); cbn; [done|].
  destruct (from_documents w chunks) as [ix|] eqn:Hix; cbn; [|done].
  destruct (store_exists_error w); cbn; [done|].
  repeat (case_inner; cbn); intros H; try done.
  all: injection H as <-; exists chunks, ix; done.
Qed.

Lemma main_saves_changed_documents_only_witness :
  exists s',
    embeddings_maker.main
      (sample_world (Ok [doc_a; sample_doc "B" "changed"]) (Ok []) None None)
      indexed_state = (Ok None, s') /\
    store_dir s'
    = Some {| st_index := Some (sample_index [sample_doc "B" "changed"]);
              st_bytes := 100 |}.
Proof.
  set (w := sample_world (Ok [doc_a; sample_doc "B" "changed"]) (Ok []) None None).
  assert (Hrun : embeddings_maker.main w indexed_state
                 = (Ok None, (embeddings_maker.main w indexed_state).2)).
  { vm_compute. reflexivity. }
  destruct (main_saves_changed_documents_only w
              [doc_a; sample_doc "B" "changed"]
              (<["A" := "sha256:x"]> (<["B" := "sha256:y"]> ∅))
              {| hf_content :=
                   Parsable (JDict (<["A" := "sha256:x"]>
                                      (<["B" := "sha256:y"]> ∅)));
                 hf_mtime := 1700000000 |}
              indexed_state _ eq_refl
              ltac:(repeat constructor; by eexists) eq_refl eq_refl Hrun)
    as (chunks & ix & _ & Hsplit & Hix & Hstore & _).
  eexists. split; [exact Hrun|].
  rewrite Hstore.
  vm_compute in Hsplit. injection Hsplit as <-.
  vm_compute in Hix. injection Hix as <-.
  vm_compute. reflexivity.
Defined.
